(** * import_COCO_dataset.py: the split planner, the bucket assigner,
      the license tally and the ratio prompt

    A shallow embedding of [src/import_COCO_dataset.py].  Python [int] is
    [Z]; Python [float] is IEEE 754 binary64, taken from the Standard
    Library's executable specification [SpecFloat] (precision 53, [emax]
    1024, round to nearest even); a Python exception is a value of
    [PyError] carried by the [result] monad. *)

From Stdlib Require Import ZArith List String Ascii Bool Lia.
From Stdlib Require Import SpecFloat.
Import ListNotations.

Local Open Scope Z_scope.

(** ** Exceptions and the error monad

    The exceptions of the script's own statements, [OSError] for what the
    operating system raises (but for a missing file, which the script
    catches), and [CollaboratorError] for what a call of the FiftyOne
    library raises. *)

Inductive PyError : Set :=
| ZeroDivisionError
| OverflowError
| ValueError
| IndexError
| UnboundLocalError
| EOFError
| OSError
| CollaboratorError.

Inductive result (A : Type) : Type :=
| Ok (a : A)
| Raise (e : PyError).

Arguments Ok {A} a.
Arguments Raise {A} e.

Definition bind {A B : Type} (c : result A) (k : A -> result B) : result B :=
  match c with
  | Ok a => k a
  | Raise e => Raise e
  end.

Notation "x <- c ;; k" := (bind c (fun x => k))
  (at level 61, c at next level, right associativity).

Definition is_ok {A : Type} (c : result A) : bool :=
  match c with Ok _ => true | Raise _ => false end.

(** ** Python numbers *)

Module Float.

Definition prec : Z := 53.
Definition emax : Z := 1024.

Definition float : Set := spec_float.

(** A finite or infinite float is returned as it is; the callers below
    turn an infinite result of a conversion into [OverflowError]. *)
Definition finite_or_overflow (x : float) : result float :=
  match x with
  | S754_infinity _ => Raise OverflowError
  | _ => Ok x
  end.

(** [float(n)] for an [int] operand of a mixed operation: the nearest
    double, ties to even; "int too large to convert to float" otherwise. *)
Definition of_int (n : Z) : result float :=
  finite_or_overflow (binary_normalize prec emax n 0 false).

Definition mul : float -> float -> float := SFmul prec emax.
Definition add : float -> float -> float := SFadd prec emax.
Definition sub : float -> float -> float := SFsub prec emax.
Definition abs : float -> float := SFabs.
Definition ltb : float -> float -> bool := SFltb.

(** [n * x] with [n : int] and [x : float]. *)
Definition int_mul (n : Z) (x : float) : result float :=
  f <- of_int n ;; Ok (mul f x).

(** [a / b] on two [int]s: the correctly rounded quotient. *)
Definition int_truediv (a b : Z) : result float :=
  if b =? 0 then Raise ZeroDivisionError
  else
    let negate := xorb (a <? 0) (b <? 0) in
    if a =? 0 then Ok (S754_zero negate)
    else
      let '(mz, ez, lz) :=
        SFdiv_core_binary prec emax (Z.abs a) 0 (Z.abs b) 0 in
      finite_or_overflow (binary_round_aux prec emax negate mz ez lz).

(** Round half to even of [m * 2^e], for [m > 0]. *)
Definition round_half_even_mag (m : positive) (e : Z) : Z :=
  match e with
  | Zneg p =>
      let d := Z.pow_pos 2 p in
      let q := Z.pos m / d in
      let r := Z.pos m mod d in
      match 2 * r ?= d with
      | Lt => q
      | Gt => q + 1
      | Eq => if Z.even q then q else q + 1
      end
  | _ => Z.pos m * 2 ^ e
  end.

(** [round(x)] with one argument: an [int], ties to even. *)
Definition round (x : float) : result Z :=
  match x with
  | S754_zero _ => Ok 0
  | S754_finite s m e =>
      let n := round_half_even_mag m e in
      Ok (if s then - n else n)
  | S754_infinity _ => Raise OverflowError
  | S754_nan => Raise ValueError
  end.

(** The double a decimal literal [n/d] denotes (the nearest one). *)
Definition lit (n d : Z) : float :=
  match int_truediv n d with
  | Ok f => f
  | Raise _ => S754_nan
  end.

End Float.

Import Float.

(** ** Lists indexed the Python way *)

(** [l[i]] for a non-negative literal index [i]. *)
Definition index {A : Type} (l : list A) (i : nat) : result A :=
  match nth_error l i with
  | Some x => Ok x
  | None => Raise IndexError
  end.

(** ** The dataset parameters (class [Dataset]) *)

Record Dataset : Type := {
  total_number_of_images : Z;
  train_split : float;
  val_split : float;
  test_split : float;
  classes : list string;
  label_type : list string;
  pos_neg_ratio : list Z
}.

(** The tuple [split_dataset] returns, in the order of its [return]:
    train negatives, train positives, val negatives, val positives,
    test negatives, test positives. *)
Definition SplitPlan : Set := (Z * Z * Z * Z * Z * Z)%type.

(** [Dataset.split_dataset]. *)
Definition split_dataset (self : Dataset) : result SplitPlan :=
  r0 <- index (pos_neg_ratio self) 0 ;;
  r1 <- index (pos_neg_ratio self) 1 ;;
  let total := r0 + r1 in
  x <- int_mul (total_number_of_images self) (train_split self) ;;
  train_split_images <- round x ;;
  q <- int_truediv train_split_images total ;;
  n <- round q ;;
  r1 <- index (pos_neg_ratio self) 1 ;;
  let train_split_negatives := n * r1 in
  let train_split_positives := train_split_images - train_split_negatives in

  x <- int_mul (total_number_of_images self) (val_split self) ;;
  val_split_images <- round x ;;
  q <- int_truediv val_split_images total ;;
  n <- round q ;;
  r1 <- index (pos_neg_ratio self) 1 ;;
  let val_split_negatives := n * r1 in
  let val_split_positives := val_split_images - val_split_negatives in

  x <- int_mul (total_number_of_images self) (test_split self) ;;
  test_split_images <- round x ;;
  q <- int_truediv test_split_images total ;;
  n <- round q ;;
  r1 <- index (pos_neg_ratio self) 1 ;;
  let test_split_negatives := n * r1 in
  let test_split_positives := test_split_images - test_split_negatives in

  Ok (train_split_negatives, train_split_positives,
      val_split_negatives, val_split_positives,
      test_split_negatives, test_split_positives).

(** [Dataset.default_settings]: every field is overwritten. *)
Definition default_settings (self : Dataset) : Dataset :=
  {| total_number_of_images := 300;
     train_split := lit 7 10;
     val_split := lit 2 10;
     test_split := lit 1 10;
     classes := ["keyboard"%string];
     label_type := ["segmentations"%string];
     pos_neg_ratio := [10; 1] |}.

(** The test of the split prompt in [Dataset.user_input] (the three range
    checks and the sum check), on the three floats already read:
    [true] when the loop is left, [false] when it prompts again. *)
Definition splits_accepted (train val test : float) : bool :=
  if ltb train (lit 0 1) || ltb (lit 1 1) train then false
  else if ltb val (lit 0 1) || ltb (lit 1 1) val then false
  else if ltb test (lit 0 1) || ltb (lit 1 1) test then false
  else
    let total_split := add (add train val) test in
    if ltb (lit 1 1000) (abs (sub total_split (lit 1 1))) then false
    else true.

(** ** Samples, the three datasets and the retrieval collaborator *)

(** A FiftyOne sample, as far as this script looks at it: its identity
    and its license tag ([None] when the sample carries none). *)
Record Sample : Set := {
  sample_id : string;
  license : option string
}.

(** The dict [{"train": ..., "validation": ..., "test": ...}] that
    [load_dataset] builds: each value is the sequence of samples added so
    far, oldest first. *)
Record Datasets : Set := {
  train : list Sample;
  validation : list Sample;
  test : list Sample
}.

Definition empty_datasets : Datasets :=
  {| train := []; validation := []; test := [] |}.

Inductive SplitKey : Set := Train | Validation | Test.

(** [datasets[key].add_sample(sample)]. *)
Definition add_sample (key : SplitKey) (sample : Sample) (datasets : Datasets)
  : Datasets :=
  match key with
  | Train =>
      {| train := train datasets ++ [sample];
         validation := validation datasets;
         test := test datasets |}
  | Validation =>
      {| train := train datasets;
         validation := validation datasets ++ [sample];
         test := test datasets |}
  | Test =>
      {| train := train datasets;
         validation := validation datasets;
         test := test datasets ++ [sample] |}
  end.

(** The keyword arguments of a call of [foz.load_zoo_dataset("coco-2017", ...)]. *)
Record ZooRequest : Set := {
  zoo_split : string;
  only_matching : bool;
  include_id : bool;
  include_license : bool;
  zoo_label_types : list string;
  zoo_classes : option (list string);
  max_samples : Z;
  drop_existing : bool;
  shuffle : bool
}.

(** The call that fetches the positives (images with an instance of a
    requested class), from the corpus's train split. *)
Definition positives_request (self : Dataset) (plan : SplitPlan) : ZooRequest :=
  let '(train_negatives, train_positives, val_negatives, val_positives,
        test_negatives, test_positives) := plan in
  {| zoo_split := "train";
     only_matching := true;
     include_id := true;
     include_license := true;
     zoo_label_types := label_type self;
     zoo_classes := Some (classes self);
     max_samples := train_positives + val_positives + test_positives;
     drop_existing := true;
     shuffle := true |}.

(** The call that fetches the negatives, from the corpus's validation split. *)
Definition negatives_request (self : Dataset) (plan : SplitPlan) : ZooRequest :=
  let '(train_negatives, train_positives, val_negatives, val_positives,
        test_negatives, test_positives) := plan in
  {| zoo_split := "validation";
     only_matching := true;
     include_id := true;
     include_license := true;
     zoo_label_types := label_type self;
     zoo_classes := None;
     max_samples := train_negatives + val_negatives + test_negatives;
     drop_existing := true;
     shuffle := true |}.

(** ** The bucket assigner *)

(** One [for sample in stream] loop of [load_dataset], entered with the
    counter at [count]: the sample at counter value [c] goes to train when
    [c < n_train], else to validation when [c < n_train + n_val], else to
    test. *)
Fixpoint assign_loop (n_train n_val : Z) (stream : list Sample)
    (count : Z) (datasets : Datasets) : Datasets :=
  match stream with
  | [] => datasets
  | sample :: rest =>
      let datasets :=
        if count <? n_train then add_sample Train sample datasets
        else if count <? n_train + n_val then add_sample Validation sample datasets
        else add_sample Test sample datasets in
      assign_loop n_train n_val rest (count + 1) datasets
  end.

(** Reading a local variable that an [if] may have left unassigned. *)
Definition read_local {A : Type} (v : option A) : result A :=
  match v with
  | Some a => Ok a
  | None => Raise UnboundLocalError
  end.

(** The two loops at the end of [load_dataset], with the locals they
    read: the ratio, the six counts, and the two retrieved collections
    ([None] for one that was never assigned). *)
Definition assign (ratio : list Z) (plan : SplitPlan)
    (positives negatives : option (list Sample)) (datasets : Datasets)
  : result Datasets :=
  let '(train_negatives, train_positives, val_negatives, val_positives,
        test_negatives, test_positives) := plan in
  let count := 0 in
  r0 <- index ratio 0 ;;
  datasets <-
    (if negb (r0 =? 0) then
       stream <- read_local positives ;;
       Ok (assign_loop train_positives val_positives stream count datasets)
     else Ok datasets) ;;
  let count := 0 in
  r1 <- index ratio 1 ;;
  datasets <-
    (if negb (r1 =? 0) then
       stream <- read_local negatives ;;
       Ok (assign_loop train_negatives val_negatives stream count datasets)
     else Ok datasets) ;;
  Ok datasets.

Section Retrieval.

(** The external collaborator [foz.load_zoo_dataset]: whatever finite
    sequence of samples it yields for a request.  This is [load_dataset]
    when the library answers every call; [load_dataset_io] below is the
    method with calls that can raise. *)
Variable load_zoo_dataset : ZooRequest -> list Sample.

(** [Dataset.load_dataset].  Beside the datasets, the result lists the
    retrieval calls made, in order. *)
Definition load_dataset (self : Dataset)
  : result (list ZooRequest * Datasets) :=
  plan <- split_dataset self ;;
  let datasets := empty_datasets in
  let calls := [] in
  r0 <- index (pos_neg_ratio self) 0 ;;
  let '(calls, positives) :=
    if negb (r0 =? 0) then
      (calls ++ [positives_request self plan],
       Some (load_zoo_dataset (positives_request self plan)))
    else (calls, None) in
  r1 <- index (pos_neg_ratio self) 1 ;;
  let '(calls, negatives) :=
    if negb (r1 =? 0) then
      (calls ++ [negatives_request self plan],
       Some (load_zoo_dataset (negatives_request self plan)))
    else (calls, None) in
  datasets <- assign (pos_neg_ratio self) plan positives negatives datasets ;;
  Ok (calls, datasets).

End Retrieval.

(** ** Image licenses (class [License]) *)

Inductive License : Set :=
| CC_BY
| CC_BY_SA
| CC_BY_ND
| CC_BY_NC
| CC_BY_NC_SA
| CC_BY_NC_ND
| OTHER
| CC0.

Definition license_id (l : License) : Z :=
  match l with
  | CC_BY => 1
  | CC_BY_SA => 2
  | CC_BY_ND => 3
  | CC_BY_NC => 4
  | CC_BY_NC_SA => 5
  | CC_BY_NC_ND => 6
  | OTHER => 7
  | CC0 => 8
  end.

Definition license_name (l : License) : string :=
  match l with
  | CC_BY => "Attribution License"
  | CC_BY_SA => "Attribution-ShareAlike License"
  | CC_BY_ND => "Attribution-NoDerivs License"
  | CC_BY_NC => "Attribution-NonCommercial License"
  | CC_BY_NC_SA => "Attribution-NonCommercial-ShareAlike License"
  | CC_BY_NC_ND => "Attribution-NonCommercial-NoDerivs License"
  | OTHER => "No known copyright restrictions"
  | CC0 => "United States Government Work"
  end.

Definition license_url (l : License) : string :=
  match l with
  | CC_BY => "https://creativecommons.org/licenses/by/4.0/"
  | CC_BY_SA => "https://creativecommons.org/licenses/by-sa/4.0/"
  | CC_BY_ND => "https://creativecommons.org/licenses/by-nd/4.0/"
  | CC_BY_NC => "https://creativecommons.org/licenses/by-nc/4.0/"
  | CC_BY_NC_SA => "https://creativecommons.org/licenses/by-nc-sa/4.0/"
  | CC_BY_NC_ND => "https://creativecommons.org/licenses/by-nc-nd/4.0/"
  | OTHER => "http://flickr.com/commons/usage/e"
  | CC0 => "http://www.usa.gov/copyright.shtml"
  end.

(** Iterating over the class: the members in definition order. *)
Definition License_members : list License :=
  [CC_BY; CC_BY_SA; CC_BY_ND; CC_BY_NC; CC_BY_NC_SA; CC_BY_NC_ND; OTHER; CC0].

Definition License_eqb (a b : License) : bool :=
  license_id a =? license_id b.

(** [license_enum.license_name == name], where [name] may be [None]. *)
Definition name_matches (l : License) (name : option string) : bool :=
  match name with
  | Some s => String.eqb (license_name l) s
  | None => false
  end.

(** The [for] loop of [License.from_name] over the members still to visit. *)
Fixpoint from_name_loop (members : list License) (name : option string)
  : License :=
  match members with
  | [] => CC0
  | license_enum :: rest =>
      if name_matches license_enum name then license_enum
      else from_name_loop rest name
  end.

(** [License.from_name]. *)
Definition from_name (name : option string) : License :=
  from_name_loop License_members name.

(** ** The license report ([license_info]) *)

(** The dict [license_counter]: it holds every member as a key from its
    creation on, so it is a total map. *)
Definition Counter : Set := License -> Z.

Definition zero_counter : Counter := fun _ => 0.

(** [license_counter[key] += 1]. *)
Definition increment (key : License) (license_counter : Counter) : Counter :=
  fun l => if License_eqb l key then license_counter l + 1 else license_counter l.

(** The inner loop [for sample in datasets[split]]. *)
Fixpoint tally (samples : list Sample) (license_counter : Counter) : Counter :=
  match samples with
  | [] => license_counter
  | sample :: rest =>
      let license_enum := from_name (license sample) in
      tally rest (increment license_enum license_counter)
  end.

(** Iterating over the dict of datasets: keys in insertion order. *)
Definition items (datasets : Datasets) : list (string * list Sample) :=
  [("train"%string, train datasets);
   ("validation"%string, validation datasets);
   ("test"%string, test datasets)].

(** What the report says of one split: its name, [len(datasets[split])]
    and the count of every member, in definition order. *)
Record SplitReport : Set := {
  report_split : string;
  report_total : Z;
  report_counts : list (License * Z)
}.

Definition split_report (entry : string * list Sample) : SplitReport :=
  let '(split, samples) := entry in
  let license_counter := tally samples zero_counter in
  {| report_split := split;
     report_total := Z.of_nat (List.length samples);
     report_counts :=
       map (fun license_enum => (license_enum, license_counter license_enum))
           License_members |}.

(** [license_info]: one report per split, in the order they are written. *)
Definition license_info (datasets : Datasets) : list SplitReport :=
  map split_report (items datasets).

(** ** The ratio prompt of [Dataset.user_input]

    Lines typed by the user are strings of ASCII characters.  The limit
    CPython 3.11 puts on the number of digits of a parsed integer is a
    parameter, [int_max_str_digits] ([0] switches it off). *)

(** [str.isspace] on an ASCII character: tab to carriage return, the four
    separators 28 to 31, and the space. *)
Definition is_space (c : ascii) : bool :=
  let n := nat_of_ascii c in
  ((9 <=? n) && (n <=? 13) || (28 <=? n) && (n <=? 32))%nat.

Definition is_digit (c : ascii) : bool :=
  let n := nat_of_ascii c in
  ((48 <=? n) && (n <=? 57))%nat.

Definition digit_value (c : ascii) : Z :=
  Z.of_nat (nat_of_ascii c) - 48.

Fixpoint lstrip (s : list ascii) : list ascii :=
  match s with
  | c :: rest => if is_space c then lstrip rest else s
  | [] => []
  end.

(** [s.strip()]. *)
Definition strip (s : list ascii) : list ascii :=
  rev (lstrip (rev (lstrip s))).

(** [s.split(sep)] for a one-character separator: never an empty list. *)
Fixpoint split_on (sep : ascii) (s : list ascii) : list (list ascii) :=
  match s with
  | [] => [[]]
  | c :: rest =>
      if Ascii.eqb c sep then [] :: split_on sep rest
      else
        match split_on sep rest with
        | piece :: pieces => (c :: piece) :: pieces
        | [] => [[c]]
        end
  end.

(** The digits of a base-10 literal after its sign: decimal digits, with
    single underscores allowed between two digits.  Returns the value and
    the number of digits read. *)
Fixpoint parse_digits (s : list ascii) (acc : Z) (ndigits : Z)
    (after_digit : bool) : option (Z * Z) :=
  match s with
  | [] => if after_digit then Some (acc, ndigits) else None
  | c :: rest =>
      if is_digit c then
        parse_digits rest (10 * acc + digit_value c) (ndigits + 1) true
      else if Ascii.eqb c "_" then
        if after_digit then parse_digits rest acc ndigits false else None
      else None
  end.

(** The whitespace [int] skips at both ends of an ASCII string: tab to
    carriage return and the space. *)
Definition is_int_space (c : ascii) : bool :=
  let n := nat_of_ascii c in
  ((9 <=? n) && (n <=? 13) || (n =? 32))%nat.

Fixpoint lstrip_int (s : list ascii) : list ascii :=
  match s with
  | c :: rest => if is_int_space c then lstrip_int rest else s
  | [] => []
  end.

Definition strip_int (s : list ascii) : list ascii :=
  rev (lstrip_int (rev (lstrip_int s))).

Section IntOfStr.

Variable int_max_str_digits : Z.

(** [int(s)] on a string: the whitespace of C at both ends is skipped
    (not the separators 28 to 31, which only [str.strip] removes), then
    come an optional sign and the digits. *)
Definition int_of_str (s : list ascii) : result Z :=
  let body := strip_int s in
  let '(negative, digits) :=
    match body with
    | c :: rest =>
        if Ascii.eqb c "-" then (true, rest)
        else if Ascii.eqb c "+" then (false, rest)
        else (false, body)
    | [] => (false, body)
    end in
  match parse_digits digits 0 0 false with
  | Some (n, ndigits) =>
      if (0 <? int_max_str_digits) && (int_max_str_digits <? ndigits)
      then Raise ValueError
      else Ok (if negative then - n else n)
  | None => Raise ValueError
  end.

(** The list comprehension [[int(x.strip()) for x in pieces]]: the first
    piece that does not parse raises. *)
Fixpoint ints_of_pieces (pieces : list (list ascii)) : result (list Z) :=
  match pieces with
  | [] => Ok []
  | x :: rest =>
      n <- int_of_str (strip x) ;;
      ns <- ints_of_pieces rest ;;
      Ok (n :: ns)
  end.

Definition ratio_prompt_text : string :=
  "Enter the desired ratio of images with class to images without class, separated by a colon: ".

(** The console: the lines still to be read and what was printed. *)
Record Console : Set := {
  stdin : list string;
  stdout : list string
}.

(** The [while True] loop that reads the ratio, run on the lines
    [lines] with [printed] already on the screen.  It returns the value
    stored in [self.pos_neg_ratio], or the exception that leaves the
    loop ([EOFError] when the input ends; it is not caught). *)
Fixpoint ratio_loop (lines : list string) (printed : list string)
  : result (list Z) * Console :=
  match lines with
  | [] =>
      (Raise EOFError,
       {| stdin := []; stdout := printed ++ [ratio_prompt_text] |})
  | ratio_input :: rest =>
      let printed := printed ++ [ratio_prompt_text] in
      match ints_of_pieces (split_on ":" (list_ascii_of_string ratio_input)) with
      | Ok pos_neg_ratio =>
          (Ok pos_neg_ratio, {| stdin := rest; stdout := printed |})
      | Raise ValueError =>
          ratio_loop rest (printed ++ ["Please enter valid numbers"%string])
      | Raise e =>
          (Raise e, {| stdin := rest; stdout := printed |})
      end
  end.

(** The ratio step of [user_input]: the field is assigned only when the
    loop is left by [break]. *)
Definition user_input_ratio (self : Dataset) (io : Console)
  : result Dataset * Console :=
  match ratio_loop (stdin io) (stdout io) with
  | (Ok ratio, io') =>
      (Ok {| total_number_of_images := total_number_of_images self;
             train_split := train_split self;
             val_split := val_split self;
             test_split := test_split self;
             classes := classes self;
             label_type := label_type self;
             pos_neg_ratio := ratio |}, io')
  | (Raise e, io') => (Raise e, io')
  end.

End IntOfStr.

(** * The split planner *)

(** ** The planner as the specification words it

    [plan(total_images, train_frac, val_frac, test_frac, pos_neg_ratio)]:
    for each split, [split_images = round(total_images * frac)],
    [split_negatives = round(split_images / ratio_total) * negative] and
    [split_positives = split_images - split_negatives]. *)

Definition split_images (total_images : Z) (frac : float) : result Z :=
  x <- int_mul total_images frac ;; round x.

Definition split_counts (total_images : Z) (frac : float)
    (ratio_total negative : Z) : result (Z * Z) :=
  images <- split_images total_images frac ;;
  q <- int_truediv images ratio_total ;;
  n <- round q ;;
  let split_negatives := n * negative in
  let split_positives := images - split_negatives in
  Ok (split_negatives, split_positives).

Definition plan (total_images : Z) (train_frac val_frac test_frac : float)
    (positive negative : Z) : result SplitPlan :=
  let ratio_total := positive + negative in
  tr <- split_counts total_images train_frac ratio_total negative ;;
  va <- split_counts total_images val_frac ratio_total negative ;;
  te <- split_counts total_images test_frac ratio_total negative ;;
  Ok (fst tr, snd tr, fst va, snd va, fst te, snd te).

(** A split fraction as the prompt means it: a binary64 number between
    0 and 1. *)
Definition is_fraction (f : float) : bool :=
  valid_binary prec emax f && SFleb (lit 0 1) f && SFleb f (lit 1 1).

(** A request the planner can handle: a total below [2^1000] in magnitude
    and three fractions. *)
Definition plannable (self : Dataset) : bool :=
  (Z.abs (total_number_of_images self) <? 2 ^ 1000)
  && is_fraction (train_split self)
  && is_fraction (val_split self)
  && is_fraction (test_split self).

(** What is known of a float that a conversion or an operation returned
    without overflow: it is a zero or a finite number of magnitude at most
    [M] and exponent at most 971. *)
Definition within (M : Z) (x : float) : Prop :=
  match x with
  | S754_zero _ => True
  | S754_finite _ m e => Zdigits2 (Z.pos m) + e <= M /\ e <= 971
  | _ => False
  end.

(** A request with the given numbers and no class or label type. *)
Definition request (total_images : Z) (train_frac val_frac test_frac : float)
    (ratio : list Z) : Dataset :=
  {| total_number_of_images := total_images;
     train_split := train_frac;
     val_split := val_frac;
     test_split := test_frac;
     classes := [];
     label_type := [];
     pos_neg_ratio := ratio |}.

(** ** The end of [main]

    What [main] does once the parameters are set: [load_dataset], the
    optional license report, then the export (the export collaborator is
    left out).  No statement here sits in a [try]. *)

Definition main_tail (load_zoo_dataset : ZooRequest -> list Sample)
    (dataset_params : Dataset) (want_license_info : bool)
  : result (list ZooRequest * Datasets * option (list SplitReport)) :=
  loaded <- load_dataset load_zoo_dataset dataset_params ;;
  let '(calls, datasets) := loaded in
  let report :=
    if want_license_info then Some (license_info datasets) else None in
  Ok (calls, datasets, report).

(** ** The bucket assigner as the specification words it

    [assign(positive_stream, negative_stream, plan)]: the first
    [train_positives] items go to train, the next [val_positives] to
    validation, the remainder up to [test_positives] to test, and items
    beyond the three quotas are ignored; then the same for the negatives. *)

Definition quota_slice (before quota : Z) (stream : list Sample) : list Sample :=
  firstn (Z.to_nat quota) (skipn (Z.to_nat before) stream).

Definition spec_assign (plan : SplitPlan)
    (positive_stream negative_stream : list Sample) : Datasets :=
  let '(train_negatives, train_positives, val_negatives, val_positives,
        test_negatives, test_positives) := plan in
  {| train :=
       quota_slice 0 train_positives positive_stream
       ++ quota_slice 0 train_negatives negative_stream;
     validation :=
       quota_slice train_positives val_positives positive_stream
       ++ quota_slice train_negatives val_negatives negative_stream;
     test :=
       quota_slice (train_positives + val_positives) test_positives positive_stream
       ++ quota_slice (train_negatives + val_negatives) test_negatives negative_stream |}.

(** All six counts of a plan are non-negative. *)
Definition plan_nonneg (plan : SplitPlan) : Prop :=
  let '(train_negatives, train_positives, val_negatives, val_positives,
        test_negatives, test_positives) := plan in
  0 <= train_negatives /\ 0 <= train_positives /\
  0 <= val_negatives /\ 0 <= val_positives /\
  0 <= test_negatives /\ 0 <= test_positives.

(** Three samples with distinct identities, for the examples. *)
Definition sample (id : string) : Sample :=
  {| sample_id := id; license := None |}.

(** A retrieval collaborator for the examples: two positives in the
    corpus's train split, five negatives in its validation split, cut at
    [max_samples]. *)
Definition example_zoo (request : ZooRequest) : list Sample :=
  firstn (Z.to_nat (max_samples request))
    (if String.eqb (zoo_split request) "train"
     then [sample "p1"; sample "p2"]
     else [sample "n1"; sample "n2"; sample "n3"; sample "n4"; sample "n5"]).

(** How many samples of a split are tallied under a given member. *)
Definition count_license (l : License) (samples : list Sample) : Z :=
  Z.of_nat (List.length
    (filter (fun s => License_eqb (from_name (license s)) l) samples)).

(** A sample carrying a license tag, for the examples. *)
Definition tagged (id tag : string) : Sample :=
  {| sample_id := id; license := Some tag |}.

(** The ratio of the specification's data model: a pair of non-negative
    integers, not both zero. *)
Definition valid_ratio (ratio : list Z) : bool :=
  match ratio with
  | [p; n] => (0 <=? p) && (0 <=? n) && negb ((p =? 0) && (n =? 0))
  | _ => false
  end.

(** What the screen shows after the lines [rejected] were turned down
    one after the other. *)
Definition reprompts (rejected : list string) : list string :=
  List.concat (map (fun _ => [ratio_prompt_text; "Please enter valid numbers"%string])
              rejected).

(** * Further definitions: the rest of the script *)

(** ** Helpers for the statements about the planner *)

(** A float that is a number: a zero or a finite value. *)
Definition is_finite (f : float) : bool :=
  match f with
  | S754_zero _ | S754_finite _ _ _ => true
  | _ => false
  end.

(** One of the three range tests of the split prompt:
    [not (f < 0 or f > 1)]. *)
Definition in_range (f : float) : bool :=
  negb (ltb f (lit 0 1) || ltb (lit 1 1) f).

(** [self] with another ratio (the assignment [self.pos_neg_ratio = ratio]). *)
Definition set_ratio (self : Dataset) (ratio : list Z) : Dataset :=
  {| total_number_of_images := total_number_of_images self;
     train_split := train_split self;
     val_split := val_split self;
     test_split := test_split self;
     classes := classes self;
     label_type := label_type self;
     pos_neg_ratio := ratio |}.

(** The exceptions the arithmetic of the planner can raise. *)
Definition planner_error (e : PyError) : bool :=
  match e with
  | IndexError | OverflowError | ValueError | ZeroDivisionError => true
  | UnboundLocalError | EOFError | OSError | CollaboratorError => false
  end.

(** ** Strings *)

(** [sep.join(pieces)] for a one-character separator. *)
Fixpoint join (sep : ascii) (pieces : list (list ascii)) : list ascii :=
  match pieces with
  | [] => []
  | [piece] => piece
  | piece :: rest => piece ++ sep :: join sep rest
  end.

(** [s.split(sep)] on a string. *)
Definition str_split (sep : ascii) (s : string) : list string :=
  map string_of_list_ascii (split_on sep (list_ascii_of_string s)).

(** ** The other prompts of [Dataset.user_input]

    What the script cannot compute by itself is a parameter: [float(s)]
    on a line ([None] for a [ValueError]), the text of a float formatted
    with [:.3f], and what opening and reading [available_classes.txt]
    gives the n-th time it is tried. *)

(** Opening and reading the file: its content, [FileNotFoundError],
    a [UnicodeDecodeError] of [read] (a [ValueError]), or another
    [OSError] of [open] (no permission, a directory). *)
Inductive FileRead : Set :=
| FileContent (file_content : string)
| FileNotFound
| FileUndecodable
| FileRefused.

Section UserInput.

Variable int_max_str_digits : Z.
Variable float_of_str : string -> option float.
Variable format_3f : float -> string.
Variable available_classes : nat -> FileRead.

Definition total_prompt_text : string :=
  "Enter total number of images for your dataset: ".

(** The loop that reads the total number of images. *)
Fixpoint total_loop (lines : list string) (printed : list string)
  : result Z * Console :=
  match lines with
  | [] =>
      (Raise EOFError,
       {| stdin := []; stdout := printed ++ [total_prompt_text] |})
  | line :: rest =>
      let printed := printed ++ [total_prompt_text] in
      match int_of_str int_max_str_digits (list_ascii_of_string line) with
      | Ok total_number_of_images =>
          if 0 <? total_number_of_images then
            (Ok total_number_of_images, {| stdin := rest; stdout := printed |})
          else
            total_loop rest (printed ++ ["Please enter a positive number"%string])
      | Raise ValueError =>
          total_loop rest (printed ++ ["Please enter a valid number"%string])
      | Raise e => (Raise e, {| stdin := rest; stdout := printed |})
      end
  end.

Definition train_prompt_text : string := "Enter train split proportion (0-1): ".
Definition val_prompt_text : string := "Enter val split proportion (0-1): ".
Definition test_prompt_text : string := "Enter test split proportion (0-1): ".
Definition invalid_split_text : string :=
  "Invalid input, please enter a value between 0 and 1".
Definition valid_numbers_text : string := "Please enter valid numbers".

(** [f < 0 or f > 1]. *)
Definition out_of_range (f : float) : bool :=
  ltb f (lit 0 1) || ltb (lit 1 1) f.

(** The loop that reads the three split proportions.  A line that is
    turned down sends the user back to the train proportion. *)
Fixpoint splits_loop (lines : list string) (printed : list string)
  : result (float * float * float) * Console :=
  let printed := printed ++ [train_prompt_text] in
  match lines with
  | [] => (Raise EOFError, {| stdin := []; stdout := printed |})
  | line1 :: rest1 =>
  match float_of_str line1 with
  | None => splits_loop rest1 (printed ++ [valid_numbers_text])
  | Some train_split =>
  if out_of_range train_split
  then splits_loop rest1 (printed ++ [invalid_split_text])
  else
  let printed := printed ++ [val_prompt_text] in
  match rest1 with
  | [] => (Raise EOFError, {| stdin := []; stdout := printed |})
  | line2 :: rest2 =>
  match float_of_str line2 with
  | None => splits_loop rest2 (printed ++ [valid_numbers_text])
  | Some val_split =>
  if out_of_range val_split
  then splits_loop rest2 (printed ++ [invalid_split_text])
  else
  let printed := printed ++ [test_prompt_text] in
  match rest2 with
  | [] => (Raise EOFError, {| stdin := []; stdout := printed |})
  | line3 :: rest3 =>
  match float_of_str line3 with
  | None => splits_loop rest3 (printed ++ [valid_numbers_text])
  | Some test_split =>
  if out_of_range test_split
  then splits_loop rest3 (printed ++ [invalid_split_text])
  else
  let total_split := add (add train_split val_split) test_split in
  if ltb (lit 1 1000) (abs (sub total_split (lit 1 1)))
  then
    splits_loop rest3
      (printed
       ++ [String.append "Your splits add up to "
             (String.append (format_3f total_split) ", but should equal 1.0");
           "Please re-enter your splits"%string])
  else
    (Ok (train_split, val_split, test_split),
     {| stdin := rest3; stdout := printed |})
  end end end end end end.

Definition classes_prompt_text : string :=
  "Enter the classes you want to include in your dataset, separated by commas or type help for a list of classes".

(** The loop that reads the classes; [opened] counts the [help] answers
    so far.  A [help] answer prints a heading and then the file, or
    [File not found]; a [UnicodeDecodeError] is caught with the
    [ValueError]s of the loop, and any other error of [open] leaves
    the loop. *)
Fixpoint classes_loop (lines : list string) (opened : nat)
    (printed : list string) : result (list string) * Console :=
  let printed := printed ++ [classes_prompt_text] in
  match lines with
  | [] => (Raise EOFError, {| stdin := []; stdout := printed |})
  | user_input :: rest =>
      if String.eqb user_input "help" then
        let printed := printed ++ ["Available classes: "%string] in
        match available_classes opened with
        | FileContent file_content =>
            classes_loop rest (S opened) (printed ++ [file_content])
        | FileNotFound =>
            classes_loop rest (S opened) (printed ++ ["File not found"%string])
        | FileUndecodable =>
            classes_loop rest (S opened)
              (printed ++ ["Please enter valid classes"%string])
        | FileRefused =>
            (Raise OSError, {| stdin := rest; stdout := printed |})
        end
      else (Ok (str_split "," user_input), {| stdin := rest; stdout := printed |})
  end.

Definition label_prompt_text : string :=
  "Enter the label type you want to include in your dataset, separated by commas. The available types are segmentations or detections".

(** The loop that reads the label type: one line, stored as it is. *)
Definition label_loop (lines : list string) (printed : list string)
  : result (list string) * Console :=
  let printed := printed ++ [label_prompt_text] in
  match lines with
  | [] => (Raise EOFError, {| stdin := []; stdout := printed |})
  | line :: rest => (Ok [line], {| stdin := rest; stdout := printed |})
  end.

(** [Dataset.user_input]: the five loops one after the other, each on
    what the one before left of the console.  Every field of the object
    is assigned on the way, so the result does not depend on the object
    the method is called on. *)
Definition user_input (io : Console) : result Dataset * Console :=
  match total_loop (stdin io) (stdout io) with
  | (Raise e, io) => (Raise e, io)
  | (Ok total, io) =>
  match splits_loop (stdin io) (stdout io) with
  | (Raise e, io) => (Raise e, io)
  | (Ok (train_frac, val_frac, test_frac), io) =>
  match ratio_loop int_max_str_digits (stdin io) (stdout io) with
  | (Raise e, io) => (Raise e, io)
  | (Ok ratio, io) =>
  match classes_loop (stdin io) 0 (stdout io) with
  | (Raise e, io) => (Raise e, io)
  | (Ok class_list, io) =>
  match label_loop (stdin io) (stdout io) with
  | (Raise e, io) => (Raise e, io)
  | (Ok label, io) =>
      (Ok {| total_number_of_images := total;
             train_split := train_frac;
             val_split := val_frac;
             test_split := test_frac;
             classes := class_list;
             label_type := label;
             pos_neg_ratio := ratio |}, io)
  end end end end end.

End UserInput.

(** The third line a [help] answer prints, by what the file gave. *)
Definition help_line (read : FileRead) : string :=
  match read with
  | FileContent file_content => file_content
  | FileNotFound => "File not found"
  | FileUndecodable => "Please enter valid classes"
  | FileRefused => ""
  end.


(** ** [clear_existing_data]

    The folder is what [os.listdir] returns of it: for each entry its
    name, what [os.path.isfile], [os.path.islink] and [os.path.isdir]
    answer on its path when the loop reaches it, and how the deletion
    goes ([None]: it succeeds; [Some text]: it raises an [Exception]
    whose message is [text]).  Paths are joined as on a POSIX system. *)

Definition starts_with_slash (s : string) : bool :=
  match s with
  | String c _ => Ascii.eqb c "/"
  | EmptyString => false
  end.

Fixpoint ends_with_slash (s : string) : bool :=
  match s with
  | EmptyString => false
  | String c EmptyString => Ascii.eqb c "/"
  | String _ rest => ends_with_slash rest
  end.

(** [os.path.join(a, b)]. *)
Definition os_path_join (a b : string) : string :=
  if starts_with_slash b then b
  else if String.eqb a "" || ends_with_slash a then String.append a b
  else String.append a (String "/" b).

Record Entry : Set := {
  entry_name : string;
  isfile : bool;
  islink : bool;
  isdir : bool;
  delete_error : option string
}.

Inductive PathState : Set :=
| Missing
| Folder (contents : list Entry).

(** What the script asks of its collaborators, in the order it asks. *)
Inductive Effect : Set :=
| os_makedirs (path : string)
| os_remove (path : string)
| shutil_rmtree (path : string)
| load_zoo (request : ZooRequest)
| license_file (path : string) (report : list SplitReport)
| export (export_dir label_field : string) (class_list : list string)
    (samples : list Sample).

(** The console and the calls made so far. *)
Record World : Set := {
  console : Console;
  effects : list Effect
}.

Definition print_line (line : string) (w : World) : World :=
  {| console := {| stdin := stdin (console w);
                   stdout := stdout (console w) ++ [line] |};
     effects := effects w |}.

Definition perform (call : Effect) (w : World) : World :=
  {| console := console w; effects := effects w ++ [call] |}.

(** [input()]. *)
Definition input (w : World) : result string * World :=
  match stdin (console w) with
  | [] => (Raise EOFError, w)
  | line :: rest =>
      (Ok line,
       {| console := {| stdin := rest; stdout := stdout (console w) |};
          effects := effects w |})
  end.

(** The [for item in contents] loop. *)
Fixpoint clear_loop (fiftyone_path : string) (contents : list Entry)
    (w : World) : World :=
  match contents with
  | [] => w
  | item :: rest =>
      let item_path := os_path_join fiftyone_path (entry_name item) in
      if isfile item || islink item then
        let w := perform (os_remove item_path) w in
        match delete_error item with
        | None =>
            clear_loop fiftyone_path rest
              (print_line (String.append "Deleted file: " item_path) w)
        | Some e =>
            clear_loop fiftyone_path rest
              (print_line
                 (String.append "Error deleting "
                    (String.append item_path (String.append ": " e))) w)
        end
      else if isdir item then
        let w := perform (shutil_rmtree item_path) w in
        match delete_error item with
        | None =>
            clear_loop fiftyone_path rest
              (print_line (String.append "Deleted folder: " item_path) w)
        | Some e =>
            clear_loop fiftyone_path rest
              (print_line
                 (String.append "Error deleting "
                    (String.append item_path (String.append ": " e))) w)
        end
      else clear_loop fiftyone_path rest w
  end.

Definition clear_existing_data (fiftyone_path : string) (state : PathState)
    (w : World) : World :=
  match state with
  | Missing =>
      print_line
        (String.append "Path "
           (String.append fiftyone_path " does not exist")) w
  | Folder [] => print_line "No existing datasets found" w
  | Folder contents => clear_loop fiftyone_path contents w
  end.

(** The entries the loop deletes, and the call it makes for one. *)
Definition deleted (item : Entry) : bool :=
  isfile item || islink item || isdir item.

Definition delete_call (fiftyone_path : string) (item : Entry) : Effect :=
  if isfile item || islink item
  then os_remove (os_path_join fiftyone_path (entry_name item))
  else shutil_rmtree (os_path_join fiftyone_path (entry_name item)).

(** ** [Dataset.__init__], [export_dataset] and [main] *)

(** [Dataset.__init__]: the class and the label type are wrapped in a list. *)
Definition Dataset_init (total_number_of_images : Z)
    (train_split val_split test_split : float) (classes label_type : string)
    (pos_neg_ratio : list Z) : Dataset :=
  {| total_number_of_images := total_number_of_images;
     train_split := train_split;
     val_split := val_split;
     test_split := test_split;
     classes := [classes];
     label_type := [label_type];
     pos_neg_ratio := pos_neg_ratio |}.

(** ** The run and its collaborators

    What the operating system and the FiftyOne library answer is given
    by an environment: the samples a retrieval yields when it succeeds,
    the exception, if any, that a logged call raises ([os.makedirs],
    [foz.load_zoo_dataset], the writing of the license file, an export),
    and the exceptions of [os.listdir], of the first [fo.Dataset()] that
    fails and of [add_sample], and what reading [available_classes.txt]
    gives.  The deletions of [clear_existing_data] are caught by the
    script: their outcome is given with the folder's entries. *)
Record Environment : Type := {
  zoo_samples : ZooRequest -> list Sample;
  call_error : Effect -> option PyError;
  listdir_error : option PyError;
  Dataset_error : option PyError;
  add_sample_error : SplitKey -> Sample -> option PyError;
  classes_file : nat -> FileRead
}.

(** A computation that reads and prints, makes calls and may raise. *)
Definition IO (A : Type) : Type := World -> result A * World.

Definition io_ret {A : Type} (a : A) : IO A := fun w => (Ok a, w).

Definition io_bind {A B : Type} (c : IO A) (k : A -> IO B) : IO B :=
  fun w =>
    match c w with
    | (Ok a, w') => k a w'
    | (Raise e, w') => (Raise e, w')
    end.

Notation "x <~ c ;; k" := (io_bind c (fun x => k))
  (at level 61, c at next level, right associativity).

Notation "c ;;; k" := (io_bind c (fun _ => k))
  (at level 61, right associativity).

Definition io_lift {A : Type} (r : result A) : IO A := fun w => (r, w).

Definition io_print (line : string) : IO unit :=
  fun w => (Ok tt, print_line line w).

Section Run.

Variable env : Environment.

(** A logged call: it is made, then it returns or raises. *)
Definition call (c : Effect) : IO unit :=
  fun w =>
    match call_error env c with
    | Some e => (Raise e, perform c w)
    | None => (Ok tt, perform c w)
    end.

(** [foz.load_zoo_dataset("coco-2017", ...)]. *)
Definition retrieve (request : ZooRequest) : IO (list Sample) :=
  call (load_zoo request) ;;;
  io_ret (zoo_samples env request).

(** [datasets[key].add_sample(sample)]. *)
Definition add_sample_io (key : SplitKey) (sample : Sample)
    (datasets : Datasets) : result Datasets :=
  match add_sample_error env key sample with
  | Some e => Raise e
  | None => Ok (add_sample key sample datasets)
  end.

(** One [for sample in stream] loop of [load_dataset]. *)
Fixpoint assign_loop_io (n_train n_val : Z) (stream : list Sample)
    (count : Z) (datasets : Datasets) : result Datasets :=
  match stream with
  | [] => Ok datasets
  | sample :: rest =>
      datasets <-
        (if count <? n_train then add_sample_io Train sample datasets
         else if count <? n_train + n_val
              then add_sample_io Validation sample datasets
              else add_sample_io Test sample datasets) ;;
      assign_loop_io n_train n_val rest (count + 1) datasets
  end.

(** The two loops at the end of [load_dataset]. *)
Definition assign_io (ratio : list Z) (plan : SplitPlan)
    (positives negatives : option (list Sample)) (datasets : Datasets)
  : result Datasets :=
  let '(train_negatives, train_positives, val_negatives, val_positives,
        test_negatives, test_positives) := plan in
  let count := 0 in
  r0 <- index ratio 0 ;;
  datasets <-
    (if negb (r0 =? 0) then
       stream <- read_local positives ;;
       assign_loop_io train_positives val_positives stream count datasets
     else Ok datasets) ;;
  let count := 0 in
  r1 <- index ratio 1 ;;
  datasets <-
    (if negb (r1 =? 0) then
       stream <- read_local negatives ;;
       assign_loop_io train_negatives val_negatives stream count datasets
     else Ok datasets) ;;
  Ok datasets.

(** [Dataset.load_dataset], with what it prints and the calls it makes. *)
Definition load_dataset_io (self : Dataset) : IO Datasets :=
  plan <~ io_lift (split_dataset self) ;;
  io_print "Loading COCO-2017 dataset from FiftyOne Zoo..." ;;;
  datasets <~ io_lift (match Dataset_error env with
                       | Some e => Raise e
                       | None => Ok empty_datasets
                       end) ;;
  r0 <~ io_lift (index (pos_neg_ratio self) 0) ;;
  positives <~
    (if negb (r0 =? 0) then
       stream <~ retrieve (positives_request self plan) ;; io_ret (Some stream)
     else io_ret None) ;;
  r1 <~ io_lift (index (pos_neg_ratio self) 1) ;;
  negatives <~
    (if negb (r1 =? 0) then
       stream <~ retrieve (negatives_request self plan) ;; io_ret (Some stream)
     else io_ret None) ;;
  datasets <~
    io_lift (assign_io (pos_neg_ratio self) plan positives negatives datasets) ;;
  io_print "All datasets loaded successfully!" ;;;
  io_ret datasets.

(** The loop of [Dataset.export_dataset]. *)
Fixpoint export_loop (folder_path label_field : string)
    (class_list : list string) (entries : list (string * list Sample))
  : IO unit :=
  match entries with
  | [] => io_ret tt
  | (split, samples) :: rest =>
      call (export (os_path_join folder_path split) label_field
                   class_list samples) ;;;
      export_loop folder_path label_field class_list rest
  end.

(** [Dataset.export_dataset]: one export per split, in the order of the
    dict. *)
Definition export_dataset (self : Dataset) (datasets : Datasets)
    (folder_path : string) : IO unit :=
  label_field <~ io_lift (index (label_type self) 0) ;;
  export_loop folder_path label_field (classes self) (items datasets).

Variable int_max_str_digits : Z.
Variable float_of_str : string -> option float.
Variable format_3f : float -> string.

(** [os.getcwd()], [os.path.expanduser("~/fiftyone")] and what is there. *)
Variable cwd : string.
Variable fiftyone_path : string.
Variable fiftyone : PathState.

(** [user_input] on the console of the world. *)
Definition run_user_input : IO Dataset :=
  fun w =>
    let (r, io) :=
      user_input int_max_str_digits float_of_str format_3f (classes_file env)
        (console w) in
    (r, {| console := io; effects := effects w |}).

(** [clear_existing_data] as [main] calls it: [os.listdir] may raise on
    a path that exists. *)
Definition run_clear_existing_data : IO unit :=
  fun w =>
    match fiftyone, listdir_error env with
    | Folder _, Some e => (Raise e, w)
    | _, _ => (Ok tt, clear_existing_data fiftyone_path fiftyone w)
    end.

(** [main]. *)
Definition main_io : IO unit :=
  io_print "Enter dataset name:" ;;;
  dataset_name <~ input ;;
  let folder_path := os_path_join cwd dataset_name in
  call (os_makedirs folder_path) ;;;
  io_print "Do you want to clear existing data? (y/n)" ;;;
  clear_answer <~ input ;;
  (if String.eqb clear_answer "y"
        then run_clear_existing_data else io_ret tt) ;;;
  let dataset_params :=
    Dataset_init 0 (S754_zero false) (S754_zero false) (S754_zero false)
      "" "" [0; 0] in
  io_print "Do you want to use default settings? (y/n)" ;;;
  default_answer <~ input ;;
  dataset_params <~
    (if String.eqb default_answer "y"
     then io_ret (default_settings dataset_params)
     else run_user_input) ;;
  io_print "Loading dataset..." ;;;
  datasets <~ load_dataset_io dataset_params ;;
  io_print "Dataset loaded successfully!" ;;;
  io_print "Do you want a text file with license information? (y/n)" ;;;
  license_answer <~ input ;;
  (if String.eqb license_answer "y"
        then call (license_file (os_path_join cwd "license_info.txt")
                     (license_info datasets))
        else io_ret tt) ;;;
  io_print "Exporting dataset..." ;;;
  export_dataset dataset_params datasets folder_path ;;;
  io_print "Dataset exported successfully!".

End Run.

(** The environment in which no call fails, a retrieval yields what
    [zoo] says and the classes file is there or is missing. *)
Definition calm (zoo : ZooRequest -> list Sample)
    (available_classes : option string) : Environment :=
  {| zoo_samples := zoo;
     call_error := fun _ => None;
     listdir_error := None;
     Dataset_error := None;
     add_sample_error := fun _ _ => None;
     classes_file :=
       fun _ =>
         match available_classes with
         | Some file_content => FileContent file_content
         | None => FileNotFound
         end |}.

(** An environment in which no call of the operating system or of the
    library fails. *)
Definition succeeds (env : Environment) : Prop :=
  (forall c, call_error env c = None)
  /\ listdir_error env = None
  /\ Dataset_error env = None
  /\ (forall key sample, add_sample_error env key sample = None).

(** The exception [e] is one the environment raises. *)
Definition raised_by (env : Environment) (e : PyError) : Prop :=
  (exists c, call_error env c = Some e)
  \/ listdir_error env = Some e
  \/ Dataset_error env = Some e
  \/ (exists key sample, add_sample_error env key sample = Some e)
  \/ (e = OSError /\ exists n, classes_file env n = FileRefused).

(** [main] when no call fails. *)
Definition main (int_max_str_digits : Z)
    (float_of_str : string -> option float) (format_3f : float -> string)
    (available_classes : option string)
    (load_zoo_dataset : ZooRequest -> list Sample)
    (cwd fiftyone_path : string) (fiftyone : PathState)
  : World -> result unit * World :=
  main_io (calm load_zoo_dataset available_classes) int_max_str_digits
    float_of_str format_3f cwd fiftyone_path fiftyone.

(** What [os.listdir] gives of the path ([[]] when it is missing). *)
Definition contents_of (state : PathState) : list Entry :=
  match state with
  | Missing => []
  | Folder contents => contents
  end.

(** The deletions of [clear_existing_data], in the order of the listing. *)
Definition clear_calls (fiftyone_path : string) (state : PathState)
  : list Effect :=
  map (delete_call fiftyone_path) (filter deleted (contents_of state)).

(** The calls that write a result: the license file and the exports. *)
Definition is_output (call : Effect) : bool :=
  match call with
  | license_file _ _ | export _ _ _ _ => true
  | _ => false
  end.

(** The three exports of [export_dataset]. *)
Definition exports (folder_path label_field : string)
    (class_list : list string) (datasets : Datasets) : list Effect :=
  [export (os_path_join folder_path "train") label_field class_list
     (train datasets);
   export (os_path_join folder_path "validation") label_field class_list
     (validation datasets);
   export (os_path_join folder_path "test") label_field class_list
     (test datasets)].

(** ** A run for the examples *)

(** [float] on the three lines the examples type. *)
Definition example_float_of_str (line : string) : option float :=
  if String.eqb line "0.7" then Some (lit 7 10)
  else if String.eqb line "0.2" then Some (lit 2 10)
  else if String.eqb line "0.1" then Some (lit 1 10)
  else None.

(** A folder with a file whose deletion fails, a folder and a socket. *)
Definition example_fiftyone : PathState :=
  Folder
    [ {| entry_name := "config.json"; isfile := true; islink := false;
         isdir := false; delete_error := Some "Permission denied"%string |};
      {| entry_name := "coco-2017"; isfile := false; islink := false;
         isdir := true; delete_error := None |};
      {| entry_name := "db.sock"; isfile := false; islink := false;
         isdir := false; delete_error := None |} ].

Definition example_world (lines : list string) : World :=
  {| console := {| stdin := lines; stdout := [] |}; effects := [] |}.

Definition example_main (env : Environment) (lines : list string)
  : result unit * World :=
  main_io env 4300 example_float_of_str (fun _ => "0.000"%string)
    "/home/user" "/home/user/fiftyone" example_fiftyone (example_world lines).

(** ** Helper lemmas *)

Lemma bind_Ok_inv {A B : Type} (c : result A) (k : A -> result B) (b : B) :
  bind c k = Ok b -> exists a, c = Ok a /\ k a = Ok b.
Proof.
  destruct c as [a | e]; simpl; intros H.
  - exists a. split; [reflexivity | exact H].
  - discriminate H.
Qed.

Ltac bind_inv H :=
  let a := fresh "v" in
  let Ha := fresh "E" in
  apply bind_Ok_inv in H; destruct H as (a & Ha & H).

Lemma split_dataset_plan (self : Dataset) (p n : Z) (rest : list Z) :
  pos_neg_ratio self = p :: n :: rest ->
  split_dataset self =
    plan (total_number_of_images self)
         (train_split self) (val_split self) (test_split self) p n.
Proof.
  intros Hratio.
  unfold split_dataset, plan, split_counts, split_images.
  rewrite Hratio. cbn [index nth_error bind].
  destruct (int_mul (total_number_of_images self) (train_split self)) as [x1 | e];
    cbn [bind]; [ | reflexivity].
  destruct (round x1) as [i1 | e]; cbn [bind]; [ | reflexivity].
  destruct (int_truediv i1 (p + n)) as [q1 | e]; cbn [bind]; [ | reflexivity].
  destruct (round q1) as [n1 | e]; cbn [bind]; [ | reflexivity].
  destruct (int_mul (total_number_of_images self) (val_split self)) as [x2 | e];
    cbn [bind]; [ | reflexivity].
  destruct (round x2) as [i2 | e]; cbn [bind]; [ | reflexivity].
  destruct (int_truediv i2 (p + n)) as [q2 | e]; cbn [bind]; [ | reflexivity].
  destruct (round q2) as [n2 | e]; cbn [bind]; [ | reflexivity].
  destruct (int_mul (total_number_of_images self) (test_split self)) as [x3 | e];
    cbn [bind]; [ | reflexivity].
  destruct (round x3) as [i3 | e]; cbn [bind]; [ | reflexivity].
  destruct (int_truediv i3 (p + n)) as [q3 | e]; cbn [bind]; [ | reflexivity].
  destruct (round q3) as [n3 | e]; cbn [bind]; reflexivity.
Qed.

Lemma split_counts_sum (total_images : Z) (frac : float) (rt neg a b : Z) :
  split_counts total_images frac rt neg = Ok (a, b) ->
  split_images total_images frac = Ok (a + b).
Proof.
  unfold split_counts. intros H.
  bind_inv H. bind_inv H. bind_inv H.
  injection H as <- <-. rewrite E. f_equal. lia.
Qed.

Lemma plan_Ok_inv (total_images : Z) (f1 f2 f3 : float) (p n : Z)
    (tn tp vn vp ten tep : Z) :
  plan total_images f1 f2 f3 p n = Ok (tn, tp, vn, vp, ten, tep) ->
  split_counts total_images f1 (p + n) n = Ok (tn, tp) /\
  split_counts total_images f2 (p + n) n = Ok (vn, vp) /\
  split_counts total_images f3 (p + n) n = Ok (ten, tep).
Proof.
  unfold plan. intros H.
  bind_inv H. bind_inv H. bind_inv H.
  destruct v as [a b], v0 as [c d], v1 as [e f]. simpl in H.
  injection H as <- <- <- <- <- <-. auto.
Qed.

Lemma int_truediv_ZeroDivisionError (a b : Z) :
  int_truediv a b = Raise ZeroDivisionError <-> b = 0.
Proof.
  unfold int_truediv. split.
  - destruct (Z.eqb_spec b 0) as [-> | Hb]; [reflexivity | ].
    destruct (a =? 0); [discriminate | ].
    destruct (SFdiv_core_binary prec emax (Z.abs a) 0 (Z.abs b) 0) as [[mz ez] lz].
    destruct (binary_round_aux prec emax (xorb (a <? 0) (b <? 0)) mz ez lz);
      simpl; discriminate.
  - intros ->. reflexivity.
Qed.

Lemma round_not_ZeroDivisionError (x : float) :
  round x <> Raise ZeroDivisionError.
Proof. destruct x; simpl; discriminate. Qed.

Lemma int_mul_not_ZeroDivisionError (n : Z) (x : float) :
  int_mul n x <> Raise ZeroDivisionError.
Proof.
  unfold int_mul, of_int.
  destruct (binary_normalize prec emax n 0 false); simpl; discriminate.
Qed.

Lemma split_counts_not_ZeroDivisionError (total_images : Z) (frac : float)
    (rt neg : Z) :
  rt <> 0 -> split_counts total_images frac rt neg <> Raise ZeroDivisionError.
Proof.
  intros Hrt. unfold split_counts, split_images.
  pose proof (int_mul_not_ZeroDivisionError total_images frac) as H1.
  destruct (int_mul total_images frac) as [x | e]; cbn [bind];
    [ | congruence].
  pose proof (round_not_ZeroDivisionError x) as H2.
  destruct (round x) as [i | e]; cbn [bind]; [ | congruence].
  pose proof (proj1 (int_truediv_ZeroDivisionError i rt)) as H3.
  destruct (int_truediv i rt) as [q | e]; cbn [bind];
    [ | intros H; injection H as ->; auto].
  pose proof (round_not_ZeroDivisionError q) as H4.
  destruct (round q) as [m | e]; cbn [bind]; congruence.
Qed.

(** * Floats that stay finite *)

(** ** Magnitudes in the binary64 format *)

Lemma digits2_pos_size (p : positive) : digits2_pos p = Pos.size p.
Proof. induction p; simpl; congruence. Qed.

Lemma Zdigits2_nonneg (m : Z) : 0 <= Zdigits2 m.
Proof. destruct m; simpl; lia. Qed.

(** A non-negative integer has at most [k] binary digits exactly when it
    is below [2^k]. *)
Lemma Zdigits2_le_iff (m k : Z) :
  0 <= m -> 0 <= k -> (Zdigits2 m <= k <-> m < 2 ^ k).
Proof.
  intros Hm Hk. destruct m as [ | p | p]; [ | | lia].
  - simpl. split; intros _; [apply Z.pow_pos_nonneg; lia | exact Hk].
  - simpl. rewrite digits2_pos_size. split; intros H.
    + apply Z.lt_le_trans with (2 ^ Z.pos (Pos.size p)).
      * pose proof (Pos.size_gt p) as G.
        rewrite <- Pos2Z.inj_pow. exact G.
      * apply Z.pow_le_mono_r; lia.
    + destruct (Z.le_gt_cases (Z.pos (Pos.size p)) k) as [ | Hgt]; [assumption | ].
      exfalso.
      pose proof (Pos.size_le p) as L.
      assert (L' : 2 ^ Z.pos (Pos.size p) <= 2 * Z.pos p).
      { rewrite <- Pos2Z.inj_pow. exact L. }
      assert (P : 2 ^ (k + 1) <= 2 ^ Z.pos (Pos.size p))
        by (apply Z.pow_le_mono_r; lia).
      rewrite Z.pow_add_r, Z.pow_1_r in P by lia. lia.
Qed.

Lemma Zdigits2_lt_pow (m : Z) : 0 <= m -> m < 2 ^ Zdigits2 m.
Proof.
  intros Hm. apply Zdigits2_le_iff; [assumption | apply Zdigits2_nonneg | lia].
Qed.

Lemma shr_1_m (r : shr_record) :
  0 <= shr_m r -> shr_m (shr_1 r) = shr_m r / 2 /\ 0 <= shr_m (shr_1 r).
Proof.
  destruct r as [m r s]. cbn [shr_m]. intros Hm.
  destruct m as [ | p | p]; [ | | lia].
  - cbn. split; [reflexivity | lia].
  - rewrite <- Z.div2_div.
    destruct p; cbn; split; try reflexivity; lia.
Qed.

Lemma iter_shr_1_m (p : positive) :
  forall r : shr_record,
    0 <= shr_m r ->
    shr_m (iter_pos shr_1 p r) = shr_m r / 2 ^ Z.pos p
    /\ 0 <= shr_m (iter_pos shr_1 p r).
Proof.
  induction p as [p IH | p IH | ]; intros r Hr; cbn [iter_pos].
  - destruct (shr_1_m r Hr) as [E1 P1].
    destruct (IH _ P1) as [E2 P2].
    destruct (IH _ P2) as [E3 P3].
    split; [ | assumption].
    rewrite E3, E2, E1.
    rewrite !Z.div_div by (try apply Z.pow_pos_nonneg; lia).
    f_equal. rewrite Pos2Z.inj_xI.
    rewrite <- Z.pow_add_r, <- Z.pow_succ_r by lia. f_equal. lia.
  - destruct (IH _ Hr) as [E2 P2].
    destruct (IH _ P2) as [E3 P3].
    split; [ | assumption].
    rewrite E3, E2.
    rewrite !Z.div_div by (try apply Z.pow_pos_nonneg; lia).
    f_equal. rewrite Pos2Z.inj_xO.
    rewrite <- Z.pow_add_r by lia. f_equal. lia.
  - destruct (shr_1_m r Hr) as [E1 P1]. split; [ | assumption].
    rewrite E1. reflexivity.
Qed.

Lemma shr_record_of_loc_m (m : Z) (l : location) :
  shr_m (shr_record_of_loc m l) = m.
Proof. destruct l as [ | []]; reflexivity. Qed.

(** [shr_fexp] on a non-negative mantissa: the new exponent is the larger
    of the old one and the format's, the mantissa is divided accordingly
    and the magnitude [digits + exponent] does not grow beyond the
    smallest exponent of the format. *)
Lemma shr_fexp_bounds (m e : Z) (l : location) (M : Z) :
  0 <= m ->
  Zdigits2 m + e <= M ->
  let '(mrs, e') := shr_fexp prec emax m e l in
  0 <= shr_m mrs
  /\ e' = Z.max e (fexp prec emax (Zdigits2 m + e))
  /\ Zdigits2 (shr_m mrs) + e' <= Z.max M (-1074).
Proof.
  intros Hm HM. unfold shr_fexp, shr.
  set (k := fexp prec emax (Zdigits2 m + e)).
  assert (Hk : k = Z.max (Zdigits2 m + e - 53) (-1074)) by reflexivity.
  pose proof (Zdigits2_nonneg m) as Hd.
  destruct (k - e) as [ | n | n] eqn:En.
  - rewrite shr_record_of_loc_m. repeat split; [assumption | lia | lia].
  - destruct (iter_shr_1_m n (shr_record_of_loc m l)) as [E P].
    { rewrite shr_record_of_loc_m. assumption. }
    rewrite shr_record_of_loc_m in E.
    split; [assumption | ]. split; [lia | ].
    rewrite E.
    destruct (Z.le_gt_cases (Z.pos n) (Zdigits2 m)) as [Hle | Hgt].
    + assert (B : m / 2 ^ Z.pos n < 2 ^ (Zdigits2 m - Z.pos n)).
      { apply Z.div_lt_upper_bound; [apply Z.pow_pos_nonneg; lia | ].
        rewrite <- Z.pow_add_r by lia.
        replace (Z.pos n + (Zdigits2 m - Z.pos n)) with (Zdigits2 m) by lia.
        apply Zdigits2_lt_pow. assumption. }
      apply Zdigits2_le_iff in B; [lia | | lia].
      apply Z.div_pos; [assumption | apply Z.pow_pos_nonneg; lia].
    + assert (Z0 : m / 2 ^ Z.pos n = 0).
      { apply Z.div_small. split; [assumption | ].
        apply Z.lt_le_trans with (2 ^ Zdigits2 m);
          [apply Zdigits2_lt_pow; assumption | ].
        apply Z.pow_le_mono_r; lia. }
      rewrite Z0. cbn [Zdigits2]. lia.
  - rewrite shr_record_of_loc_m. repeat split; [assumption | lia | lia].
Qed.

Lemma round_nearest_even_bounds (m : Z) (l : location) :
  0 <= m ->
  0 <= round_nearest_even m l
  /\ Zdigits2 (round_nearest_even m l) <= Zdigits2 m + 1.
Proof.
  intros Hm.
  assert (S : 0 <= m + 1 /\ Zdigits2 (m + 1) <= Zdigits2 m + 1).
  { split; [lia | ].
    pose proof (Zdigits2_nonneg m) as Hd.
    apply Zdigits2_le_iff; [lia | lia | ].
    pose proof (Zdigits2_lt_pow m Hm) as B.
    rewrite Z.pow_add_r, Z.pow_1_r by lia. lia. }
  unfold round_nearest_even.
  destruct l as [ | []]; try (split; [assumption | lia]); try exact S.
  destruct (Z.even m); [split; [assumption | lia] | exact S].
Qed.

(** Rounding to the format cannot overflow when the magnitude of the
    input is below [emax] and its exponent below the largest one. *)
Lemma binary_round_aux_finite (s : bool) (m e : Z) (l : location) (M : Z) :
  0 <= m ->
  Zdigits2 m + e <= M ->
  M <= 1023 ->
  e <= 970 ->
  match binary_round_aux prec emax s m e l with
  | S754_zero _ => True
  | S754_finite _ m' e' =>
      Zdigits2 (Z.pos m') + e' <= Z.max M (-1074) + 1 /\ e' <= 971
  | _ => False
  end.
Proof.
  intros Hm HM HM1 He. unfold binary_round_aux.
  pose proof (shr_fexp_bounds m e l M Hm HM) as B1.
  destruct (shr_fexp prec emax m e l) as [mrs1 e1].
  destruct B1 as (P1 & E1 & D1).
  destruct (round_nearest_even_bounds (shr_m mrs1) (loc_of_shr_record mrs1) P1)
    as (P2 & D2).
  set (m2 := round_nearest_even (shr_m mrs1) (loc_of_shr_record mrs1)) in *.
  assert (HM2 : Zdigits2 m2 + e1 <= Z.max M (-1074) + 1) by lia.
  pose proof (shr_fexp_bounds m2 e1 loc_Exact _ P2 HM2) as B3.
  destruct (shr_fexp prec emax m2 e1 loc_Exact) as [mrs3 e3].
  destruct B3 as (P3 & E3 & D3).
  assert (Hk1 : fexp prec emax (Zdigits2 m + e)
                = Z.max (Zdigits2 m + e - 53) (-1074)) by reflexivity.
  assert (Hk3 : fexp prec emax (Zdigits2 m2 + e1)
                = Z.max (Zdigits2 m2 + e1 - 53) (-1074)) by reflexivity.
  assert (He3 : e3 <= 971) by lia.
  destruct (shr_m mrs3) as [ | p | p] eqn:Em; [exact I | | lia].
  change (emax - prec) with 971.
  destruct (Z.leb_spec e3 971); [ | lia].
  split; [lia | assumption].
Qed.

Lemma Pos_iter_xO (d m : positive) :
  Z.pos (Pos.iter xO m d) = Z.pos m * 2 ^ Z.pos d.
Proof.
  induction d as [ | d IH] using Pos.peano_ind.
  - cbn [Pos.iter]. lia.
  - rewrite Pos.iter_succ, Pos2Z.inj_xO, IH, Pos2Z.inj_succ, Z.pow_succ_r by lia.
    lia.
Qed.

Lemma finite_or_overflow_within (M : Z) (x : float) :
  within M x -> finite_or_overflow x = Ok x.
Proof. destruct x; simpl; intros H; try reflexivity; contradiction. Qed.

Lemma binary_round_aux_within (s : bool) (m e : Z) (l : location) (M : Z) :
  0 <= m -> Zdigits2 m + e <= M -> -1074 <= M -> M <= 1023 -> e <= 970 ->
  within (M + 1) (binary_round_aux prec emax s m e l).
Proof.
  intros Hm HM Hlo Hhi He.
  pose proof (binary_round_aux_finite s m e l M Hm HM Hhi He) as H.
  unfold within.
  destruct (binary_round_aux prec emax s m e l); try exact H.
  destruct H as [H1 H2]. split; [lia | assumption].
Qed.

(** [float(n)] has a value for every [n] below [2^K] in magnitude. *)
Lemma of_int_within (n K : Z) :
  0 <= K -> K <= 1023 -> Z.abs n < 2 ^ K ->
  exists x, of_int n = Ok x /\ within (K + 1) x.
Proof.
  intros HK0 HK Hn. unfold of_int.
  assert (W : within (K + 1) (binary_normalize prec emax n 0 false)).
  { unfold binary_normalize.
    destruct n as [ | p | p]; [exact I | | ].
    - unfold binary_round.
      assert (Hd : Zdigits2 (Z.pos p) <= K)
        by (apply Zdigits2_le_iff; [lia | lia | exact Hn]).
      cbn [Zdigits2] in Hd.
      unfold shl_align.
      destruct (fexp prec emax (Z.pos (digits2_pos p) + 0) - 0) as [ | d | d] eqn:Ed.
      + apply binary_round_aux_within; cbn [Zdigits2]; lia.
      + apply binary_round_aux_within; cbn [Zdigits2]; lia.
      + assert (Hk : fexp prec emax (Z.pos (digits2_pos p) + 0)
                     = Z.max (Z.pos (digits2_pos p) + 0 - 53) (-1074))
          by reflexivity.
        apply binary_round_aux_within; try lia.
        rewrite Pos_iter_xO.
        assert (B : Z.pos p * 2 ^ Z.pos d < 2 ^ (Z.pos (digits2_pos p) + Z.pos d)).
        { rewrite Z.pow_add_r by lia.
          apply Z.mul_lt_mono_pos_r; [apply Z.pow_pos_nonneg; lia | ].
          apply (Zdigits2_lt_pow (Z.pos p)). lia. }
        apply Zdigits2_le_iff in B; lia.
    - unfold binary_round.
      assert (Hd : Zdigits2 (Z.pos p) <= K)
        by (apply Zdigits2_le_iff; [lia | lia | exact Hn]).
      cbn [Zdigits2] in Hd.
      unfold shl_align.
      destruct (fexp prec emax (Z.pos (digits2_pos p) + 0) - 0) as [ | d | d] eqn:Ed.
      + apply binary_round_aux_within; cbn [Zdigits2]; lia.
      + apply binary_round_aux_within; cbn [Zdigits2]; lia.
      + assert (Hk : fexp prec emax (Z.pos (digits2_pos p) + 0)
                     = Z.max (Z.pos (digits2_pos p) + 0 - 53) (-1074))
          by reflexivity.
        apply binary_round_aux_within; try lia.
        rewrite Pos_iter_xO.
        assert (B : Z.pos p * 2 ^ Z.pos d < 2 ^ (Z.pos (digits2_pos p) + Z.pos d)).
        { rewrite Z.pow_add_r by lia.
          apply Z.mul_lt_mono_pos_r; [apply Z.pow_pos_nonneg; lia | ].
          apply (Zdigits2_lt_pow (Z.pos p)). lia. }
        apply Zdigits2_le_iff in B; lia. }
  exists (binary_normalize prec emax n 0 false).
  split; [apply (finite_or_overflow_within _ _ W) | exact W].
Qed.

Lemma lit_0_1 : lit 0 1 = S754_zero false.
Proof. vm_compute. reflexivity. Qed.

Lemma lit_1_1 : lit 1 1 = S754_finite false 4503599627370496 (-52).
Proof. vm_compute. reflexivity. Qed.

Lemma is_fraction_within (f : float) : is_fraction f = true -> within 1 f /\
  match f with S754_finite _ _ e => e <= -52 | _ => True end.
Proof.
  unfold is_fraction. rewrite lit_0_1, lit_1_1.
  destruct f as [s | s | | s m e]; cbn [within].
  - auto.
  - destruct s; cbn; intros H; discriminate H.
  - cbn. intros H; discriminate H.
  - intros H. apply andb_prop in H. destruct H as [H H1].
    apply andb_prop in H. destruct H as [Hv H0].
    destruct s; [cbn in H0; discriminate H0 | ].
    cbn [valid_binary] in Hv. unfold bounded, canonical_mantissa in Hv.
    apply andb_prop in Hv. destruct Hv as [Hc _].
    apply Z.eqb_eq in Hc.
    assert (Hk : fexp prec emax (Z.pos (digits2_pos m) + e)
                 = Z.max (Z.pos (digits2_pos m) + e - 53) (-1074))
      by reflexivity.
    assert (He : e <= -52).
    { unfold SFleb, SFcompare in H1.
      destruct (Z.compare_spec e (-52)) as [ | | Hgt];
        [lia | lia | discriminate H1]. }
    cbn [Zdigits2]. repeat split; lia.
Qed.

Lemma Zdigits2_mul (a b : positive) :
  Zdigits2 (Z.pos (a * b)) <= Zdigits2 (Z.pos a) + Zdigits2 (Z.pos b).
Proof.
  pose proof (Zdigits2_nonneg (Z.pos a)) as Ha.
  pose proof (Zdigits2_nonneg (Z.pos b)) as Hb.
  apply Zdigits2_le_iff; [lia | lia | ].
  rewrite Pos2Z.inj_mul, Z.pow_add_r by assumption.
  pose proof (Zdigits2_lt_pow (Z.pos a)) as A.
  pose proof (Zdigits2_lt_pow (Z.pos b)) as B.
  apply Z.mul_lt_mono_nonneg; lia.
Qed.

Lemma within_le (M M' : Z) (x : float) : M <= M' -> within M x -> within M' x.
Proof.
  intros HM. destruct x; cbn [within]; try exact (fun H => H).
  intros [H1 H2]. split; lia.
Qed.

(** The product of a float of magnitude at most [M] by a fraction. *)
Lemma mul_fraction_within (x f : float) (M : Z) :
  -1074 <= M -> M <= 1021 ->
  within M x -> is_fraction f = true -> within (M + 2) (mul x f).
Proof.
  intros Hlo Hhi Wx Hf.
  destruct (is_fraction_within f Hf) as [Wf Ef].
  destruct x as [sx | sx | | sx mx ex]; cbn [within] in Wx; try contradiction;
    destruct f as [sf | sf | | sf mf ef]; cbn [within] in Wf; try contradiction;
    try exact I.
  unfold mul, SFmul.
  destruct Wx as [Wx Ex]. destruct Wf as [Wf _].
  pose proof (Zdigits2_mul mx mf) as D.
  apply (within_le (M + 1 + 1)); [lia | ].
  apply binary_round_aux_within; lia.
Qed.

(** [round] has a value on every such float, bounded by its magnitude. *)
Lemma round_within (x : float) (M : Z) :
  0 <= M -> within M x -> exists n, round x = Ok n /\ Z.abs n <= 2 ^ M.
Proof.
  intros HM W.
  assert (P : 0 < 2 ^ M) by (apply Z.pow_pos_nonneg; lia).
  destruct x as [s | s | | s m e]; cbn [within] in W; try contradiction.
  - exists 0. split; [reflexivity | cbn; lia].
  - destruct W as [W _]. cbn [round].
    assert (B : 0 <= round_half_even_mag m e <= 2 ^ M).
    { pose proof (Zdigits2_lt_pow (Z.pos m)) as L.
      pose proof (Zdigits2_nonneg (Z.pos m)) as D.
      unfold round_half_even_mag. destruct e as [ | p | p].
      - rewrite Z.pow_0_r. split; [lia | ].
        apply Z.le_trans with (2 ^ Zdigits2 (Z.pos m)); [lia | ].
        apply Z.pow_le_mono_r; lia.
      - split; [apply Z.mul_nonneg_nonneg; [lia | apply Z.pow_nonneg; lia] | ].
        apply Z.le_trans with (2 ^ Zdigits2 (Z.pos m) * 2 ^ Z.pos p).
        + apply Z.mul_le_mono_nonneg_r; [apply Z.pow_nonneg; lia | lia].
        + rewrite <- Z.pow_add_r by lia. apply Z.pow_le_mono_r; lia.
      - rewrite Z.pow_pos_fold.
        assert (Q : 0 <= Z.pos m / 2 ^ Z.pos p < 2 ^ M).
        { split; [apply Z.div_pos; [lia | apply Z.pow_pos_nonneg; lia] | ].
          apply Z.div_lt_upper_bound; [apply Z.pow_pos_nonneg; lia | ].
          rewrite <- Z.pow_add_r by lia.
          apply Z.lt_le_trans with (2 ^ Zdigits2 (Z.pos m)); [lia | ].
          apply Z.pow_le_mono_r; lia. }
        destruct (2 * (Z.pos m mod 2 ^ Z.pos p) ?= 2 ^ Z.pos p);
          try destruct (Z.even (Z.pos m / 2 ^ Z.pos p)); lia. }
    eexists. split; [reflexivity | ].
    destruct s; lia.
Qed.

(** [a / b] has a value for every [a] below [2^K] in magnitude and every
    nonzero [b]. *)
Lemma int_truediv_within (a b K : Z) :
  b <> 0 -> 0 <= K -> K <= 1023 -> Z.abs a < 2 ^ K ->
  exists q, int_truediv a b = Ok q /\ within (K + 1) q.
Proof.
  intros Hb HK0 HK Ha. unfold int_truediv.
  destruct (Z.eqb_spec b 0) as [ | _]; [contradiction | ].
  destruct (Z.eqb_spec a 0) as [ | Hane].
  - eexists. split; [reflexivity | exact I].
  - unfold SFdiv_core_binary.
    set (e' := Z.min (fexp prec emax (Zdigits2 (Z.abs a) + 0 - (Zdigits2 (Z.abs b) + 0)))
                     (0 - 0)).
    assert (He' : e' <= 0) by (unfold e'; lia).
    set (m' := match 0 - 0 - e' with
               | 0 => Z.abs a
               | Z.pos _ => Z.shiftl (Z.abs a) (0 - 0 - e')
               | Z.neg _ => 0
               end).
    assert (Hm' : 0 <= m' < 2 ^ (K - e')).
    { unfold m'. destruct (0 - 0 - e') as [ | s | s] eqn:Es; [ | | lia].
      - replace (K - e') with K by lia. lia.
      - rewrite Z.shiftl_mul_pow2 by lia.
        assert (P : 0 < 2 ^ Z.pos s) by (apply Z.pow_pos_nonneg; lia).
        split; [apply Z.mul_nonneg_nonneg; lia | ].
        replace (K - e') with (K + Z.pos s) by lia.
        rewrite Z.pow_add_r by lia.
        apply Z.mul_lt_mono_pos_r; assumption. }
    destruct (Z.div_eucl m' (Z.abs b)) as [q r] eqn:Ediv.
    assert (Hq : q = m' / Z.abs b) by (unfold Z.div; rewrite Ediv; reflexivity).
    assert (Bq : 0 <= q < 2 ^ (K - e')).
    { rewrite Hq. split; [apply Z.div_pos; lia | ].
      apply Z.le_lt_trans with m'; [ | lia].
      apply Z.div_le_upper_bound; [lia | ].
      assert (1 <= Z.abs b) by lia. nia. }
    assert (W : within (K + 1)
                  (binary_round_aux prec emax (xorb (a <? 0) (b <? 0)) q e'
                     (new_location (Z.abs b) r))).
    { apply binary_round_aux_within; try lia.
      destruct Bq as [Bq0 Bq1].
      apply Zdigits2_le_iff in Bq1; lia. }
    eexists. split; [apply (finite_or_overflow_within _ _ W) | exact W].
Qed.

Lemma split_images_returns (total_images : Z) (frac : float) :
  Z.abs total_images < 2 ^ 1000 -> is_fraction frac = true ->
  exists images,
    split_images total_images frac = Ok images /\ Z.abs images < 2 ^ 1004.
Proof.
  intros Ht Hf. unfold split_images, int_mul.
  destruct (of_int_within total_images 1000) as (x & -> & Wx); try lia.
  cbn [bind].
  pose proof (mul_fraction_within x frac (1000 + 1) ltac:(lia) ltac:(lia) Wx Hf) as Wm.
  destruct (round_within _ (1000 + 1 + 2) ltac:(lia) Wm) as (images & -> & Hi).
  exists images. split; [reflexivity | ].
  apply Z.le_lt_trans with (2 ^ (1000 + 1 + 2)); [assumption | ].
  apply Z.pow_lt_mono_r; lia.
Qed.

Lemma split_counts_returns (total_images : Z) (frac : float) (rt neg : Z) :
  Z.abs total_images < 2 ^ 1000 -> is_fraction frac = true -> rt <> 0 ->
  exists counts, split_counts total_images frac rt neg = Ok counts.
Proof.
  intros Ht Hf Hrt. unfold split_counts.
  destruct (split_images_returns total_images frac Ht Hf) as (images & -> & Hi).
  cbn [bind].
  destruct (int_truediv_within images rt 1004 Hrt) as (q & -> & Wq); try lia.
  cbn [bind].
  destruct (round_within q (1004 + 1) ltac:(lia) Wq) as (n & -> & _).
  cbn [bind]. eexists. reflexivity.
Qed.

(** The planner returns a plan for every plannable request whose ratio
    does not sum to zero. *)
Lemma split_dataset_returns (self : Dataset) (p n : Z) (rest : list Z) :
  plannable self = true ->
  pos_neg_ratio self = p :: n :: rest ->
  p + n <> 0 ->
  exists plan, split_dataset self = Ok plan.
Proof.
  intros Hp Hratio Hrt. unfold plannable in Hp.
  apply andb_prop in Hp. destruct Hp as [Hp H3].
  apply andb_prop in Hp. destruct Hp as [Hp H2].
  apply andb_prop in Hp. destruct Hp as [Ht H1].
  apply Z.ltb_lt in Ht.
  rewrite (split_dataset_plan self p n rest Hratio). unfold plan.
  destruct (split_counts_returns _ _ (p + n) n Ht H1 Hrt) as (c1 & ->).
  destruct (split_counts_returns _ _ (p + n) n Ht H2 Hrt) as (c2 & ->).
  destruct (split_counts_returns _ _ (p + n) n Ht H3 Hrt) as (c3 & ->).
  cbn [bind]. eexists. reflexivity.
Qed.

(** ** C1: the formula of the planner *)

(** C1.  For every request whose ratio starts with [positive; negative]
    and has [ratio_total = positive + negative > 0], [split_dataset]
    computes exactly the per-split rule of the specification
    ([split_images = round(total * frac)], [split_negatives =
    round(split_images / ratio_total) * negative], [split_positives =
    split_images - split_negatives], each split on its own) and does not
    fail with a division by zero; and
    [plan(100, (0.8, 0.1, 0.1), (4, 1))] returns
    train 16/64, val 2/8, test 2/8 (negatives/positives). *)
Theorem C1_split_dataset_formula :
  (forall (self : Dataset) (p n : Z) (rest : list Z),
      pos_neg_ratio self = p :: n :: rest ->
      0 < p + n ->
      split_dataset self =
        plan (total_number_of_images self)
             (train_split self) (val_split self) (test_split self) p n
      /\ split_dataset self <> Raise ZeroDivisionError)
  /\ split_dataset (request 100 (lit 8 10) (lit 1 10) (lit 1 10) [4; 1])
     = Ok (16, 64, 2, 8, 2, 8).
Proof.
  split.
  - intros self p n rest Hratio Hpos.
    rewrite (split_dataset_plan self p n rest Hratio). split; [reflexivity | ].
    assert (Hrt : p + n <> 0) by lia.
    unfold plan.
    pose proof (split_counts_not_ZeroDivisionError
                  (total_number_of_images self) (train_split self) (p + n) n Hrt) as H1.
    pose proof (split_counts_not_ZeroDivisionError
                  (total_number_of_images self) (val_split self) (p + n) n Hrt) as H2.
    pose proof (split_counts_not_ZeroDivisionError
                  (total_number_of_images self) (test_split self) (p + n) n Hrt) as H3.
    destruct (split_counts _ (train_split self) _ _); cbn [bind]; [ | congruence].
    destruct (split_counts _ (val_split self) _ _); cbn [bind]; [ | congruence].
    destruct (split_counts _ (test_split self) _ _); cbn [bind]; congruence.
  - vm_compute. reflexivity.
Qed.

Lemma C1_split_dataset_formula_witness :
  split_dataset (request 100 (lit 8 10) (lit 1 10) (lit 1 10) [4; 1]) =
    plan 100 (lit 8 10) (lit 1 10) (lit 1 10) 4 1
  /\ split_dataset (request 100 (lit 8 10) (lit 1 10) (lit 1 10) [4; 1])
     <> Raise ZeroDivisionError.
Proof.
  apply (proj1 C1_split_dataset_formula
           (request 100 (lit 8 10) (lit 1 10) (lit 1 10) [4; 1]) 4 1 []).
  - reflexivity.
  - reflexivity.
Defined.

(** ** C2: each split's two counts add up to its rounded size *)

(** C2.  For every request with [ratio_total > 0], when [split_dataset]
    returns its six counts, the negatives and positives of each split add
    up to [round(total_images * frac)] of that split, so the six add up
    to the sum of the three rounded sizes; that sum can differ from
    [total_images]: total 10 with the accepted fractions
    (0.25, 0.25, 0.5) is planned as 2 + 2 + 5 = 9 images. *)
Theorem C2_counts_sum_to_rounded_sizes :
  (forall (self : Dataset) (p n : Z) (rest : list Z)
          (tn tp vn vp ten tep : Z),
      pos_neg_ratio self = p :: n :: rest ->
      0 < p + n ->
      split_dataset self = Ok (tn, tp, vn, vp, ten, tep) ->
      split_images (total_number_of_images self) (train_split self) = Ok (tn + tp)
      /\ split_images (total_number_of_images self) (val_split self) = Ok (vn + vp)
      /\ split_images (total_number_of_images self) (test_split self) = Ok (ten + tep)
      /\ tn + tp + vn + vp + ten + tep = (tn + tp) + (vn + vp) + (ten + tep))
  /\ (splits_accepted (lit 25 100) (lit 25 100) (lit 5 10) = true
      /\ split_dataset (request 10 (lit 25 100) (lit 25 100) (lit 5 10) [4; 1])
         = Ok (0, 2, 0, 2, 1, 4)
      /\ 0 + 2 + 0 + 2 + 1 + 4 = 9
      /\ 9 <> 10).
Proof.
  split.
  - intros self p n rest tn tp vn vp ten tep Hratio _ Hplan.
    rewrite (split_dataset_plan self p n rest Hratio) in Hplan.
    apply plan_Ok_inv in Hplan. destruct Hplan as (H1 & H2 & H3).
    apply split_counts_sum in H1, H2, H3.
    repeat split; try assumption. lia.
  - repeat split; try (vm_compute; reflexivity). lia.
Qed.

Lemma C2_counts_sum_to_rounded_sizes_witness :
  split_images 100 (lit 8 10) = Ok (16 + 64)
  /\ split_images 100 (lit 1 10) = Ok (2 + 8)
  /\ split_images 100 (lit 1 10) = Ok (2 + 8)
  /\ 16 + 64 + 2 + 8 + 2 + 8 = (16 + 64) + (2 + 8) + (2 + 8).
Proof.
  apply (proj1 C2_counts_sum_to_rounded_sizes
           (request 100 (lit 8 10) (lit 1 10) (lit 1 10) [4; 1]) 4 1 []
           16 64 2 8 2 8).
  - reflexivity.
  - reflexivity.
  - vm_compute. reflexivity.
Defined.

(** ** C6: a ratio that sums to zero *)

Lemma load_dataset_raises (zoo : ZooRequest -> list Sample) (self : Dataset)
    (e : PyError) :
  split_dataset self = Raise e -> load_dataset zoo self = Raise e.
Proof. intros H. unfold load_dataset. rewrite H. reflexivity. Qed.

Lemma main_tail_raises (zoo : ZooRequest -> list Sample) (self : Dataset)
    (want : bool) (e : PyError) :
  split_dataset self = Raise e -> main_tail zoo self want = Raise e.
Proof.
  intros H. unfold main_tail.
  rewrite (load_dataset_raises zoo self e H). reflexivity.
Qed.

Lemma digit_limit_one (limit : Z) :
  (0 <? limit) && (limit <? 0 + 1) = false.
Proof.
  destruct (Z.ltb_spec 0 limit), (Z.ltb_spec limit (0 + 1)); simpl;
    try reflexivity; lia.
Qed.

Lemma int_of_str_zero (limit : Z) : int_of_str limit ["0"%char] = Ok 0.
Proof.
  unfold int_of_str.
  change (strip_int ["0"%char]) with ["0"%char].
  cbv beta iota.
  change (Ascii.eqb "0" "-") with false.
  change (Ascii.eqb "0" "+") with false.
  cbv beta iota.
  change (parse_digits ["0"%char] 0 0 false) with (Some (0, 0 + 1)).
  cbv beta iota.
  rewrite digit_limit_one. reflexivity.
Qed.

Lemma ratio_loop_zero_zero (limit : Z) (lines printed : list string) :
  ratio_loop limit ("0:0"%string :: lines) printed =
    (Ok [0; 0],
     {| stdin := lines; stdout := printed ++ [ratio_prompt_text] |}).
Proof.
  cbn [ratio_loop].
  change (split_on ":" (list_ascii_of_string "0:0"))
    with [["0"%char]; ["0"%char]].
  cbn [ints_of_pieces].
  change (strip ["0"%char]) with ["0"%char].
  rewrite int_of_str_zero. reflexivity.
Qed.

(** With a ratio that sums to zero the planner rounds the train size and
    then divides by zero. *)
Lemma split_dataset_zero_total (self : Dataset) (p n : Z) (rest : list Z) :
  pos_neg_ratio self = p :: n :: rest ->
  p + n = 0 ->
  split_dataset self =
    (images <- split_images (total_number_of_images self) (train_split self) ;;
     Raise ZeroDivisionError).
Proof.
  intros Hratio Hzero.
  rewrite (split_dataset_plan self p n rest Hratio).
  unfold plan, split_counts. rewrite Hzero.
  destruct (split_images (total_number_of_images self) (train_split self))
    as [i | e]; cbn [bind]; [ | reflexivity].
  rewrite (proj2 (int_truediv_ZeroDivisionError i 0) eq_refl). reflexivity.
Qed.

Lemma split_dataset_Ok_total (self : Dataset) (p n : Z) (rest : list Z)
    (plan : SplitPlan) :
  pos_neg_ratio self = p :: n :: rest ->
  split_dataset self = Ok plan ->
  p + n <> 0.
Proof.
  intros Hratio Hplan Hzero.
  rewrite (split_dataset_zero_total self p n rest Hratio Hzero) in Hplan.
  destruct (split_images (total_number_of_images self) (train_split self));
    discriminate Hplan.
Qed.

(** C6.  When the two ratio numbers sum to zero, [split_dataset] never
    returns a plan: it evaluates [round(total * train_split)] and then
    fails on the division, with [ZeroDivisionError] whenever that first
    rounding has a value.  Nothing catches the error: [load_dataset] and
    the rest of [main] fail with it, and the ratio prompt is no guard
    either, since it stores the input [0:0] without asking again. *)
Theorem C6_zero_ratio_total_is_fatal :
  (forall (self : Dataset) (p n : Z) (rest : list Z),
      pos_neg_ratio self = p :: n :: rest ->
      p + n = 0 ->
      split_dataset self =
        (images <- split_images (total_number_of_images self) (train_split self) ;;
         Raise ZeroDivisionError)
      /\ (forall images,
             split_images (total_number_of_images self) (train_split self)
               = Ok images ->
             split_dataset self = Raise ZeroDivisionError
             /\ forall zoo want,
                 load_dataset zoo self = Raise ZeroDivisionError
                 /\ main_tail zoo self want = Raise ZeroDivisionError)
      /\ is_ok (split_dataset self) = false)
  /\ (forall limit lines printed,
         ratio_loop limit ("0:0"%string :: lines) printed =
           (Ok [0; 0],
            {| stdin := lines; stdout := printed ++ [ratio_prompt_text] |})).
Proof.
  split; [ | exact ratio_loop_zero_zero].
  intros self p n rest Hratio Hzero.
  pose proof (split_dataset_zero_total self p n rest Hratio Hzero) as Heq.
  split; [exact Heq | ]. split.
  - intros images Himages.
    assert (Hraise : split_dataset self = Raise ZeroDivisionError)
      by (rewrite Heq, Himages; reflexivity).
    split; [exact Hraise | ]. intros zoo want. split.
    + exact (load_dataset_raises zoo self _ Hraise).
    + exact (main_tail_raises zoo self want _ Hraise).
  - rewrite Heq.
    destruct (split_images (total_number_of_images self) (train_split self));
      reflexivity.
Qed.

Lemma C6_zero_ratio_total_is_fatal_witness :
  split_dataset (request 300 (lit 7 10) (lit 2 10) (lit 1 10) [0; 0])
    = Raise ZeroDivisionError
  /\ forall zoo want,
      load_dataset zoo (request 300 (lit 7 10) (lit 2 10) (lit 1 10) [0; 0])
        = Raise ZeroDivisionError
      /\ main_tail zoo (request 300 (lit 7 10) (lit 2 10) (lit 1 10) [0; 0]) want
         = Raise ZeroDivisionError.
Proof.
  apply (proj1 (proj2 (proj1 C6_zero_ratio_total_is_fatal
           (request 300 (lit 7 10) (lit 2 10) (lit 1 10) [0; 0]) 0 0 []
           eq_refl eq_refl)) 210).
  vm_compute. reflexivity.
Defined.

(** ** C7: a negative count of positives *)

(** C7.  The planner does not clamp: whenever it returns the two counts
    of a split, the positives are exactly [split_images - split_negatives],
    so they are negative as soon as [round(split_images / ratio_total) *
    negative] exceeds [split_images].  That happens for accepted
    fractions and [ratio_total > 0]: total 10, fractions (0.7, 0.2, 0.1)
    and ratio 1:9 give train 9 negatives and -2 positives. *)
Theorem C7_negative_positives :
  (splits_accepted (lit 7 10) (lit 2 10) (lit 1 10) = true
   /\ 0 < 1 + 9
   /\ split_dataset (request 10 (lit 7 10) (lit 2 10) (lit 1 10) [1; 9])
      = Ok (9, -2, 0, 2, 0, 1))
  /\ (forall (total_images : Z) (frac : float) (rt neg negatives positives : Z),
         split_counts total_images frac rt neg = Ok (negatives, positives) ->
         exists images n,
           split_images total_images frac = Ok images
           /\ (q <- int_truediv images rt ;; round q) = Ok n
           /\ negatives = n * neg
           /\ positives = images - n * neg
           /\ (images < n * neg -> positives < 0)).
Proof.
  split.
  - repeat split; vm_compute; reflexivity.
  - intros total_images frac rt neg negatives positives H.
    unfold split_counts in H.
    bind_inv H. bind_inv H. bind_inv H.
    injection H as <- <-.
    exists v, v1. rewrite E, E0. cbn [bind].
    repeat split; try assumption; try reflexivity. lia.
Qed.

Lemma C7_negative_positives_witness :
  exists images n,
    split_images 10 (lit 7 10) = Ok images
    /\ (q <- int_truediv images 10 ;; round q) = Ok n
    /\ 9 = n * 9
    /\ -2 = images - n * 9
    /\ (images < n * 9 -> -2 < 0).
Proof.
  apply (proj2 C7_negative_positives 10 (lit 7 10) 10 9 9 (-2)).
  vm_compute. reflexivity.
Defined.

(** * The bucket assigner *)

(** ** What one loop does *)

Lemma to_nat_sub_lt (x c : Z) :
  (c <? x) = true -> Z.to_nat (x - c) = S (Z.to_nat (x - (c + 1))).
Proof. intros H. apply Z.ltb_lt in H. lia. Qed.

Lemma to_nat_sub_ge (x c : Z) :
  (c <? x) = false -> Z.to_nat (x - c) = 0%nat /\ Z.to_nat (x - (c + 1)) = 0%nat.
Proof. intros H. apply Z.ltb_ge in H. lia. Qed.

(** The sample met at counter value [c] goes to train when [c < n_train],
    to validation when [n_train <= c < n_train + n_val], to test
    otherwise: in terms of the stream, a prefix, a middle slice and the
    whole remainder. *)
Lemma assign_loop_spec (n_train n_val : Z) (stream : list Sample) :
  forall (count : Z) (datasets : Datasets),
    assign_loop n_train n_val stream count datasets =
      {| train :=
           train datasets ++ firstn (Z.to_nat (n_train - count)) stream;
         validation :=
           validation datasets
           ++ skipn (Z.to_nat (n_train - count))
                    (firstn (Z.to_nat (n_train + n_val - count)) stream);
         test :=
           test datasets
           ++ skipn (Z.to_nat (Z.max n_train (n_train + n_val) - count)) stream |}.
Proof.
  induction stream as [ | s rest IH]; intros count datasets.
  - cbn [assign_loop]. rewrite !firstn_nil, !skipn_nil, !app_nil_r.
    destruct datasets; reflexivity.
  - cbn [assign_loop]. rewrite IH. clear IH.
    destruct (count <? n_train) eqn:Ht.
    + (* train *)
      rewrite (to_nat_sub_lt _ _ Ht).
      assert (Hm : (count <? Z.max n_train (n_train + n_val)) = true).
      { apply Z.ltb_lt. apply Z.ltb_lt in Ht. lia. }
      rewrite (to_nat_sub_lt _ _ Hm).
      destruct (count <? n_train + n_val) eqn:Hv.
      * rewrite (to_nat_sub_lt _ _ Hv). cbn [add_sample train validation test firstn skipn].
        rewrite <- app_assoc. reflexivity.
      * destruct (to_nat_sub_ge _ _ Hv) as [-> ->].
        cbn [add_sample train validation test firstn skipn].
        rewrite !skipn_nil, <- app_assoc. reflexivity.
    + destruct (to_nat_sub_ge _ _ Ht) as [-> ->].
      destruct (count <? n_train + n_val) eqn:Hv.
      * (* validation *)
        rewrite (to_nat_sub_lt _ _ Hv).
        assert (Hm : (count <? Z.max n_train (n_train + n_val)) = true).
        { apply Z.ltb_lt. apply Z.ltb_lt in Hv. lia. }
        rewrite (to_nat_sub_lt _ _ Hm).
        cbn [add_sample train validation test firstn skipn].
        rewrite <- app_assoc. reflexivity.
      * (* test *)
        destruct (to_nat_sub_ge _ _ Hv) as [-> ->].
        assert (Hm : (count <? Z.max n_train (n_train + n_val)) = false).
        { apply Z.ltb_ge. apply Z.ltb_ge in Ht, Hv. lia. }
        destruct (to_nat_sub_ge _ _ Hm) as [-> ->].
        cbn [add_sample train validation test firstn skipn].
        rewrite <- app_assoc. reflexivity.
Qed.

(** With non-negative train and validation quotas, from counter 0. *)
Lemma assign_loop_nonneg (n_train n_val : Z) (stream : list Sample)
    (datasets : Datasets) :
  0 <= n_train -> 0 <= n_val ->
  assign_loop n_train n_val stream 0 datasets =
    {| train := train datasets ++ firstn (Z.to_nat n_train) stream;
       validation :=
         validation datasets
         ++ firstn (Z.to_nat n_val) (skipn (Z.to_nat n_train) stream);
       test :=
         test datasets ++ skipn (Z.to_nat (n_train + n_val)) stream |}.
Proof.
  intros Ht Hv. rewrite assign_loop_spec.
  rewrite !Z.sub_0_r, Z.max_r by lia.
  rewrite Z2Nat.inj_add by lia.
  rewrite firstn_skipn_comm. reflexivity.
Qed.

(** Every sample of a stream lands in exactly one of the three slices. *)
Lemma stream_three_slices (a b : nat) (stream : list Sample) :
  stream = firstn a stream ++ firstn b (skipn a stream) ++ skipn (a + b) stream.
Proof.
  rewrite <- (firstn_skipn a stream) at 1. f_equal.
  rewrite <- (firstn_skipn b (skipn a stream)) at 1. f_equal.
  rewrite skipn_skipn. f_equal. lia.
Qed.

(** The two loops, when both streams were retrieved. *)
Lemma assign_both (r0 r1 : Z) (rest : list Z)
    (tn tp vn vp ten tep : Z) (ps ns : list Sample) (datasets : Datasets) :
  r0 <> 0 -> r1 <> 0 ->
  assign (r0 :: r1 :: rest) (tn, tp, vn, vp, ten, tep) (Some ps) (Some ns) datasets =
    Ok (assign_loop tn vn ns 0 (assign_loop tp vp ps 0 datasets)).
Proof.
  intros H0 H1. unfold assign. cbn [index nth_error bind].
  apply Z.eqb_neq in H0, H1. rewrite H0, H1. reflexivity.
Qed.

Lemma skipn_within_cap (k c : nat) (stream : list Sample) :
  (List.length stream <= k + c)%nat ->
  skipn k stream = firstn c (skipn k stream).
Proof.
  intros H. symmetry. apply firstn_all2. rewrite length_skipn. lia.
Qed.

Lemma quota_slice_0 (quota : Z) (stream : list Sample) :
  quota_slice 0 quota stream = firstn (Z.to_nat quota) stream.
Proof. reflexivity. Qed.

(** A stream no longer than its three quotas is placed by the loop
    exactly as the specification words it. *)
Lemma assign_loop_within_cap (n_train n_val n_test : Z)
    (stream : list Sample) (datasets : Datasets) :
  0 <= n_train -> 0 <= n_val ->
  Z.of_nat (List.length stream) <= n_train + n_val + n_test ->
  assign_loop n_train n_val stream 0 datasets =
    {| train := train datasets ++ quota_slice 0 n_train stream;
       validation := validation datasets ++ quota_slice n_train n_val stream;
       test := test datasets ++ quota_slice (n_train + n_val) n_test stream |}.
Proof.
  intros Ht Hv Hlen. rewrite assign_loop_nonneg by assumption.
  rewrite quota_slice_0. unfold quota_slice.
  rewrite <- (skipn_within_cap (Z.to_nat (n_train + n_val)) (Z.to_nat n_test))
    by lia.
  reflexivity.
Qed.

(** ** C3: where the assigner sends each sample *)

(** C3, the claim as stated, fails: with the quotas 1, 1, 1 and a
    positive stream of five samples, the loop sends the last three to
    test, where the specification's assigner keeps one and ignores two. *)
Lemma C3_counterexample_long_stream :
  assign [1; 1] (1, 1, 1, 1, 1, 1)
         (Some [sample "a"; sample "b"; sample "c"; sample "d"; sample "e"])
         (Some []) empty_datasets
    = Ok {| train := [sample "a"];
            validation := [sample "b"];
            test := [sample "c"; sample "d"; sample "e"] |}
  /\ spec_assign (1, 1, 1, 1, 1, 1)
         [sample "a"; sample "b"; sample "c"; sample "d"; sample "e"] []
     = {| train := [sample "a"];
          validation := [sample "b"];
          test := [sample "c"] |}
  /\ assign [1; 1] (1, 1, 1, 1, 1, 1)
         (Some [sample "a"; sample "b"; sample "c"; sample "d"; sample "e"])
         (Some []) empty_datasets
     <> Ok (spec_assign (1, 1, 1, 1, 1, 1)
              [sample "a"; sample "b"; sample "c"; sample "d"; sample "e"] []).
Proof.
  split; [reflexivity | ]. split; [reflexivity | ].
  intros H. discriminate H.
Qed.

(** The result of the two loops on retrieved streams, for non-negative
    train and validation quotas, and the three slices of each stream. *)
Lemma assign_nonneg_slices
    (r0 r1 : Z) (rest : list Z) (tn tp vn vp ten tep : Z)
    (ps ns : list Sample) :
  r0 <> 0 -> r1 <> 0 ->
  0 <= tp -> 0 <= vp -> 0 <= tn -> 0 <= vn ->
  assign (r0 :: r1 :: rest) (tn, tp, vn, vp, ten, tep) (Some ps) (Some ns)
         empty_datasets
    = Ok {| train :=
              firstn (Z.to_nat tp) ps ++ firstn (Z.to_nat tn) ns;
            validation :=
              firstn (Z.to_nat vp) (skipn (Z.to_nat tp) ps)
              ++ firstn (Z.to_nat vn) (skipn (Z.to_nat tn) ns);
            test :=
              skipn (Z.to_nat tp + Z.to_nat vp) ps
              ++ skipn (Z.to_nat tn + Z.to_nat vn) ns |}
  /\ ps = firstn (Z.to_nat tp) ps
          ++ firstn (Z.to_nat vp) (skipn (Z.to_nat tp) ps)
          ++ skipn (Z.to_nat tp + Z.to_nat vp) ps
  /\ ns = firstn (Z.to_nat tn) ns
          ++ firstn (Z.to_nat vn) (skipn (Z.to_nat tn) ns)
          ++ skipn (Z.to_nat tn + Z.to_nat vn) ns.
Proof.
  intros H0 H1 Htp Hvp Htn Hvn.
  rewrite (assign_both r0 r1 rest tn tp vn vp ten tep ps ns _ H0 H1).
  split; [ | split; apply stream_three_slices].
  rewrite !assign_loop_nonneg by assumption.
  cbn [train validation test empty_datasets app].
  rewrite !Z2Nat.inj_add by lia. reflexivity.
Qed.

(** C3, amended.  For every plan with non-negative train and validation
    counts and every pair of retrieved streams, the assigner sends the
    first [train_positives] items of the positive stream to train, the
    next [val_positives] to validation and every remaining item to test,
    then does the same for the negative stream; it ignores nothing, so
    every sample of a stream ends up in exactly one split.  When a stream
    is no longer than its three quotas (what [max_samples] asks of the
    retrieval), test receives at most its quota and the result is the one
    the specification describes. *)
Theorem C3_assign_remainder_to_test
    (r0 r1 : Z) (rest : list Z) (tn tp vn vp ten tep : Z)
    (ps ns : list Sample) :
  r0 <> 0 -> r1 <> 0 ->
  0 <= tp -> 0 <= vp -> 0 <= tn -> 0 <= vn ->
  assign (r0 :: r1 :: rest) (tn, tp, vn, vp, ten, tep) (Some ps) (Some ns)
         empty_datasets
    = Ok {| train :=
              firstn (Z.to_nat tp) ps ++ firstn (Z.to_nat tn) ns;
            validation :=
              firstn (Z.to_nat vp) (skipn (Z.to_nat tp) ps)
              ++ firstn (Z.to_nat vn) (skipn (Z.to_nat tn) ns);
            test :=
              skipn (Z.to_nat tp + Z.to_nat vp) ps
              ++ skipn (Z.to_nat tn + Z.to_nat vn) ns |}
  /\ ps = firstn (Z.to_nat tp) ps
          ++ firstn (Z.to_nat vp) (skipn (Z.to_nat tp) ps)
          ++ skipn (Z.to_nat tp + Z.to_nat vp) ps
  /\ ns = firstn (Z.to_nat tn) ns
          ++ firstn (Z.to_nat vn) (skipn (Z.to_nat tn) ns)
          ++ skipn (Z.to_nat tn + Z.to_nat vn) ns
  /\ (Z.of_nat (List.length ps) <= tp + vp + tep ->
      Z.of_nat (List.length ns) <= tn + vn + ten ->
      assign (r0 :: r1 :: rest) (tn, tp, vn, vp, ten, tep) (Some ps) (Some ns)
             empty_datasets
        = Ok (spec_assign (tn, tp, vn, vp, ten, tep) ps ns)).
Proof.
  intros H0 H1 Htp Hvp Htn Hvn.
  destruct (assign_nonneg_slices r0 r1 rest tn tp vn vp ten tep ps ns
              H0 H1 Htp Hvp Htn Hvn) as (Hassign & Hp & Hn).
  split; [exact Hassign | ]. split; [exact Hp | ]. split; [exact Hn | ].
  intros Hps Hns.
  rewrite (assign_both r0 r1 rest tn tp vn vp ten tep ps ns _ H0 H1).
  rewrite (assign_loop_within_cap tp vp tep ps) by assumption.
  rewrite (assign_loop_within_cap tn vn ten ns) by assumption.
  reflexivity.
Qed.

Lemma C3_assign_remainder_to_test_witness :
  assign [4; 1] (1, 1, 0, 1, 0, 1)
         (Some [sample "a"; sample "b"; sample "c"; sample "d"])
         (Some [sample "n"]) empty_datasets
    = Ok {| train := firstn (Z.to_nat 1) [sample "a"; sample "b"; sample "c"; sample "d"]
                     ++ firstn (Z.to_nat 1) [sample "n"];
            validation :=
              firstn (Z.to_nat 1)
                     (skipn (Z.to_nat 1) [sample "a"; sample "b"; sample "c"; sample "d"])
              ++ firstn (Z.to_nat 0) (skipn (Z.to_nat 1) [sample "n"]);
            test :=
              skipn (Z.to_nat 1 + Z.to_nat 1)
                    [sample "a"; sample "b"; sample "c"; sample "d"]
              ++ skipn (Z.to_nat 1 + Z.to_nat 0) [sample "n"] |}.
Proof.
  apply (C3_assign_remainder_to_test 4 1 [] 1 1 0 1 0 1
           [sample "a"; sample "b"; sample "c"; sample "d"] [sample "n"]);
    lia.
Defined.

(** ** C4: streams of exactly the planned lengths *)

(** The lengths of the three slices of a stream of length [a + b + c]. *)
Lemma slices_lengths (a b c : nat) (stream : list Sample) :
  List.length stream = (a + b + c)%nat ->
  List.length (firstn a stream) = a
  /\ List.length (firstn b (skipn a stream)) = b
  /\ List.length (skipn (a + b) stream) = c.
Proof.
  intros H. rewrite !length_firstn, !length_skipn, H.
  repeat split.
  - apply Nat.min_l. lia.
  - apply Nat.min_l. lia.
  - lia.
Qed.

Lemma slices_lengths_Z (x y z : Z) (stream : list Sample) :
  0 <= x -> 0 <= y -> 0 <= z ->
  Z.of_nat (List.length stream) = x + y + z ->
  Z.of_nat (List.length (firstn (Z.to_nat x) stream)) = x
  /\ Z.of_nat (List.length
                 (firstn (Z.to_nat y) (skipn (Z.to_nat x) stream))) = y
  /\ Z.of_nat (List.length (skipn (Z.to_nat x + Z.to_nat y) stream)) = z.
Proof.
  intros Hx Hy Hz Hlen.
  assert (H : List.length stream = (Z.to_nat x + Z.to_nat y + Z.to_nat z)%nat)
    by lia.
  destruct (slices_lengths _ _ _ stream H) as (-> & -> & ->).
  rewrite !Z2Nat.id by assumption. auto.
Qed.

(** The two loops for any two ratio numbers: a loop runs on its stream
    when its ratio number is not zero and is skipped otherwise, which
    leaves the datasets as a loop on the empty stream does.  A collection
    is read only under the guard it was assigned under. *)
Lemma assign_guarded (r0 r1 : Z) (rest : list Z)
    (tn tp vn vp ten tep : Z) (positives negatives : option (list Sample))
    (ps ns : list Sample) (datasets : Datasets) :
  (r0 <> 0 -> positives = Some ps) ->
  (r1 <> 0 -> negatives = Some ns) ->
  assign (r0 :: r1 :: rest) (tn, tp, vn, vp, ten, tep) positives negatives
         datasets =
    Ok (assign_loop tn vn (if r1 =? 0 then [] else ns) 0
          (assign_loop tp vp (if r0 =? 0 then [] else ps) 0 datasets)).
Proof.
  intros H0 H1. unfold assign. cbn [index nth_error bind].
  destruct (Z.eqb_spec r0 0) as [E0 | N0]; cbn [negb bind assign_loop].
  - destruct (Z.eqb_spec r1 0) as [E1 | N1]; cbn [negb bind assign_loop].
    + reflexivity.
    + rewrite (H1 N1). reflexivity.
  - rewrite (H0 N0). cbn [read_local bind].
    destruct (Z.eqb_spec r1 0) as [E1 | N1]; cbn [negb bind assign_loop].
    + reflexivity.
    + rewrite (H1 N1). reflexivity.
Qed.

(** The result of the two loops for any two ratio numbers and
    non-negative train and validation quotas: the three slices of each
    stream that was looped over. *)
Lemma assign_guarded_slices
    (r0 r1 : Z) (rest : list Z) (tn tp vn vp ten tep : Z)
    (positives negatives : option (list Sample)) (ps ns : list Sample) :
  (r0 <> 0 -> positives = Some ps) ->
  (r1 <> 0 -> negatives = Some ns) ->
  0 <= tp -> 0 <= vp -> 0 <= tn -> 0 <= vn ->
  let ps' := if r0 =? 0 then [] else ps in
  let ns' := if r1 =? 0 then [] else ns in
  assign (r0 :: r1 :: rest) (tn, tp, vn, vp, ten, tep) positives negatives
         empty_datasets
    = Ok {| train :=
              firstn (Z.to_nat tp) ps' ++ firstn (Z.to_nat tn) ns';
            validation :=
              firstn (Z.to_nat vp) (skipn (Z.to_nat tp) ps')
              ++ firstn (Z.to_nat vn) (skipn (Z.to_nat tn) ns');
            test :=
              skipn (Z.to_nat tp + Z.to_nat vp) ps'
              ++ skipn (Z.to_nat tn + Z.to_nat vn) ns' |}.
Proof.
  intros H0 H1 Htp Hvp Htn Hvn ps' ns'.
  rewrite (assign_guarded r0 r1 rest tn tp vn vp ten tep positives negatives
             ps ns _ H0 H1).
  fold ps' ns'.
  rewrite !assign_loop_nonneg by assumption.
  cbn [train validation test empty_datasets app].
  rewrite !Z2Nat.inj_add by lia. reflexivity.
Qed.

(** C4, the claim as stated, fails on a plan the planner returns: for
    the ratio 0:5, 7 images and the train fraction 1 the plan has 2 train
    positives and 5 train negatives, and on a positive stream of exactly
    2 samples and a negative stream of exactly 5 the loops skip the
    positive stream, so that train holds the 5 negatives and none of the
    2 planned positives.  [load_dataset] does not even retrieve them. *)
Lemma C4_counterexample_skipped_stream :
  split_dataset (request 7 (lit 1 1) (lit 0 1) (lit 0 1) [0; 5])
    = Ok (5, 2, 0, 0, 0, 0)
  /\ plan_nonneg (5, 2, 0, 0, 0, 0)
  /\ Z.of_nat (List.length [sample "p1"; sample "p2"]) = 2 + 0 + 0
  /\ Z.of_nat (List.length
                 [sample "n1"; sample "n2"; sample "n3"; sample "n4";
                  sample "n5"]) = 5 + 0 + 0
  /\ assign [0; 5] (5, 2, 0, 0, 0, 0)
       (Some [sample "p1"; sample "p2"])
       (Some [sample "n1"; sample "n2"; sample "n3"; sample "n4"; sample "n5"])
       empty_datasets
     = Ok {| train := [sample "n1"; sample "n2"; sample "n3"; sample "n4";
                       sample "n5"];
             validation := [];
             test := [] |}
  /\ load_dataset example_zoo
       (request 7 (lit 1 1) (lit 0 1) (lit 0 1) [0; 5])
     = Ok ([negatives_request
              (request 7 (lit 1 1) (lit 0 1) (lit 0 1) [0; 5])
              (5, 2, 0, 0, 0, 0)],
           {| train := [sample "n1"; sample "n2"; sample "n3"; sample "n4";
                        sample "n5"];
              validation := [];
              test := [] |}).
Proof.
  split; [vm_compute; reflexivity | ].
  split; [unfold plan_nonneg; lia | ].
  split; [reflexivity | ]. split; [reflexivity | ].
  split; vm_compute; reflexivity.
Qed.

(** C4, amended.  For every plan with non-negative counts, any two ratio
    numbers, a positive stream of exactly [train_positives +
    val_positives + test_positives] samples and a negative stream of
    exactly [train_negatives + val_negatives + test_negatives] samples,
    the two loops return, each split holding its positive piece followed
    by its negative piece, and
    - a stream whose ratio number is not 0 is cut in order into three
      consecutive pieces whose lengths are the three counts of the plan;
    - a stream whose ratio number is 0 is skipped: none of its samples
      reaches a split;
    so the counts of a stream equal the plan's exactly when its ratio
    number is not 0 or the stream is empty (its three counts are 0). *)
Theorem C4_exact_streams_round_trip
    (r0 r1 : Z) (rest : list Z) (tn tp vn vp ten tep : Z)
    (ps ns : list Sample) :
  plan_nonneg (tn, tp, vn, vp, ten, tep) ->
  Z.of_nat (List.length ps) = tp + vp + tep ->
  Z.of_nat (List.length ns) = tn + vn + ten ->
  exists p_train p_val p_test n_train n_val n_test,
    assign (r0 :: r1 :: rest) (tn, tp, vn, vp, ten, tep) (Some ps) (Some ns)
           empty_datasets
      = Ok {| train := p_train ++ n_train;
              validation := p_val ++ n_val;
              test := p_test ++ n_test |}
    /\ (r0 <> 0 \/ ps = [] ->
        ps = p_train ++ p_val ++ p_test
        /\ Z.of_nat (List.length p_train) = tp
        /\ Z.of_nat (List.length p_val) = vp
        /\ Z.of_nat (List.length p_test) = tep)
    /\ (r0 = 0 -> p_train = [] /\ p_val = [] /\ p_test = [])
    /\ (r1 <> 0 \/ ns = [] ->
        ns = n_train ++ n_val ++ n_test
        /\ Z.of_nat (List.length n_train) = tn
        /\ Z.of_nat (List.length n_val) = vn
        /\ Z.of_nat (List.length n_test) = ten)
    /\ (r1 = 0 -> n_train = [] /\ n_val = [] /\ n_test = []).
Proof.
  intros (Htn & Htp & Hvn & Hvp & Hten & Htep) Hps Hns.
  pose proof (assign_guarded_slices r0 r1 rest tn tp vn vp ten tep
                (Some ps) (Some ns) ps ns (fun _ => eq_refl) (fun _ => eq_refl)
                Htp Hvp Htn Hvn) as Hassign.
  cbv zeta in Hassign.
  assert (Exact : forall (x y z : Z) (stream : list Sample),
             0 <= x -> 0 <= y -> 0 <= z ->
             Z.of_nat (List.length stream) = x + y + z ->
             stream = firstn (Z.to_nat x) stream
                      ++ firstn (Z.to_nat y) (skipn (Z.to_nat x) stream)
                      ++ skipn (Z.to_nat x + Z.to_nat y) stream
             /\ Z.of_nat (List.length (firstn (Z.to_nat x) stream)) = x
             /\ Z.of_nat (List.length
                            (firstn (Z.to_nat y) (skipn (Z.to_nat x) stream)))
                = y
             /\ Z.of_nat (List.length
                            (skipn (Z.to_nat x + Z.to_nat y) stream)) = z).
  { intros x y z stream Hx Hy Hz Hlen.
    split; [apply stream_three_slices | ].
    exact (slices_lengths_Z x y z stream Hx Hy Hz Hlen). }
  assert (Skipped : forall a b : nat,
             firstn a (@nil Sample) = []
             /\ firstn b (skipn a (@nil Sample)) = []
             /\ skipn (a + b) (@nil Sample) = []).
  { intros a b. rewrite skipn_nil, !firstn_nil, skipn_nil. auto. }
  eexists _, _, _, _, _, _.
  split; [exact Hassign | ].
  split; [ | split; [ | split]].
  - intros [N0 | E].
    + apply Z.eqb_neq in N0. rewrite N0.
      exact (Exact tp vp tep ps Htp Hvp Htep Hps).
    + destruct (r0 =? 0).
      * subst ps. exact (Exact tp vp tep [] Htp Hvp Htep Hps).
      * exact (Exact tp vp tep ps Htp Hvp Htep Hps).
  - intros ->. cbn [Z.eqb]. apply Skipped.
  - intros [N1 | E].
    + apply Z.eqb_neq in N1. rewrite N1.
      exact (Exact tn vn ten ns Htn Hvn Hten Hns).
    + destruct (r1 =? 0).
      * subst ns. exact (Exact tn vn ten [] Htn Hvn Hten Hns).
      * exact (Exact tn vn ten ns Htn Hvn Hten Hns).
  - intros ->. cbn [Z.eqb]. apply Skipped.
Qed.

Lemma C4_exact_streams_round_trip_witness :
  exists p_train p_val p_test n_train n_val n_test,
    assign [4; 1] (1, 2, 0, 1, 0, 1)
           (Some [sample "a"; sample "b"; sample "c"; sample "d"])
           (Some [sample "n"]) empty_datasets
      = Ok {| train := p_train ++ n_train;
              validation := p_val ++ n_val;
              test := p_test ++ n_test |}
    /\ (4 <> 0 \/ [sample "a"; sample "b"; sample "c"; sample "d"] = [] ->
        [sample "a"; sample "b"; sample "c"; sample "d"]
        = p_train ++ p_val ++ p_test
        /\ Z.of_nat (List.length p_train) = 2
        /\ Z.of_nat (List.length p_val) = 1
        /\ Z.of_nat (List.length p_test) = 1)
    /\ (4 = 0 -> p_train = [] /\ p_val = [] /\ p_test = [])
    /\ (1 <> 0 \/ [sample "n"] = [] ->
        [sample "n"] = n_train ++ n_val ++ n_test
        /\ Z.of_nat (List.length n_train) = 1
        /\ Z.of_nat (List.length n_val) = 0
        /\ Z.of_nat (List.length n_test) = 0)
    /\ (1 = 0 -> n_train = [] /\ n_val = [] /\ n_test = []).
Proof.
  apply (C4_exact_streams_round_trip 4 1 [] 1 2 0 1 0 1
           [sample "a"; sample "b"; sample "c"; sample "d"] [sample "n"]).
  - unfold plan_nonneg. lia.
  - reflexivity.
  - reflexivity.
Defined.

(** ** C5: a positive stream shorter than its quotas *)

(** C5, the claim as stated, fails on a plan the planner returns: for
    the ratio 4:1, 4 images and the fractions 0.5, 0.25, 0.25 the positive
    quotas are 2, 1, 1, and on a positive stream of one sample (shorter
    than 4) train receives one sample of the two requested and validation
    none of the one requested, so test is not the only split left
    short. *)
Lemma C5_counterexample_short_stream :
  split_dataset (request 4 (lit 1 2) (lit 1 4) (lit 1 4) [4; 1])
    = Ok (0, 2, 0, 1, 0, 1)
  /\ plan_nonneg (0, 2, 0, 1, 0, 1)
  /\ assign [4; 1] (0, 2, 0, 1, 0, 1) (Some [sample "a"]) (Some [])
       empty_datasets
     = Ok {| train := [sample "a"]; validation := []; test := [] |}
  /\ Z.of_nat (List.length [sample "a"]) < 2 + 1 + 1
  /\ Z.of_nat (List.length [sample "a"]) < 2
  /\ Z.of_nat (List.length (@nil Sample)) < 1.
Proof.
  split; [vm_compute; reflexivity | ].
  split; [unfold plan_nonneg; lia | ].
  repeat split.
Qed.

(** C5, amended.  For every plan with non-negative counts and every
    retrieved positive stream (its ratio number is not 0) shorter than
    [train_positives + val_positives + test_positives], whatever the
    second ratio number (the negatives are looped over when it is not 0
    and are not even read when it is), the assigner raises no error and
    fills by priority: train takes the first [min(train_positives, len)]
    samples, validation receives samples only once train is at capacity,
    test only once validation is too, and test never receives more than
    [test_positives].  When the stream has at least [train_positives +
    val_positives] samples, train and validation are at capacity and test
    alone receives fewer than requested. *)
Theorem C5_short_stream_fills_by_priority
    (r0 r1 : Z) (rest : list Z) (tn tp vn vp ten tep : Z)
    (ps : list Sample) (negatives : option (list Sample)) (ns : list Sample) :
  r0 <> 0 ->
  (r1 <> 0 -> negatives = Some ns) ->
  plan_nonneg (tn, tp, vn, vp, ten, tep) ->
  Z.of_nat (List.length ps) < tp + vp + tep ->
  exists p_train p_val p_test n_train n_val n_test,
    assign (r0 :: r1 :: rest) (tn, tp, vn, vp, ten, tep) (Some ps) negatives
           empty_datasets
      = Ok {| train := p_train ++ n_train;
              validation := p_val ++ n_val;
              test := p_test ++ n_test |}
    /\ ps = p_train ++ p_val ++ p_test
    /\ (r1 <> 0 -> ns = n_train ++ n_val ++ n_test)
    /\ (r1 = 0 -> n_train = [] /\ n_val = [] /\ n_test = [])
    /\ Z.of_nat (List.length p_train) = Z.min tp (Z.of_nat (List.length ps))
    /\ (p_val <> [] -> Z.of_nat (List.length p_train) = tp)
    /\ (p_test <> [] ->
        Z.of_nat (List.length p_train) = tp /\ Z.of_nat (List.length p_val) = vp)
    /\ Z.of_nat (List.length p_val) <= vp
    /\ Z.of_nat (List.length p_test) <= tep
    /\ (tp + vp <= Z.of_nat (List.length ps) ->
        Z.of_nat (List.length p_train) = tp
        /\ Z.of_nat (List.length p_val) = vp
        /\ Z.of_nat (List.length p_test) < tep).
Proof.
  intros H0 H1 (Htn & Htp & Hvn & Hvp & Hten & Htep) Hps.
  pose proof (assign_guarded_slices r0 r1 rest tn tp vn vp ten tep
                (Some ps) negatives ps ns (fun _ => eq_refl) H1
                Htp Hvp Htn Hvn) as Hassign.
  cbv zeta in Hassign.
  apply Z.eqb_neq in H0. rewrite H0 in Hassign.
  exists (firstn (Z.to_nat tp) ps),
         (firstn (Z.to_nat vp) (skipn (Z.to_nat tp) ps)),
         (skipn (Z.to_nat tp + Z.to_nat vp) ps),
         (firstn (Z.to_nat tn) (if r1 =? 0 then [] else ns)),
         (firstn (Z.to_nat vn)
            (skipn (Z.to_nat tn) (if r1 =? 0 then [] else ns))),
         (skipn (Z.to_nat tn + Z.to_nat vn) (if r1 =? 0 then [] else ns)).
  split; [exact Hassign | ].
  split; [apply stream_three_slices | ].
  split.
  { intros N1. apply Z.eqb_neq in N1. rewrite N1. apply stream_three_slices. }
  split.
  { intros ->. cbn [Z.eqb]. rewrite skipn_nil, !firstn_nil, skipn_nil. auto. }
  assert (Hval : firstn (Z.to_nat vp) (skipn (Z.to_nat tp) ps) <> [] ->
                 tp < Z.of_nat (List.length ps)).
  { intros Hne.
    destruct (Z.lt_ge_cases tp (Z.of_nat (List.length ps))) as [ | Hge];
      [assumption | ].
    exfalso. apply Hne. rewrite skipn_all2 by lia. apply firstn_nil. }
  assert (Htest : skipn (Z.to_nat tp + Z.to_nat vp) ps <> [] ->
                  tp + vp < Z.of_nat (List.length ps)).
  { intros Hne.
    destruct (Z.lt_ge_cases (tp + vp) (Z.of_nat (List.length ps))) as [ | Hge];
      [assumption | ].
    exfalso. apply Hne. apply skipn_all2. lia. }
  rewrite !length_firstn, !length_skipn.
  split; [lia | ].
  split; [intros Hne; specialize (Hval Hne); lia | ].
  split; [intros Hne; specialize (Htest Hne); lia | ].
  split; [lia | ]. split; [lia | ].
  intros Hge. lia.
Qed.

Lemma C5_short_stream_fills_by_priority_witness :
  exists p_train p_val p_test n_train n_val n_test,
    assign [3; 0] (0, 2, 0, 1, 0, 1)
           (Some [sample "a"; sample "b"; sample "c"]) None empty_datasets
      = Ok {| train := p_train ++ n_train;
              validation := p_val ++ n_val;
              test := p_test ++ n_test |}
    /\ [sample "a"; sample "b"; sample "c"] = p_train ++ p_val ++ p_test
    /\ (0 <> 0 -> @nil Sample = n_train ++ n_val ++ n_test)
    /\ (0 = 0 -> n_train = [] /\ n_val = [] /\ n_test = [])
    /\ Z.of_nat (List.length p_train)
       = Z.min 2 (Z.of_nat (List.length
                    [sample "a"; sample "b"; sample "c"]))
    /\ (p_val <> [] -> Z.of_nat (List.length p_train) = 2)
    /\ (p_test <> [] ->
        Z.of_nat (List.length p_train) = 2 /\ Z.of_nat (List.length p_val) = 1)
    /\ Z.of_nat (List.length p_val) <= 1
    /\ Z.of_nat (List.length p_test) <= 1
    /\ (2 + 1 <= Z.of_nat (List.length
                    [sample "a"; sample "b"; sample "c"]) ->
        Z.of_nat (List.length p_train) = 2
        /\ Z.of_nat (List.length p_val) = 1
        /\ Z.of_nat (List.length p_test) < 1).
Proof.
  apply (C5_short_stream_fills_by_priority 3 0 [] 0 2 0 1 0 1
           [sample "a"; sample "b"; sample "c"] None []).
  - lia.
  - lia.
  - unfold plan_nonneg. lia.
  - simpl. lia.
Defined.

(** ** C10: a ratio number that is zero switches its stream off *)

(** [load_dataset] once the plan is known: which calls are made and which
    loops run depends only on the two ratio numbers being zero or not. *)
Lemma load_dataset_eq (zoo : ZooRequest -> list Sample) (self : Dataset)
    (r0 r1 : Z) (rest : list Z) (tn tp vn vp ten tep : Z) :
  pos_neg_ratio self = r0 :: r1 :: rest ->
  split_dataset self = Ok (tn, tp, vn, vp, ten, tep) ->
  load_dataset zoo self =
    Ok ((if r0 =? 0 then []
         else [positives_request self (tn, tp, vn, vp, ten, tep)])
        ++ (if r1 =? 0 then []
            else [negatives_request self (tn, tp, vn, vp, ten, tep)]),
        let datasets :=
          if r0 =? 0 then empty_datasets
          else assign_loop tp vp
                 (zoo (positives_request self (tn, tp, vn, vp, ten, tep)))
                 0 empty_datasets in
        if r1 =? 0 then datasets
        else assign_loop tn vn
               (zoo (negatives_request self (tn, tp, vn, vp, ten, tep)))
               0 datasets).
Proof.
  intros Hratio Hplan. unfold load_dataset, assign.
  rewrite Hplan, Hratio. cbn [index nth_error bind].
  destruct (r0 =? 0), (r1 =? 0); reflexivity.
Qed.

(** C10.  When the first ratio number is 0, [load_dataset] makes no
    retrieval call for positives and runs no loop over them: the only
    call is the one for negatives and the datasets hold negatives only,
    whatever the planner's positive counts are (ratio 0:5 with 7 images
    plans 2 positives for train, and none is added).  Symmetrically, when
    the second ratio number is 0, only the positives are retrieved and
    assigned. *)
Theorem C10_zero_ratio_number_skips_stream :
  (forall (zoo : ZooRequest -> list Sample) (self : Dataset)
          (r1 : Z) (rest : list Z) (tn tp vn vp ten tep : Z),
      pos_neg_ratio self = 0 :: r1 :: rest ->
      split_dataset self = Ok (tn, tp, vn, vp, ten, tep) ->
      load_dataset zoo self =
        Ok ([negatives_request self (tn, tp, vn, vp, ten, tep)],
            assign_loop tn vn
              (zoo (negatives_request self (tn, tp, vn, vp, ten, tep)))
              0 empty_datasets))
  /\ (forall (zoo : ZooRequest -> list Sample) (self : Dataset)
             (r0 : Z) (rest : list Z) (tn tp vn vp ten tep : Z),
         pos_neg_ratio self = r0 :: 0 :: rest ->
         split_dataset self = Ok (tn, tp, vn, vp, ten, tep) ->
         load_dataset zoo self =
           Ok ([positives_request self (tn, tp, vn, vp, ten, tep)],
               assign_loop tp vp
                 (zoo (positives_request self (tn, tp, vn, vp, ten, tep)))
                 0 empty_datasets))
  /\ (split_dataset (request 7 (lit 1 1) (lit 0 1) (lit 0 1) [0; 5])
        = Ok (5, 2, 0, 0, 0, 0)
      /\ example_zoo
           (positives_request (request 7 (lit 1 1) (lit 0 1) (lit 0 1) [0; 5])
                              (5, 2, 0, 0, 0, 0))
         = [sample "p1"; sample "p2"]
      /\ load_dataset example_zoo
           (request 7 (lit 1 1) (lit 0 1) (lit 0 1) [0; 5])
         = Ok ([negatives_request
                  (request 7 (lit 1 1) (lit 0 1) (lit 0 1) [0; 5])
                  (5, 2, 0, 0, 0, 0)],
               {| train := [sample "n1"; sample "n2"; sample "n3";
                            sample "n4"; sample "n5"];
                  validation := [];
                  test := [] |})).
Proof.
  split; [ | split].
  - intros zoo self r1 rest tn tp vn vp ten tep Hratio Hplan.
    rewrite (load_dataset_eq zoo self 0 r1 rest tn tp vn vp ten tep Hratio Hplan).
    pose proof (split_dataset_Ok_total self 0 r1 rest _ Hratio Hplan) as Hr1.
    assert (Hne : (r1 =? 0) = false) by (apply Z.eqb_neq; lia).
    rewrite Hne. reflexivity.
  - intros zoo self r0 rest tn tp vn vp ten tep Hratio Hplan.
    rewrite (load_dataset_eq zoo self r0 0 rest tn tp vn vp ten tep Hratio Hplan).
    pose proof (split_dataset_Ok_total self r0 0 rest _ Hratio Hplan) as Hr0.
    assert (Hne : (r0 =? 0) = false) by (apply Z.eqb_neq; lia).
    rewrite Hne. cbn [Z.eqb app]. reflexivity.
  - repeat split; vm_compute; reflexivity.
Qed.

Lemma C10_zero_ratio_number_skips_stream_witness :
  load_dataset example_zoo (request 7 (lit 1 1) (lit 0 1) (lit 0 1) [0; 5]) =
    Ok ([negatives_request (request 7 (lit 1 1) (lit 0 1) (lit 0 1) [0; 5])
                           (5, 2, 0, 0, 0, 0)],
        assign_loop 5 0
          (example_zoo
             (negatives_request (request 7 (lit 1 1) (lit 0 1) (lit 0 1) [0; 5])
                                (5, 2, 0, 0, 0, 0)))
          0 empty_datasets).
Proof.
  apply (proj1 C10_zero_ratio_number_skips_stream example_zoo
           (request 7 (lit 1 1) (lit 0 1) (lit 0 1) [0; 5]) 5 [] 5 2 0 0 0 0).
  - reflexivity.
  - vm_compute. reflexivity.
Defined.

(** * The license tally *)

Lemma License_eqb_eq (a b : License) : License_eqb a b = true <-> a = b.
Proof.
  split.
  - destruct a, b; intros H; try reflexivity; discriminate H.
  - intros ->. destruct b; reflexivity.
Qed.

Lemma from_name_exact (l : License) : from_name (Some (license_name l)) = l.
Proof. destruct l; reflexivity. Qed.

Lemma from_name_fallback (name : option string) :
  (forall l, name <> Some (license_name l)) -> from_name name = CC0.
Proof.
  intros H. destruct name as [s | ]; [ | reflexivity].
  unfold from_name, License_members, from_name_loop, name_matches.
  repeat match goal with
  | |- context [String.eqb (license_name ?l) s] =>
      destruct (String.eqb_spec (license_name l) s) as [Heq | _];
      [exfalso; apply (H l); rewrite Heq; reflexivity | ]
  end.
  reflexivity.
Qed.

Lemma tally_counts (samples : list Sample) :
  forall (license_counter : Counter) (l : License),
    tally samples license_counter l = license_counter l + count_license l samples.
Proof.
  unfold count_license.
  induction samples as [ | s rest IH]; intros license_counter l.
  - cbn. lia.
  - cbn [tally filter]. rewrite IH. unfold increment.
    destruct (License_eqb l (from_name (license s))) eqn:E1.
    + apply License_eqb_eq in E1. subst l.
      rewrite (proj2 (License_eqb_eq _ _) eq_refl).
      cbn [List.length]. lia.
    + destruct (License_eqb (from_name (license s)) l) eqn:E2.
      * apply License_eqb_eq in E2. subst l.
        rewrite (proj2 (License_eqb_eq _ _) eq_refl) in E1. discriminate E1.
      * lia.
Qed.

Lemma count_license_total (samples : list Sample) :
  fold_right Z.add 0 (map (fun l => count_license l samples) License_members)
  = Z.of_nat (List.length samples).
Proof.
  unfold count_license.
  induction samples as [ | s rest IH]; [reflexivity | ].
  cbn [List.length]. rewrite Nat2Z.inj_succ, <- IH. clear IH.
  cbn [License_members map fold_right filter].
  destruct (from_name (license s)); cbn [License_eqb license_id Z.eqb Pos.eqb List.length];
    lia.
Qed.

(** C8.  [from_name] maps a license string to the member with exactly
    that display name, for each of the 8 members, and every other string
    (or a missing tag) to the last member [CC0], without an error;
    [license_info] reports the three splits [train], [validation] and
    [test], in this order, and for each of them the number of its samples
    and, per member in definition order, how many of its samples map to
    the member; the per-member counts add up to the total.  A train split
    of three samples tagged "Attribution License", "Attribution License",
    "unknown-string" is reported with CC_BY 2, CC0 1, every other member 0
    and total 3. *)
Theorem C8_license_tally :
  (forall l : License, from_name (Some (license_name l)) = l)
  /\ (forall name : option string,
         (forall l, name <> Some (license_name l)) -> from_name name = CC0)
  /\ License_members
     = [CC_BY; CC_BY_SA; CC_BY_ND; CC_BY_NC; CC_BY_NC_SA; CC_BY_NC_ND;
        OTHER; CC0]
  /\ (forall datasets : Datasets,
         license_info datasets =
           [ {| report_split := "train";
                report_total := Z.of_nat (List.length (train datasets));
                report_counts :=
                  map (fun l => (l, count_license l (train datasets)))
                      License_members |};
             {| report_split := "validation";
                report_total := Z.of_nat (List.length (validation datasets));
                report_counts :=
                  map (fun l => (l, count_license l (validation datasets)))
                      License_members |};
             {| report_split := "test";
                report_total := Z.of_nat (List.length (test datasets));
                report_counts :=
                  map (fun l => (l, count_license l (test datasets)))
                      License_members |} ])
  /\ (forall (l : License) (samples : list Sample),
         count_license l samples
         = Z.of_nat (List.length
                       (filter (fun s => License_eqb (from_name (license s)) l)
                               samples)))
  /\ (forall samples : list Sample,
         fold_right Z.add 0
           (map (fun l => count_license l samples) License_members)
         = Z.of_nat (List.length samples))
  /\ license_info
       {| train :=
            [tagged "1" "Attribution License";
             tagged "2" "Attribution License";
             tagged "3" "unknown-string"];
          validation := [];
          test := [] |}
     = [ {| report_split := "train";
            report_total := 3;
            report_counts :=
              [(CC_BY, 2); (CC_BY_SA, 0); (CC_BY_ND, 0); (CC_BY_NC, 0);
               (CC_BY_NC_SA, 0); (CC_BY_NC_ND, 0); (OTHER, 0); (CC0, 1)] |};
         {| report_split := "validation";
            report_total := 0;
            report_counts :=
              [(CC_BY, 0); (CC_BY_SA, 0); (CC_BY_ND, 0); (CC_BY_NC, 0);
               (CC_BY_NC_SA, 0); (CC_BY_NC_ND, 0); (OTHER, 0); (CC0, 0)] |};
         {| report_split := "test";
            report_total := 0;
            report_counts :=
              [(CC_BY, 0); (CC_BY_SA, 0); (CC_BY_ND, 0); (CC_BY_NC, 0);
               (CC_BY_NC_SA, 0); (CC_BY_NC_ND, 0); (OTHER, 0); (CC0, 0)] |} ].
Proof.
  split; [exact from_name_exact | ].
  split; [exact from_name_fallback | ].
  split; [reflexivity | ].
  split; [ | split; [reflexivity
                    | split; [exact count_license_total | reflexivity]]].
  intros datasets.
  assert (R : forall (split : string) (samples : list Sample),
             split_report (split, samples)
             = {| report_split := split;
                  report_total := Z.of_nat (List.length samples);
                  report_counts :=
                    map (fun l => (l, count_license l samples))
                        License_members |}).
  { intros split samples. unfold split_report. f_equal.
    apply map_ext. intros l. rewrite tally_counts. reflexivity. }
  unfold license_info, items. cbn [map]. rewrite !R. reflexivity.
Qed.

Lemma C8_license_tally_witness : from_name (Some "unknown-string"%string) = CC0.
Proof.
  apply (proj1 (proj2 C8_license_tally) (Some "unknown-string"%string)).
  intros l H. destruct l; discriminate H.
Defined.

(** * The ratio prompt *)

Lemma int_of_str_raises (limit : Z) (s : list ascii) (e : PyError) :
  int_of_str limit s = Raise e -> e = ValueError.
Proof.
  unfold int_of_str.
  destruct (match strip_int s with
            | [] => (false, strip_int s)
            | c :: rest0 =>
                if Ascii.eqb c "-" then (true, rest0)
                else if Ascii.eqb c "+" then (false, rest0)
                else (false, strip_int s)
            end) as [negative digits].
  destruct (parse_digits digits 0 0 false) as [[n ndigits] | ].
  - destruct ((0 <? limit) && (limit <? ndigits)); intros H.
    + injection H as <-. reflexivity.
    + discriminate H.
  - intros H. injection H as <-. reflexivity.
Qed.

Lemma ints_of_pieces_raises (limit : Z) (pieces : list (list ascii))
    (e : PyError) :
  ints_of_pieces limit pieces = Raise e -> e = ValueError.
Proof.
  induction pieces as [ | x rest IH]; cbn [ints_of_pieces].
  - discriminate.
  - destruct (int_of_str limit (strip x)) as [n | e0] eqn:E; cbn [bind].
    + destruct (ints_of_pieces limit rest) as [ns | e1]; cbn [bind].
      * discriminate.
      * intros H. injection H as <-. apply IH. reflexivity.
    + intros H. injection H as <-. exact (int_of_str_raises limit _ _ E).
Qed.

(** An accepted list holds one integer per piece, each the value of
    [int] on the stripped piece. *)
Lemma ints_of_pieces_Ok (limit : Z) (pieces : list (list ascii)) :
  forall ratio,
    ints_of_pieces limit pieces = Ok ratio ->
    map (fun x => int_of_str limit (strip x)) pieces = map Ok ratio.
Proof.
  induction pieces as [ | x rest IH]; cbn [ints_of_pieces]; intros ratio H.
  - injection H as <-. reflexivity.
  - bind_inv H. bind_inv H. injection H as <-.
    cbn [map]. rewrite E, (IH _ E0). reflexivity.
Qed.

Lemma split_on_nonempty (sep : ascii) (s : list ascii) : split_on sep s <> [].
Proof.
  destruct s as [ | c rest]; cbn [split_on]; [discriminate | ].
  destruct (Ascii.eqb c sep); [discriminate | ].
  destruct (split_on sep rest); discriminate.
Qed.

(** One turn of the loop on a line that is at hand. *)
Lemma ratio_loop_step (limit : Z) (line : string) (lines printed : list string) :
  ratio_loop limit (line :: lines) printed =
    match ints_of_pieces limit (split_on ":" (list_ascii_of_string line)) with
    | Ok ratio =>
        (Ok ratio,
         {| stdin := lines; stdout := printed ++ [ratio_prompt_text] |})
    | Raise _ =>
        ratio_loop limit lines
          (printed ++ [ratio_prompt_text; "Please enter valid numbers"%string])
    end.
Proof.
  cbn [ratio_loop].
  destruct (ints_of_pieces limit (split_on ":" (list_ascii_of_string line)))
    as [ratio | e] eqn:E; [reflexivity | ].
  rewrite (ints_of_pieces_raises limit _ _ E).
  rewrite <- app_assoc. reflexivity.
Qed.

(** C9, the claim as stated, fails: the prompt stores [0:0] (both zero),
    [5] (one number, not a pair), [1:2:3] (three numbers) and [-1:2] (a
    negative number) without asking again, and none of them is a pair of
    non-negative integers that are not both zero. *)
Lemma C9_counterexample_ratio_not_validated :
  ratio_loop 4300 ["0:0"%string] []
    = (Ok [0; 0], {| stdin := []; stdout := [ratio_prompt_text] |})
  /\ valid_ratio [0; 0] = false
  /\ ratio_loop 4300 ["5"%string] []
     = (Ok [5], {| stdin := []; stdout := [ratio_prompt_text] |})
  /\ valid_ratio [5] = false
  /\ ratio_loop 4300 ["1:2:3"%string] []
     = (Ok [1; 2; 3], {| stdin := []; stdout := [ratio_prompt_text] |})
  /\ valid_ratio [1; 2; 3] = false
  /\ ratio_loop 4300 ["-1:2"%string] []
     = (Ok [-1; 2], {| stdin := []; stdout := [ratio_prompt_text] |})
  /\ valid_ratio [-1; 2] = false.
Proof. repeat split; vm_compute; reflexivity. Qed.

(** C9, amended.  For every accepted ratio input, the stored
    [pos_neg_ratio] is the list of integers obtained by splitting the
    input line on [:] and reading every piece with [int]: one integer per
    piece (at least one), of any sign, possibly all zero.  The lines
    before it are exactly those with a piece that [int] refuses; each of
    them is answered with "Please enter valid numbers" and a new prompt,
    and nothing of them is stored. *)
Theorem C9_ratio_prompt_stores_parsed_pieces (limit : Z) :
  forall (lines printed : list string) (ratio : list Z) (io : Console),
    ratio_loop limit lines printed = (Ok ratio, io) ->
    exists rejected line rest,
      lines = rejected ++ line :: rest
      /\ ints_of_pieces limit (split_on ":" (list_ascii_of_string line))
         = Ok ratio
      /\ map (fun x => int_of_str limit (strip x))
             (split_on ":" (list_ascii_of_string line))
         = map Ok ratio
      /\ ratio <> []
      /\ (forall r, In r rejected ->
            ints_of_pieces limit (split_on ":" (list_ascii_of_string r))
              = Raise ValueError)
      /\ stdin io = rest
      /\ stdout io = printed ++ reprompts rejected ++ [ratio_prompt_text].
Proof.
  induction lines as [ | line lines IH]; intros printed ratio io H.
  - discriminate H.
  - rewrite ratio_loop_step in H.
    destruct (ints_of_pieces limit (split_on ":" (list_ascii_of_string line)))
      as [l | e] eqn:E.
    + injection H as <- <-.
      exists [], line, lines. cbn [app reprompts map List.concat In stdin stdout].
      split; [reflexivity | ]. split; [exact E | ].
      split; [exact (ints_of_pieces_Ok limit _ _ E) | ].
      split; [ | split; [intros r [] | split; reflexivity]].
      intros ->. apply ints_of_pieces_Ok in E.
      destruct (split_on ":" (list_ascii_of_string line)) eqn:S;
        [exact (split_on_nonempty _ _ S) | discriminate E].
    + destruct (IH _ _ _ H) as (rejected & l0 & rest & -> & Hok & Hmap & Hne & Hrej & Hin & Hout).
      exists (line :: rejected), l0, rest.
      split; [reflexivity | ]. split; [exact Hok | ].
      split; [exact Hmap | ]. split; [exact Hne | ].
      split; [ | split; [exact Hin | ]].
      * intros r [<- | Hr]; [ | exact (Hrej r Hr)].
        rewrite E. f_equal. exact (ints_of_pieces_raises limit _ _ E).
      * rewrite Hout. unfold reprompts. cbn [map List.concat].
        rewrite <- !app_assoc. reflexivity.
Qed.

Lemma C9_ratio_prompt_stores_parsed_pieces_witness :
  exists rejected line rest,
    ["ten to one"%string; " 10 : 1 "%string; "y"%string]
      = rejected ++ line :: rest
    /\ ints_of_pieces 4300 (split_on ":" (list_ascii_of_string line))
       = Ok [10; 1]
    /\ map (fun x => int_of_str 4300 (strip x))
           (split_on ":" (list_ascii_of_string line))
       = map Ok [10; 1]
    /\ [10; 1] <> []
    /\ (forall r, In r rejected ->
          ints_of_pieces 4300 (split_on ":" (list_ascii_of_string r))
            = Raise ValueError)
    /\ stdin {| stdin := ["y"%string];
                stdout := [ratio_prompt_text;
                           "Please enter valid numbers"%string;
                           ratio_prompt_text] |}
       = rest
    /\ stdout {| stdin := ["y"%string];
                 stdout := [ratio_prompt_text;
                            "Please enter valid numbers"%string;
                            ratio_prompt_text] |}
       = [] ++ reprompts rejected ++ [ratio_prompt_text].
Proof.
  apply (C9_ratio_prompt_stores_parsed_pieces 4300
           ["ten to one"%string; " 10 : 1 "%string; "y"%string] [] [10; 1]).
  vm_compute. reflexivity.
Defined.

(** * Further properties of the planner *)

(** X1.  On a plannable request (total below [2^1000] in magnitude,
    three fractions between 0 and 1) whose ratio has at least two
    numbers, the planner returns a plan exactly when the first two do not
    sum to zero, and raises [ZeroDivisionError] when they do: no float
    operation overflows on the way. *)
Theorem X1_planner_returns_or_divides_by_zero
    (self : Dataset) (p n : Z) (rest : list Z) :
  plannable self = true ->
  pos_neg_ratio self = p :: n :: rest ->
  (p + n <> 0 -> exists plan, split_dataset self = Ok plan)
  /\ (p + n = 0 -> split_dataset self = Raise ZeroDivisionError).
Proof.
  intros Hp Hratio. split.
  - intros Hrt. exact (split_dataset_returns self p n rest Hp Hratio Hrt).
  - intros Hzero.
    rewrite (split_dataset_zero_total self p n rest Hratio Hzero).
    unfold plannable in Hp.
    apply andb_prop in Hp. destruct Hp as [Hp _].
    apply andb_prop in Hp. destruct Hp as [Hp _].
    apply andb_prop in Hp. destruct Hp as [Ht H1].
    apply Z.ltb_lt in Ht.
    destruct (split_images_returns _ _ Ht H1) as (images & -> & _).
    reflexivity.
Qed.

Lemma X1_planner_returns_or_divides_by_zero_witness :
  (10 + 1 <> 0 ->
   exists plan,
     split_dataset (request 300 (lit 7 10) (lit 2 10) (lit 1 10) [10; 1])
       = Ok plan)
  /\ (10 + 1 = 0 ->
      split_dataset (request 300 (lit 7 10) (lit 2 10) (lit 1 10) [10; 1])
        = Raise ZeroDivisionError).
Proof.
  apply (X1_planner_returns_or_divides_by_zero
           (request 300 (lit 7 10) (lit 2 10) (lit 1 10) [10; 1]) 10 1 []).
  - vm_compute. reflexivity.
  - reflexivity.
Defined.

(** X2.  A ratio with fewer than two numbers (the prompt stores [5] as
    it is) makes the planner fail with [IndexError], and [load_dataset]
    with it, before any retrieval. *)
Theorem X2_short_ratio_raises_IndexError (self : Dataset) :
  (List.length (pos_neg_ratio self) < 2)%nat ->
  split_dataset self = Raise IndexError
  /\ forall zoo, load_dataset zoo self = Raise IndexError.
Proof.
  intros Hlen.
  assert (H : split_dataset self = Raise IndexError).
  { unfold split_dataset.
    destruct (pos_neg_ratio self) as [ | r0 [ | r1 rest]];
      [reflexivity | reflexivity | cbn [List.length] in Hlen; lia]. }
  split; [exact H | ].
  intros zoo. exact (load_dataset_raises zoo self _ H).
Qed.

Lemma X2_short_ratio_raises_IndexError_witness :
  split_dataset (request 300 (lit 7 10) (lit 2 10) (lit 1 10) [5])
    = Raise IndexError
  /\ forall zoo,
      load_dataset zoo (request 300 (lit 7 10) (lit 2 10) (lit 1 10) [5])
        = Raise IndexError.
Proof.
  apply (X2_short_ratio_raises_IndexError
           (request 300 (lit 7 10) (lit 2 10) (lit 1 10) [5])).
  cbn. lia.
Defined.

Lemma lit_1_1000 : lit 1 1000 = S754_finite false 4611686018427388 (-62).
Proof. vm_compute. reflexivity. Qed.

Lemma mul_nan_r (x : float) : mul x S754_nan = S754_nan.
Proof. destruct x; reflexivity. Qed.

Lemma add_nan_l (x : float) : add S754_nan x = S754_nan.
Proof. reflexivity. Qed.

Lemma add_nan_r (x : float) : add x S754_nan = S754_nan.
Proof. destruct x; reflexivity. Qed.

(** The split check lets a triple through as soon as one of the three
    numbers is NaN and the others pass their range test: every comparison
    with NaN is false. *)
Lemma splits_accepted_nan (a b c : float) :
  in_range a = true -> in_range b = true -> in_range c = true ->
  a = S754_nan \/ b = S754_nan \/ c = S754_nan ->
  splits_accepted a b c = true.
Proof.
  unfold in_range, splits_accepted. intros Ha Hb Hc Hnan.
  apply negb_true_iff in Ha, Hb, Hc. rewrite Ha, Hb, Hc.
  assert (S : add (add a b) c = S754_nan).
  { destruct Hnan as [-> | [-> | ->]].
    - reflexivity.
    - rewrite add_nan_r. reflexivity.
    - apply add_nan_r. }
  rewrite S. reflexivity.
Qed.

(** X3.  The split check accepts a NaN train fraction with any two
    fractions that pass their range test, and the planner then fails with
    [ValueError] (rounding NaN), whatever the ratio with two numbers and
    the total (below [2^1023] in magnitude). *)
Theorem X3_nan_fraction_accepted_then_ValueError :
  (forall b c : float,
      in_range b = true -> in_range c = true ->
      splits_accepted S754_nan b c = true)
  /\ (forall (total_images : Z) (b c : float) (p n : Z) (rest : list Z),
         Z.abs total_images < 2 ^ 1023 ->
         split_dataset (request total_images S754_nan b c (p :: n :: rest))
           = Raise ValueError).
Proof.
  split.
  - intros b c Hb Hc. apply splits_accepted_nan; auto.
  - intros total_images b c p n rest Ht.
    unfold split_dataset, request.
    cbn [pos_neg_ratio total_number_of_images train_split index nth_error bind].
    unfold int_mul.
    destruct (of_int_within total_images 1023) as (x & -> & _); try lia.
    cbn [bind]. rewrite mul_nan_r. reflexivity.
Qed.

Lemma X3_nan_fraction_accepted_then_ValueError_witness :
  splits_accepted S754_nan (lit 2 10) (lit 1 10) = true
  /\ split_dataset (request 300 S754_nan (lit 2 10) (lit 1 10) [10; 1])
     = Raise ValueError.
Proof.
  split.
  - apply (proj1 X3_nan_fraction_accepted_then_ValueError);
      vm_compute; reflexivity.
  - apply (proj2 X3_nan_fraction_accepted_then_ValueError 300
             (lit 2 10) (lit 1 10) 10 1 []).
    vm_compute. reflexivity.
Defined.

(** A number that passes the range test and is a valid binary64 value
    other than NaN is a fraction. *)
Lemma in_range_fraction (f : float) :
  in_range f = true -> valid_binary prec emax f = true -> f <> S754_nan ->
  is_fraction f = true.
Proof.
  unfold in_range, is_fraction. rewrite lit_0_1, lit_1_1.
  intros Hr Hv Hn. rewrite Hv. cbn [andb].
  apply negb_true_iff, orb_false_iff in Hr. destruct Hr as [H0 H1].
  destruct f as [s | s | | s m e].
  - reflexivity.
  - destruct s; cbn in H0, H1; discriminate.
  - congruence.
  - destruct s; [cbn in H0; discriminate H0 | ].
    cbn [andb].
    assert (C : SFcompare (S754_finite false m e)
                  (S754_finite false 4503599627370496 (-52))
                = Some Lt
                \/ SFcompare (S754_finite false m e)
                     (S754_finite false 4503599627370496 (-52))
                   = Some Eq).
    { unfold ltb, SFltb in H1.
      assert (C1 : SFcompare (S754_finite false 4503599627370496 (-52))
                     (S754_finite false m e) <> Some Lt)
        by (intros C1; rewrite C1 in H1; discriminate H1).
      unfold SFcompare in C1 |- *.
      rewrite (Z.compare_antisym e (-52)) in C1.
      destruct (e ?= -52) eqn:Ee; cbv beta iota delta [CompOpp] in C1.
      - rewrite Pos.compare_cont_spec in C1 |- *.
        unfold Pos.switch_Eq in C1 |- *.
        rewrite (Pos.compare_antisym m 4503599627370496) in C1.
        destruct (m ?= 4503599627370496)%positive;
          cbv beta iota delta [CompOpp] in C1; auto.
        exfalso. apply C1. reflexivity.
      - auto.
      - exfalso. apply C1. reflexivity. }
    unfold SFleb. destruct C as [-> | ->]; reflexivity.
Qed.

Lemma splits_accepted_in_range (a b c : float) :
  splits_accepted a b c = true ->
  in_range a = true /\ in_range b = true /\ in_range c = true.
Proof.
  unfold splits_accepted, in_range. intros H.
  destruct (ltb a (lit 0 1) || ltb (lit 1 1) a); [discriminate H | ].
  destruct (ltb b (lit 0 1) || ltb (lit 1 1) b); [discriminate H | ].
  destruct (ltb c (lit 0 1) || ltb (lit 1 1) c); [discriminate H | ].
  auto.
Qed.

(** X4.  Whatever the split check accepts, NaN apart, the planner
    handles: for three valid binary64 numbers other than NaN that pass
    the check, every total below [2^1000] in magnitude and every ratio
    whose first two numbers do not sum to zero, the planner returns a
    plan. *)
Theorem X4_accepted_splits_are_planned
    (total_images : Z) (a b c : float) (p n : Z) (rest : list Z) :
  splits_accepted a b c = true ->
  valid_binary prec emax a = true -> a <> S754_nan ->
  valid_binary prec emax b = true -> b <> S754_nan ->
  valid_binary prec emax c = true -> c <> S754_nan ->
  Z.abs total_images < 2 ^ 1000 ->
  p + n <> 0 ->
  is_fraction a = true /\ is_fraction b = true /\ is_fraction c = true
  /\ exists plan,
      split_dataset (request total_images a b c (p :: n :: rest)) = Ok plan.
Proof.
  intros Hacc Va Na Vb Nb Vc Nc Ht Hrt.
  destruct (splits_accepted_in_range a b c Hacc) as (Ra & Rb & Rc).
  pose proof (in_range_fraction a Ra Va Na) as Fa.
  pose proof (in_range_fraction b Rb Vb Nb) as Fb.
  pose proof (in_range_fraction c Rc Vc Nc) as Fc.
  repeat split; try assumption.
  apply (split_dataset_returns _ p n rest); [ | reflexivity | assumption].
  unfold plannable, request.
  cbn [total_number_of_images train_split val_split test_split].
  rewrite Fa, Fb, Fc. apply Z.ltb_lt in Ht. rewrite Ht. reflexivity.
Qed.

Lemma X4_accepted_splits_are_planned_witness :
  is_fraction (lit 7 10) = true /\ is_fraction (lit 2 10) = true
  /\ is_fraction (lit 1 10) = true
  /\ exists plan,
      split_dataset (request 300 (lit 7 10) (lit 2 10) (lit 1 10) [10; 1])
        = Ok plan.
Proof.
  apply (X4_accepted_splits_are_planned 300 (lit 7 10) (lit 2 10) (lit 1 10)
           10 1 []);
    try (vm_compute; reflexivity); vm_compute; discriminate.
Defined.

Lemma split_counts_zero_total (f : float) (rt neg : Z) :
  is_finite f = true -> rt <> 0 -> split_counts 0 f rt neg = Ok (0, 0).
Proof.
  intros Hf Hrt. unfold split_counts, split_images, int_mul.
  change (of_int 0) with (Ok (S754_zero false)). cbn [bind].
  assert (M : exists s, mul (S754_zero false) f = S754_zero s).
  { destruct f as [s | s | | s m e]; try discriminate Hf; eexists; reflexivity. }
  destruct M as [s ->]. cbn [round bind].
  unfold int_truediv.
  apply Z.eqb_neq in Hrt. rewrite Hrt. cbn [Z.eqb bind round].
  reflexivity.
Qed.

(** X5.  With a total of 0 images, finite fractions and a ratio whose
    first two numbers do not sum to zero, the plan is six zeros. *)
Theorem X5_zero_total_gives_zero_plan
    (a b c : float) (p n : Z) (rest : list Z) :
  is_finite a = true -> is_finite b = true -> is_finite c = true ->
  p + n <> 0 ->
  split_dataset (request 0 a b c (p :: n :: rest)) = Ok (0, 0, 0, 0, 0, 0).
Proof.
  intros Ha Hb Hc Hrt.
  rewrite (split_dataset_plan (request 0 a b c (p :: n :: rest)) p n rest eq_refl).
  unfold plan, request.
  cbn [total_number_of_images train_split val_split test_split].
  rewrite !split_counts_zero_total by assumption.
  reflexivity.
Qed.

Lemma X5_zero_total_gives_zero_plan_witness :
  split_dataset (request 0 (lit 7 10) (lit 2 10) (lit 1 10) [10; 1])
    = Ok (0, 0, 0, 0, 0, 0).
Proof.
  apply (X5_zero_total_gives_zero_plan (lit 7 10) (lit 2 10) (lit 1 10) 10 1 []);
    try (vm_compute; reflexivity).
  vm_compute; discriminate.
Defined.

Lemma split_counts_no_negatives (total_images : Z) (frac : float) (rt a b : Z) :
  split_counts total_images frac rt 0 = Ok (a, b) ->
  a = 0 /\ split_images total_images frac = Ok b.
Proof.
  unfold split_counts. intros H.
  bind_inv H. bind_inv H. bind_inv H. injection H as <- <-.
  split; [lia | ]. rewrite E. f_equal. lia.
Qed.

(** X6.  When the second ratio number is 0 and the first is not, a
    plannable request is planned with no negatives at all: every
    [*_negatives] is 0 and each [*_positives] is the rounded size of its
    split. *)
Theorem X6_no_negatives_when_ratio_negative_is_zero
    (self : Dataset) (p : Z) (rest : list Z) :
  plannable self = true ->
  pos_neg_ratio self = p :: 0 :: rest ->
  p <> 0 ->
  exists tp vp tep,
    split_dataset self = Ok (0, tp, 0, vp, 0, tep)
    /\ split_images (total_number_of_images self) (train_split self) = Ok tp
    /\ split_images (total_number_of_images self) (val_split self) = Ok vp
    /\ split_images (total_number_of_images self) (test_split self) = Ok tep.
Proof.
  intros Hp Hratio Hne.
  destruct (split_dataset_returns self p 0 rest Hp Hratio ltac:(lia))
    as ([[[[[tn tp] vn] vp] ten] tep] & Hplan).
  pose proof Hplan as Hplan'.
  rewrite (split_dataset_plan self p 0 rest Hratio) in Hplan'.
  apply plan_Ok_inv in Hplan'. destruct Hplan' as (H1 & H2 & H3).
  apply split_counts_no_negatives in H1, H2, H3.
  destruct H1 as [-> H1], H2 as [-> H2], H3 as [-> H3].
  exists tp, vp, tep. auto.
Qed.

Lemma X6_no_negatives_when_ratio_negative_is_zero_witness :
  exists tp vp tep,
    split_dataset (request 300 (lit 7 10) (lit 2 10) (lit 1 10) [3; 0])
      = Ok (0, tp, 0, vp, 0, tep)
    /\ split_images 300 (lit 7 10) = Ok tp
    /\ split_images 300 (lit 2 10) = Ok vp
    /\ split_images 300 (lit 1 10) = Ok tep.
Proof.
  apply (X6_no_negatives_when_ratio_negative_is_zero
           (request 300 (lit 7 10) (lit 2 10) (lit 1 10) [3; 0]) 3 []).
  - vm_compute. reflexivity.
  - reflexivity.
  - lia.
Defined.

(** X7.  Only the first two ratio numbers count: the planner and
    [load_dataset] give the same result for [p : n : ...] as for [p : n]
    (the prompt stores [1:2:3] as three numbers, and the third is never
    read). *)
Theorem X7_extra_ratio_numbers_are_ignored
    (zoo : ZooRequest -> list Sample) (self : Dataset) (p n : Z)
    (rest : list Z) :
  split_dataset (set_ratio self (p :: n :: rest))
    = split_dataset (set_ratio self [p; n])
  /\ load_dataset zoo (set_ratio self (p :: n :: rest))
     = load_dataset zoo (set_ratio self [p; n]).
Proof.
  assert (S : split_dataset (set_ratio self (p :: n :: rest))
              = split_dataset (set_ratio self [p; n])).
  { rewrite (split_dataset_plan (set_ratio self (p :: n :: rest)) p n rest eq_refl).
    rewrite (split_dataset_plan (set_ratio self [p; n]) p n [] eq_refl).
    reflexivity. }
  split; [exact S | ].
  unfold load_dataset. rewrite S.
  destruct (split_dataset (set_ratio self [p; n])) as [plan | e];
    [ | reflexivity].
  reflexivity.
Qed.

(** * Further properties of the assigner and of [load_dataset] *)

Lemma three_slices_any (a b : nat) (stream : list Sample) :
  firstn a stream ++ skipn a (firstn b stream) ++ skipn (Nat.max a b) stream
  = stream.
Proof.
  destruct (Nat.le_gt_cases a b) as [Hab | Hab].
  - rewrite Nat.max_r by assumption.
    replace (firstn a stream) with (firstn a (firstn b stream))
      by (rewrite firstn_firstn, Nat.min_l by assumption; reflexivity).
    rewrite app_assoc, firstn_skipn. apply firstn_skipn.
  - rewrite Nat.max_l by lia.
    rewrite (skipn_all2 (firstn b stream)) by (rewrite length_firstn; lia).
    cbn [app]. apply firstn_skipn.
Qed.

(** X8.  Whatever the two quotas are, negative ones included, one loop
    of the assigner cuts the stream into three consecutive pieces, in
    order, one per split: no sample is dropped, repeated or reordered.
    With a negative train quota train receives nothing and validation
    only the first [n_train + n_val] samples; with a negative validation
    quota validation receives nothing. *)
Theorem X8_assign_loop_partitions_any_quota
    (n_train n_val : Z) (stream : list Sample) (datasets : Datasets) :
  exists to_train to_val to_test,
    assign_loop n_train n_val stream 0 datasets
      = {| train := train datasets ++ to_train;
           validation := validation datasets ++ to_val;
           test := test datasets ++ to_test |}
    /\ to_train ++ to_val ++ to_test = stream
    /\ (n_train < 0 ->
        to_train = []
        /\ to_val = firstn (Z.to_nat (n_train + n_val)) stream)
    /\ (n_val < 0 -> to_val = []).
Proof.
  exists (firstn (Z.to_nat n_train) stream),
         (skipn (Z.to_nat n_train) (firstn (Z.to_nat (n_train + n_val)) stream)),
         (skipn (Z.to_nat (Z.max n_train (n_train + n_val))) stream).
  split; [ | split; [ | split]].
  - rewrite assign_loop_spec, !Z.sub_0_r. reflexivity.
  - rewrite Z2Nat.inj_max. apply three_slices_any.
  - intros Hneg. replace (Z.to_nat n_train) with 0%nat by lia.
    split; reflexivity.
  - intros Hneg. apply skipn_all2. rewrite length_firstn. lia.
Qed.

Lemma split_dataset_Ok_ratio (self : Dataset) (plan : SplitPlan) :
  split_dataset self = Ok plan ->
  exists p n rest, pos_neg_ratio self = p :: n :: rest.
Proof.
  unfold split_dataset.
  destruct (pos_neg_ratio self) as [ | p [ | n rest]];
    [discriminate | discriminate | ].
  intros _. exists p, n, rest. reflexivity.
Qed.

Lemma int_mul_raises (a : Z) (x : float) (e : PyError) :
  int_mul a x = Raise e -> e = OverflowError.
Proof.
  unfold int_mul, of_int.
  destruct (binary_normalize prec emax a 0 false); cbn; congruence.
Qed.

Lemma round_raises (x : float) (e : PyError) :
  round x = Raise e -> e = OverflowError \/ e = ValueError.
Proof. destruct x; cbn; intros H; try discriminate H; injection H as <-; auto. Qed.

Lemma int_truediv_raises (a b : Z) (e : PyError) :
  int_truediv a b = Raise e -> e = ZeroDivisionError \/ e = OverflowError.
Proof.
  unfold int_truediv.
  destruct (b =? 0); [intros H; injection H as <-; auto | ].
  destruct (a =? 0); [discriminate | ].
  destruct (SFdiv_core_binary prec emax (Z.abs a) 0 (Z.abs b) 0) as [[mz ez] lz].
  destruct (binary_round_aux prec emax (xorb (a <? 0) (b <? 0)) mz ez lz);
    cbn; intros H; try discriminate H; injection H as <-; auto.
Qed.

Lemma split_counts_raises (total_images : Z) (frac : float) (rt neg : Z)
    (e : PyError) :
  split_counts total_images frac rt neg = Raise e -> planner_error e = true.
Proof.
  unfold split_counts, split_images.
  destruct (int_mul total_images frac) as [x | e1] eqn:E1; cbn [bind].
  - destruct (round x) as [i | e2] eqn:E2; cbn [bind].
    + destruct (int_truediv i rt) as [q | e3] eqn:E3; cbn [bind].
      * destruct (round q) as [k | e4] eqn:E4; cbn [bind]; [discriminate | ].
        intros H. injection H as <-.
        destruct (round_raises _ _ E4) as [-> | ->]; reflexivity.
      * intros H. injection H as <-.
        destruct (int_truediv_raises _ _ _ E3) as [-> | ->]; reflexivity.
    + intros H. injection H as <-.
      destruct (round_raises _ _ E2) as [-> | ->]; reflexivity.
  - intros H. injection H as <-.
    rewrite (int_mul_raises _ _ _ E1). reflexivity.
Qed.

Lemma split_dataset_raises (self : Dataset) (e : PyError) :
  split_dataset self = Raise e -> planner_error e = true.
Proof.
  destruct (pos_neg_ratio self) as [ | p [ | n rest]] eqn:Hratio.
  - unfold split_dataset. rewrite Hratio. cbn. intros H. injection H as <-.
    reflexivity.
  - unfold split_dataset. rewrite Hratio. cbn. intros H. injection H as <-.
    reflexivity.
  - rewrite (split_dataset_plan self p n rest Hratio). unfold plan.
    destruct (split_counts _ (train_split self) _ _) as [c1 | e1] eqn:E1;
      cbn [bind];
      [ | intros H; injection H as <-; exact (split_counts_raises _ _ _ _ _ E1)].
    destruct (split_counts _ (val_split self) _ _) as [c2 | e2] eqn:E2;
      cbn [bind];
      [ | intros H; injection H as <-; exact (split_counts_raises _ _ _ _ _ E2)].
    destruct (split_counts _ (test_split self) _ _) as [c3 | e3] eqn:E3;
      cbn [bind];
      [discriminate
      | intros H; injection H as <-; exact (split_counts_raises _ _ _ _ _ E3)].
Qed.

(** ** [load_dataset] with collaborators that can fail *)

Lemma assign_loop_io_Ok (env : Environment) (n_train n_val : Z)
    (stream : list Sample) :
  forall (count : Z) (datasets datasets' : Datasets),
    assign_loop_io env n_train n_val stream count datasets = Ok datasets' ->
    datasets' = assign_loop n_train n_val stream count datasets.
Proof.
  induction stream as [ | s rest IH]; intros count datasets datasets' H.
  - cbn [assign_loop_io] in H. injection H as <-. reflexivity.
  - cbn [assign_loop_io assign_loop] in H |- *. unfold add_sample_io in H.
    destruct (count <? n_train).
    + destruct (add_sample_error env Train s); [discriminate H | ].
      exact (IH _ _ _ H).
    + destruct (count <? n_train + n_val).
      * destruct (add_sample_error env Validation s); [discriminate H | ].
        exact (IH _ _ _ H).
      * destruct (add_sample_error env Test s); [discriminate H | ].
        exact (IH _ _ _ H).
Qed.

Lemma assign_loop_io_Raise (env : Environment) (n_train n_val : Z)
    (stream : list Sample) :
  forall (count : Z) (datasets : Datasets) (e : PyError),
    assign_loop_io env n_train n_val stream count datasets = Raise e ->
    exists key sample, add_sample_error env key sample = Some e.
Proof.
  induction stream as [ | s rest IH]; intros count datasets e H.
  - discriminate H.
  - cbn [assign_loop_io] in H. unfold add_sample_io in H.
    destruct (count <? n_train).
    + destruct (add_sample_error env Train s) as [e' | ] eqn:E.
      * injection H as <-. exists Train, s. exact E.
      * exact (IH _ _ _ H).
    + destruct (count <? n_train + n_val).
      * destruct (add_sample_error env Validation s) as [e' | ] eqn:E.
        -- injection H as <-. exists Validation, s. exact E.
        -- exact (IH _ _ _ H).
      * destruct (add_sample_error env Test s) as [e' | ] eqn:E.
        -- injection H as <-. exists Test, s. exact E.
        -- exact (IH _ _ _ H).
Qed.

Lemma assign_loop_io_succeeds (env : Environment) (n_train n_val : Z)
    (stream : list Sample) (count : Z) (datasets : Datasets) :
  (forall key sample, add_sample_error env key sample = None) ->
  assign_loop_io env n_train n_val stream count datasets
  = Ok (assign_loop n_train n_val stream count datasets).
Proof.
  intros Hok.
  destruct (assign_loop_io env n_train n_val stream count datasets)
    as [d | e] eqn:E.
  - rewrite (assign_loop_io_Ok _ _ _ _ _ _ _ E). reflexivity.
  - destruct (assign_loop_io_Raise _ _ _ _ _ _ _ E) as (key & sample & H).
    rewrite Hok in H. discriminate H.
Qed.

(** The two loops with [add_sample] calls that can fail, on the
    collections [load_dataset] has at hand: they give what the loops
    without failure give, or the exception of an [add_sample]. *)
Lemma assign_io_guarded (env : Environment) (r0 r1 : Z) (rest : list Z)
    (tn tp vn vp ten tep : Z) (ps ns : list Sample) (datasets : Datasets) :
  match assign_io env (r0 :: r1 :: rest) (tn, tp, vn, vp, ten, tep)
          (if negb (r0 =? 0) then Some ps else None)
          (if negb (r1 =? 0) then Some ns else None) datasets with
  | Ok datasets' =>
      datasets'
      = (let datasets :=
           if r0 =? 0 then datasets else assign_loop tp vp ps 0 datasets in
         if r1 =? 0 then datasets else assign_loop tn vn ns 0 datasets)
  | Raise e => exists key sample, add_sample_error env key sample = Some e
  end.
Proof.
  unfold assign_io. cbn [index nth_error bind].
  destruct (r0 =? 0); cbn [negb read_local bind].
  - destruct (r1 =? 0); cbn [negb read_local bind]; [reflexivity | ].
    destruct (assign_loop_io env tn vn ns 0 datasets) as [d | e] eqn:E;
      cbn [bind].
    + exact (assign_loop_io_Ok _ _ _ _ _ _ _ E).
    + exact (assign_loop_io_Raise _ _ _ _ _ _ _ E).
  - destruct (assign_loop_io env tp vp ps 0 datasets) as [d1 | e] eqn:E1;
      cbn [bind].
    + rewrite (assign_loop_io_Ok _ _ _ _ _ _ _ E1).
      destruct (r1 =? 0); cbn [negb read_local bind]; [reflexivity | ].
      destruct (assign_loop_io env tn vn ns 0
                  (assign_loop tp vp ps 0 datasets)) as [d | e] eqn:E;
        cbn [bind].
      * exact (assign_loop_io_Ok _ _ _ _ _ _ _ E).
      * exact (assign_loop_io_Raise _ _ _ _ _ _ _ E).
    + exact (assign_loop_io_Raise _ _ _ _ _ _ _ E1).
Qed.

(** What [load_dataset] does in any environment. *)
Lemma load_dataset_io_spec (env : Environment) (self : Dataset) (w : World) :
  match load_dataset_io env self w with
  | (r, w') =>
      stdin (console w') = stdin (console w)
      /\ match split_dataset self with
         | Raise e0 => r = Raise e0 /\ w' = w
         | Ok plan =>
             exists calls,
               effects w' = effects w ++ map load_zoo calls
               /\ (List.length calls <= 2)%nat
               /\ (forall call, In call calls ->
                     call = positives_request self plan
                     \/ call = negatives_request self plan)
               /\ match r with
                  | Ok datasets =>
                      load_dataset (zoo_samples env) self = Ok (calls, datasets)
                      /\ Dataset_error env = None
                      /\ (forall call, In call calls ->
                            call_error env (load_zoo call) = None)
                  | Raise e =>
                      Dataset_error env = Some e
                      \/ (exists call,
                            In call calls
                            /\ call_error env (load_zoo call) = Some e)
                      \/ (exists key sample,
                            add_sample_error env key sample = Some e)
                  end
         end
  end.
Proof.
  unfold load_dataset_io, io_bind, io_lift.
  destruct (split_dataset self) as [plan | e0] eqn:Hplan; [ | auto].
  destruct (split_dataset_Ok_ratio self plan Hplan) as (p & n & rest & Hratio).
  destruct plan as [[[[[tn tp] vn] vp] ten] tep].
  pose proof (load_dataset_eq (zoo_samples env) self p n rest
                tn tp vn vp ten tep Hratio Hplan) as Hload.
  set (plan := (tn, tp, vn, vp, ten, tep)) in *.
  cbn [io_print].
  destruct (Dataset_error env) as [e | ] eqn:HD.
  { split; [reflexivity | ]. exists [].
    cbn [print_line effects map List.length]. rewrite app_nil_r.
    split; [reflexivity | ]. split; [lia | ].
    split; [intros call [] | left; reflexivity]. }
  rewrite Hratio. cbn [index nth_error].
  pose proof (assign_io_guarded env p n rest tn tp vn vp ten tep
                (zoo_samples env (positives_request self plan))
                (zoo_samples env (negatives_request self plan))
                empty_datasets) as Hassign.
  fold plan in Hassign.
  unfold retrieve, io_bind, call, io_ret.
  destruct (p =? 0) eqn:Hp; cbn [negb] in Hassign |- *.
  - destruct (n =? 0) eqn:Hn; cbn [negb] in Hassign |- *.
    + (* no retrieval at all *)
      destruct (assign_io env (p :: n :: rest) plan None None empty_datasets)
        as [d | e].
      * split; [reflexivity | ]. exists [].
        cbn [print_line effects map List.length]. rewrite app_nil_r.
        split; [reflexivity | ]. split; [lia | ].
        split; [intros call [] | ].
        rewrite Hload, Hassign. cbn [app].
        split; [reflexivity | ]. split; [reflexivity | intros call []].
      * split; [reflexivity | ]. exists [].
        cbn [print_line effects map List.length]. rewrite app_nil_r.
        split; [reflexivity | ]. split; [lia | ].
        split; [intros call [] | right; right; exact Hassign].
    + (* the negatives only *)
      destruct (call_error env (load_zoo (negatives_request self plan)))
        as [e | ] eqn:En.
      * split; [reflexivity | ]. exists [negatives_request self plan].
        cbn [print_line perform effects map List.length].
        split; [reflexivity | ]. split; [lia | ].
        split; [intros call [<- | []]; right; reflexivity | ].
        right; left. exists (negatives_request self plan).
        split; [left; reflexivity | exact En].
      * destruct (assign_io env (p :: n :: rest) plan None
                    (Some (zoo_samples env (negatives_request self plan)))
                    empty_datasets) as [d | e].
        -- split; [reflexivity | ]. exists [negatives_request self plan].
           cbn [print_line perform effects map List.length].
           split; [reflexivity | ]. split; [lia | ].
           split; [intros call [<- | []]; right; reflexivity | ].
           rewrite Hload, Hassign. cbn [app].
           split; [reflexivity | ]. split; [reflexivity | ].
           intros call [<- | []]. exact En.
        -- split; [reflexivity | ]. exists [negatives_request self plan].
           cbn [print_line perform effects map List.length].
           split; [reflexivity | ]. split; [lia | ].
           split; [intros call [<- | []]; right; reflexivity | ].
           right; right; exact Hassign.
  - destruct (call_error env (load_zoo (positives_request self plan)))
      as [e | ] eqn:Ep.
    { split; [reflexivity | ]. exists [positives_request self plan].
      cbn [print_line perform effects map List.length].
      split; [reflexivity | ]. split; [lia | ].
      split; [intros call [<- | []]; left; reflexivity | ].
      right; left. exists (positives_request self plan).
      split; [left; reflexivity | exact Ep]. }
    destruct (n =? 0) eqn:Hn; cbn [negb] in Hassign |- *.
    + (* the positives only *)
      destruct (assign_io env (p :: n :: rest) plan
                  (Some (zoo_samples env (positives_request self plan)))
                  None empty_datasets) as [d | e].
      * split; [reflexivity | ]. exists [positives_request self plan].
        cbn [print_line perform effects map List.length].
        split; [reflexivity | ]. split; [lia | ].
        split; [intros call [<- | []]; left; reflexivity | ].
        rewrite Hload, Hassign. cbn [app].
        split; [reflexivity | ]. split; [reflexivity | ].
        intros call [<- | []]. exact Ep.
      * split; [reflexivity | ]. exists [positives_request self plan].
        cbn [print_line perform effects map List.length].
        split; [reflexivity | ]. split; [lia | ].
        split; [intros call [<- | []]; left; reflexivity | ].
        right; right; exact Hassign.
    + (* both *)
      destruct (call_error env (load_zoo (negatives_request self plan)))
        as [e | ] eqn:En.
      * split; [reflexivity | ].
        exists [positives_request self plan; negatives_request self plan].
        cbn [print_line perform effects map List.length].
        rewrite <- app_assoc.
        split; [reflexivity | ]. split; [lia | ].
        split; [intros call [<- | [<- | []]]; auto | ].
        right; left. exists (negatives_request self plan).
        split; [right; left; reflexivity | exact En].
      * destruct (assign_io env (p :: n :: rest) plan
                    (Some (zoo_samples env (positives_request self plan)))
                    (Some (zoo_samples env (negatives_request self plan)))
                    empty_datasets) as [d | e].
        -- split; [reflexivity | ].
           exists [positives_request self plan; negatives_request self plan].
           cbn [print_line perform effects map List.length].
           rewrite <- app_assoc.
           split; [reflexivity | ]. split; [lia | ].
           split; [intros call [<- | [<- | []]]; auto | ].
           rewrite Hload, Hassign. cbn [app].
           split; [reflexivity | ]. split; [reflexivity | ].
           intros call [<- | [<- | []]]; assumption.
        -- split; [reflexivity | ].
           exists [positives_request self plan; negatives_request self plan].
           cbn [print_line perform effects map List.length].
           rewrite <- app_assoc.
           split; [reflexivity | ]. split; [lia | ].
           split; [intros call [<- | [<- | []]]; auto | ].
           right; right; exact Hassign.
Qed.

(** X9.  [load_dataset] raises of its own only what the planner raises,
    and then before it prints or retrieves anything; every other
    exception that leaves it was raised by a collaborator ([fo.Dataset()],
    one of its retrieval calls, [add_sample]), so the loops never read a
    collection that was not retrieved.  Whatever happens, it makes at most
    two retrieval calls, each the call for the positives or the call for
    the negatives of the plan, and reads nothing from the console.  When
    the plan exists and no collaborator fails, it returns the datasets
    that the loops build from what the retrievals yield. *)
Theorem X9_load_dataset_fails_in_planner_or_collaborator
    (env : Environment) (self : Dataset) (w : World) :
  (forall e,
      split_dataset self = Raise e ->
      load_dataset_io env self w = (Raise e, w))
  /\ (forall e w',
         load_dataset_io env self w = (Raise e, w') ->
         split_dataset self = Raise e
         \/ Dataset_error env = Some e
         \/ (exists plan call,
               split_dataset self = Ok plan
               /\ (call = positives_request self plan
                   \/ call = negatives_request self plan)
               /\ call_error env (load_zoo call) = Some e)
         \/ (exists key sample, add_sample_error env key sample = Some e))
  /\ (forall plan,
         split_dataset self = Ok plan ->
         exists calls,
           effects (snd (load_dataset_io env self w))
           = effects w ++ map load_zoo calls
           /\ (List.length calls <= 2)%nat
           /\ (forall call, In call calls ->
                 call = positives_request self plan
                 \/ call = negatives_request self plan))
  /\ (succeeds env ->
      forall plan,
        split_dataset self = Ok plan ->
        exists calls datasets w',
          load_dataset_io env self w = (Ok datasets, w')
          /\ load_dataset (zoo_samples env) self = Ok (calls, datasets)
          /\ effects w' = effects w ++ map load_zoo calls)
  /\ stdin (console (snd (load_dataset_io env self w))) = stdin (console w).
Proof.
  pose proof (load_dataset_io_spec env self w) as S.
  destruct (load_dataset_io env self w) as [r w'].
  destruct S as (Hin & S). cbn [snd].
  split; [ | split; [ | split; [ | split; [ | exact Hin]]]].
  - intros e He. rewrite He in S. destruct S as [-> ->]. reflexivity.
  - intros e w'' H. injection H as -> <-.
    destruct (split_dataset self) as [plan | e0].
    + destruct S as (calls & _ & _ & Hcalls & [HD | [(call & Hc & He) | Ha]]).
      * right; left. exact HD.
      * right; right; left. exists plan, call.
        split; [reflexivity | ]. split; [exact (Hcalls call Hc) | exact He].
      * right; right; right. exact Ha.
    + destruct S as [S _]. injection S as <-. left. reflexivity.
  - intros plan Hplan. rewrite Hplan in S.
    destruct S as (calls & He & Hlen & Hcalls & _).
    exists calls. auto.
  - intros (Hcall & _ & HD & Hadd) plan Hplan. rewrite Hplan in S.
    destruct S as (calls & He & _ & _ & S).
    destruct r as [datasets | e].
    + destruct S as (Hload & _). exists calls, datasets, w'. auto.
    + exfalso. destruct S as [H | [(call & _ & H) | (key & sample & H)]].
      * rewrite HD in H. discriminate H.
      * rewrite Hcall in H. discriminate H.
      * rewrite Hadd in H. discriminate H.
Qed.
Lemma quota_slice_length (before quota : Z) (stream : list Sample) :
  0 <= quota ->
  Z.of_nat (List.length (quota_slice before quota stream)) <= quota.
Proof.
  intros Hq. unfold quota_slice. rewrite length_firstn. lia.
Qed.

Lemma length_app_Z (l1 l2 : list Sample) :
  Z.of_nat (List.length (l1 ++ l2))
  = Z.of_nat (List.length l1) + Z.of_nat (List.length l2).
Proof. rewrite length_app. lia. Qed.

(** The sizes of the three datasets after one loop over a stream that is
    no longer than the three quotas. *)
Lemma assign_loop_sizes_within_cap (n_train n_val n_test : Z)
    (stream : list Sample) (datasets : Datasets) :
  0 <= n_train -> 0 <= n_val -> 0 <= n_test ->
  Z.of_nat (List.length stream) <= n_train + n_val + n_test ->
  Z.of_nat (List.length (train (assign_loop n_train n_val stream 0 datasets)))
    <= Z.of_nat (List.length (train datasets)) + n_train
  /\ Z.of_nat (List.length (validation (assign_loop n_train n_val stream 0 datasets)))
     <= Z.of_nat (List.length (validation datasets)) + n_val
  /\ Z.of_nat (List.length (test (assign_loop n_train n_val stream 0 datasets)))
     <= Z.of_nat (List.length (test datasets)) + n_test.
Proof.
  intros Ht Hv Hte Hlen.
  rewrite (assign_loop_within_cap n_train n_val n_test) by assumption.
  cbn [train validation test]. rewrite !length_app_Z.
  pose proof (quota_slice_length 0 n_train stream Ht).
  pose proof (quota_slice_length n_train n_val stream Hv).
  pose proof (quota_slice_length (n_train + n_val) n_test stream Hte).
  lia.
Qed.

(** X10.  When the retrieval honours [max_samples] (it never yields more
    samples than a non-negative [max_samples] asks for) and the plan has
    no negative count, no split of the loaded dataset is larger than
    planned: each holds at most its positives plus its negatives. *)
Theorem X10_capped_retrieval_keeps_planned_sizes
    (zoo : ZooRequest -> list Sample) (self : Dataset)
    (tn tp vn vp ten tep : Z) :
  (forall call, 0 <= max_samples call ->
                Z.of_nat (List.length (zoo call)) <= max_samples call) ->
  split_dataset self = Ok (tn, tp, vn, vp, ten, tep) ->
  plan_nonneg (tn, tp, vn, vp, ten, tep) ->
  exists calls datasets,
    load_dataset zoo self = Ok (calls, datasets)
    /\ Z.of_nat (List.length (train datasets)) <= tp + tn
    /\ Z.of_nat (List.length (validation datasets)) <= vp + vn
    /\ Z.of_nat (List.length (test datasets)) <= tep + ten.
Proof.
  intros Hcap Hplan (Htn & Htp & Hvn & Hvp & Hten & Htep).
  destruct (split_dataset_Ok_ratio self _ Hplan) as (p & n & rest & Hratio).
  rewrite (load_dataset_eq zoo self p n rest tn tp vn vp ten tep Hratio Hplan).
  eexists. eexists. split; [reflexivity | ].
  assert (Cp : Z.of_nat (List.length
                 (zoo (positives_request self (tn, tp, vn, vp, ten, tep))))
               <= tp + vp + tep)
    by (apply (Hcap (positives_request self (tn, tp, vn, vp, ten, tep)));
        cbn [positives_request max_samples]; lia).
  assert (Cn : Z.of_nat (List.length
                 (zoo (negatives_request self (tn, tp, vn, vp, ten, tep))))
               <= tn + vn + ten)
    by (apply (Hcap (negatives_request self (tn, tp, vn, vp, ten, tep)));
        cbn [negatives_request max_samples]; lia).
  cbv zeta.
  destruct (p =? 0), (n =? 0); cbv beta iota.
  - cbn. lia.
  - pose proof (assign_loop_sizes_within_cap tn vn ten _ empty_datasets
                  Htn Hvn Hten Cn) as S.
    cbn [train validation test empty_datasets List.length] in S. lia.
  - pose proof (assign_loop_sizes_within_cap tp vp tep _ empty_datasets
                  Htp Hvp Htep Cp) as S.
    cbn [train validation test empty_datasets List.length] in S. lia.
  - pose proof (assign_loop_sizes_within_cap tp vp tep _ empty_datasets
                  Htp Hvp Htep Cp) as S1.
    pose proof (assign_loop_sizes_within_cap tn vn ten
                  (zoo (negatives_request self (tn, tp, vn, vp, ten, tep)))
                  (assign_loop tp vp
                     (zoo (positives_request self (tn, tp, vn, vp, ten, tep)))
                     0 empty_datasets)
                  Htn Hvn Hten Cn) as S2.
    cbn [train validation test empty_datasets List.length] in S1. lia.
Qed.

Lemma example_zoo_capped (call : ZooRequest) :
  0 <= max_samples call ->
  Z.of_nat (List.length (example_zoo call)) <= max_samples call.
Proof.
  intros H. unfold example_zoo. rewrite length_firstn. lia.
Qed.

Lemma X10_capped_retrieval_keeps_planned_sizes_witness :
  exists calls datasets,
    load_dataset example_zoo
      (request 7 (lit 1 1) (lit 0 1) (lit 0 1) [5; 2]) = Ok (calls, datasets)
    /\ Z.of_nat (List.length (train datasets)) <= 5 + 2
    /\ Z.of_nat (List.length (validation datasets)) <= 0 + 0
    /\ Z.of_nat (List.length (test datasets)) <= 0 + 0.
Proof.
  apply (X10_capped_retrieval_keeps_planned_sizes example_zoo
           (request 7 (lit 1 1) (lit 0 1) (lit 0 1) [5; 2]) 2 5 0 0 0 0).
  - exact example_zoo_capped.
  - vm_compute. reflexivity.
  - unfold plan_nonneg. lia.
Defined.

(** X11.  End to end: when both ratio numbers are nonzero, the plan has
    no negative count and the retrieval delivers exactly the [max_samples]
    asked for in both calls, the size of each loaded split is the rounded
    size [round(total * frac)] of that split. *)
Theorem X11_full_retrieval_gives_rounded_sizes
    (zoo : ZooRequest -> list Sample) (self : Dataset)
    (p n : Z) (rest : list Z) (tn tp vn vp ten tep : Z) :
  pos_neg_ratio self = p :: n :: rest ->
  p <> 0 -> n <> 0 ->
  split_dataset self = Ok (tn, tp, vn, vp, ten, tep) ->
  plan_nonneg (tn, tp, vn, vp, ten, tep) ->
  Z.of_nat (List.length
              (zoo (positives_request self (tn, tp, vn, vp, ten, tep))))
    = tp + vp + tep ->
  Z.of_nat (List.length
              (zoo (negatives_request self (tn, tp, vn, vp, ten, tep))))
    = tn + vn + ten ->
  exists calls datasets,
    load_dataset zoo self = Ok (calls, datasets)
    /\ split_images (total_number_of_images self) (train_split self)
       = Ok (Z.of_nat (List.length (train datasets)))
    /\ split_images (total_number_of_images self) (val_split self)
       = Ok (Z.of_nat (List.length (validation datasets)))
    /\ split_images (total_number_of_images self) (test_split self)
       = Ok (Z.of_nat (List.length (test datasets))).
Proof.
  intros Hratio Hp Hn Hplan (Htn & Htp & Hvn & Hvp & Hten & Htep) Lp Ln.
  rewrite (load_dataset_eq zoo self p n rest tn tp vn vp ten tep Hratio Hplan).
  apply Z.eqb_neq in Hp, Hn. rewrite Hp, Hn. cbv zeta.
  eexists. eexists. split; [reflexivity | ].
  rewrite !assign_loop_nonneg by assumption.
  cbn [train validation test empty_datasets app].
  rewrite !length_app_Z.
  destruct (slices_lengths_Z tp vp tep _ Htp Hvp Htep Lp) as (L1 & L2 & L3).
  destruct (slices_lengths_Z tn vn ten _ Htn Hvn Hten Ln) as (L4 & L5 & L6).
  rewrite !Z2Nat.inj_add by assumption.
  rewrite L1, L2, L3, L4, L5, L6.
  rewrite (split_dataset_plan self p n rest Hratio) in Hplan.
  apply plan_Ok_inv in Hplan. destruct Hplan as (H1 & H2 & H3).
  apply split_counts_sum in H1, H2, H3.
  rewrite H1, H2, H3.
  repeat split; f_equal; lia.
Qed.

Lemma X11_full_retrieval_gives_rounded_sizes_witness :
  exists calls datasets,
    load_dataset example_zoo
      (request 7 (lit 1 1) (lit 0 1) (lit 0 1) [2; 5]) = Ok (calls, datasets)
    /\ split_images 7 (lit 1 1) = Ok (Z.of_nat (List.length (train datasets)))
    /\ split_images 7 (lit 0 1)
       = Ok (Z.of_nat (List.length (validation datasets)))
    /\ split_images 7 (lit 0 1) = Ok (Z.of_nat (List.length (test datasets))).
Proof.
  apply (X11_full_retrieval_gives_rounded_sizes example_zoo
           (request 7 (lit 1 1) (lit 0 1) (lit 0 1) [2; 5]) 2 5 []
           5 2 0 0 0 0).
  - reflexivity.
  - lia.
  - lia.
  - vm_compute. reflexivity.
  - unfold plan_nonneg. lia.
  - vm_compute. reflexivity.
  - vm_compute. reflexivity.
Defined.

(** * Strings and prompts *)

Lemma join_cons (sep : ascii) (piece : list ascii) (rest : list (list ascii)) :
  rest <> [] -> join sep (piece :: rest) = piece ++ sep :: join sep rest.
Proof. destruct rest; [congruence | reflexivity]. Qed.

Lemma join_split_on (sep : ascii) (s : list ascii) :
  join sep (split_on sep s) = s.
Proof.
  induction s as [ | c rest IH]; [reflexivity | ].
  cbn [split_on].
  destruct (Ascii.eqb_spec c sep) as [-> | Hne].
  - rewrite join_cons by apply split_on_nonempty. rewrite IH. reflexivity.
  - pose proof (split_on_nonempty sep rest) as Hnil.
    destruct (split_on sep rest) as [ | piece pieces]; [congruence | ].
    destruct pieces as [ | piece' pieces'].
    + cbn [join] in IH |- *. rewrite IH. reflexivity.
    + rewrite join_cons by discriminate.
      rewrite join_cons in IH by discriminate.
      rewrite <- IH. reflexivity.
Qed.

Lemma split_on_no_sep (sep : ascii) (s : list ascii) :
  forall piece, In piece (split_on sep s) -> ~ In sep piece.
Proof.
  induction s as [ | c rest IH]; cbn [split_on]; intros piece Hin.
  - destruct Hin as [<- | []]. intros [].
  - destruct (Ascii.eqb_spec c sep) as [-> | Hne].
    + destruct Hin as [<- | Hin]; [intros [] | exact (IH piece Hin)].
    + destruct (split_on sep rest) as [ | p ps]; cbn [In] in Hin.
      * destruct Hin as [<- | []]. intros [H | []]. congruence.
      * destruct Hin as [<- | Hin].
        -- intros [H | H]; [congruence | ].
           exact (IH p (or_introl eq_refl) H).
        -- exact (IH piece (or_intror Hin)).
Qed.

Lemma split_on_length (sep : ascii) (s : list ascii) :
  List.length (split_on sep s) = S (count_occ ascii_dec s sep).
Proof.
  induction s as [ | c rest IH]; [reflexivity | ].
  cbn [split_on count_occ].
  destruct (Ascii.eqb_spec c sep) as [-> | Hne].
  - destruct (ascii_dec sep sep); [ | congruence].
    cbn [List.length]. rewrite IH. reflexivity.
  - destruct (ascii_dec c sep); [congruence | ].
    destruct (split_on sep rest); [discriminate IH | exact IH].
Qed.

Lemma split_on_no_sep_id (sep : ascii) (piece : list ascii) :
  ~ In sep piece -> split_on sep piece = [piece].
Proof.
  induction piece as [ | c rest IH]; intros Hno; [reflexivity | ].
  cbn [split_on].
  destruct (Ascii.eqb_spec c sep) as [-> | Hne].
  - exfalso. apply Hno. left. reflexivity.
  - rewrite IH by (intros H; apply Hno; right; exact H). reflexivity.
Qed.

Lemma split_on_app_sep (sep : ascii) (piece s : list ascii) :
  ~ In sep piece ->
  split_on sep (piece ++ sep :: s) = piece :: split_on sep s.
Proof.
  induction piece as [ | c rest IH]; intros Hno.
  - cbn [app split_on]. rewrite Ascii.eqb_refl. reflexivity.
  - cbn [app split_on].
    destruct (Ascii.eqb_spec c sep) as [-> | Hne].
    + exfalso. apply Hno. left. reflexivity.
    + rewrite IH by (intros H; apply Hno; right; exact H). reflexivity.
Qed.

Lemma split_on_join (sep : ascii) (pieces : list (list ascii)) :
  pieces <> [] ->
  (forall piece, In piece pieces -> ~ In sep piece) ->
  split_on sep (join sep pieces) = pieces.
Proof.
  induction pieces as [ | piece rest IH]; intros Hne Hno; [congruence | ].
  destruct rest as [ | piece' rest'].
  - cbn [join]. apply split_on_no_sep_id. apply Hno. left. reflexivity.
  - rewrite join_cons by discriminate.
    rewrite split_on_app_sep by (apply Hno; left; reflexivity).
    rewrite IH; [reflexivity | discriminate | ].
    intros p Hp. apply Hno. right. exact Hp.
Qed.

(** X12.  Splitting on a separator loses nothing: joining the pieces of
    [s.split(sep)] with [sep] gives [s] back, no piece holds the
    separator, there is one piece more than separators in [s] (so at
    least one piece, even for the empty string), and splitting the join
    of separator-free pieces gives the pieces back. *)
Theorem X12_split_join_round_trip (sep : ascii) :
  (forall s, join sep (split_on sep s) = s)
  /\ (forall s piece, In piece (split_on sep s) -> ~ In sep piece)
  /\ (forall s, List.length (split_on sep s) = S (count_occ ascii_dec s sep))
  /\ (forall pieces,
         pieces <> [] ->
         (forall piece, In piece pieces -> ~ In sep piece) ->
         split_on sep (join sep pieces) = pieces).
Proof.
  split; [exact (join_split_on sep) | ].
  split; [exact (split_on_no_sep sep) | ].
  split; [exact (split_on_length sep) | exact (split_on_join sep)].
Qed.

(** ** The total prompt *)

Lemma total_loop_spec (limit : Z) (lines : list string) :
  forall printed,
    match total_loop limit lines printed with
    | (Ok total, io) =>
        0 < total
        /\ exists rejected line,
             lines = rejected ++ line :: stdin io
             /\ int_of_str limit (list_ascii_of_string line) = Ok total
             /\ (forall r k,
                    In r rejected ->
                    int_of_str limit (list_ascii_of_string r) = Ok k -> k <= 0)
             /\ List.length (stdout io)
                = (List.length printed + 2 * List.length rejected + 1)%nat
    | (Raise e, io) =>
        e = EOFError /\ stdin io = []
        /\ (forall r k,
               In r lines ->
               int_of_str limit (list_ascii_of_string r) = Ok k -> k <= 0)
        /\ List.length (stdout io)
           = (List.length printed + 2 * List.length lines + 1)%nat
    end.
Proof.
  induction lines as [ | line rest IH]; intros printed.
  - cbn [total_loop stdin stdout]. rewrite length_app. cbn [List.length].
    repeat split; try lia. intros r k [].
  - assert (Step : forall msg : string,
               (forall k, int_of_str limit (list_ascii_of_string line) = Ok k ->
                          k <= 0) ->
               match total_loop limit rest
                       ((printed ++ [total_prompt_text]) ++ [msg]) with
               | (Ok total, io) =>
                   0 < total
                   /\ exists rejected line0,
                        line :: rest = rejected ++ line0 :: stdin io
                        /\ int_of_str limit (list_ascii_of_string line0) = Ok total
                        /\ (forall r k,
                               In r rejected ->
                               int_of_str limit (list_ascii_of_string r) = Ok k ->
                               k <= 0)
                        /\ List.length (stdout io)
                           = (List.length printed + 2 * List.length rejected + 1)%nat
               | (Raise e, io) =>
                   e = EOFError /\ stdin io = []
                   /\ (forall r k,
                          In r (line :: rest) ->
                          int_of_str limit (list_ascii_of_string r) = Ok k ->
                          k <= 0)
                   /\ List.length (stdout io)
                      = (List.length printed + 2 * List.length (line :: rest) + 1)%nat
               end).
    { intros msg Hline.
      specialize (IH ((printed ++ [total_prompt_text]) ++ [msg])).
      rewrite !length_app in IH. cbn [List.length] in IH.
      destruct (total_loop limit rest ((printed ++ [total_prompt_text]) ++ [msg]))
        as [[total | e] io].
      - destruct IH as (Hpos & rejected & line0 & Hl & Hi & Hr & Hout).
        split; [exact Hpos | ].
        exists (line :: rejected), line0.
        split; [rewrite Hl; reflexivity | ].
        split; [exact Hi | ].
        split.
        + intros r k [<- | Hin] Hk; [exact (Hline k Hk) | exact (Hr r k Hin Hk)].
        + cbn [List.length]. lia.
      - destruct IH as (He & Hin & Hr & Hout).
        split; [exact He | ]. split; [exact Hin | ].
        split.
        + intros r k [<- | Hin'] Hk; [exact (Hline k Hk) | exact (Hr r k Hin' Hk)].
        + cbn [List.length]. lia. }
    cbn [total_loop].
    destruct (int_of_str limit (list_ascii_of_string line)) as [n | e] eqn:E.
    + destruct (0 <? n) eqn:Hpos.
      * cbn [stdin stdout]. split; [apply Z.ltb_lt; exact Hpos | ].
        exists [], line. split; [reflexivity | ]. split; [exact E | ].
        split; [intros r k [] | ].
        rewrite length_app. cbn [List.length]. lia.
      * apply Step. intros k Hk. injection Hk as <-.
        apply Z.ltb_ge. exact Hpos.
    + rewrite (int_of_str_raises limit _ _ E).
      apply Step. intros k Hk. discriminate Hk.
Qed.

(** X13.  The total prompt returns only a positive integer, the value of
    the first line that [int] reads as a positive number ([int] on the
    line as it was typed, which skips tabs, line breaks and spaces at
    both ends and nothing else); every line before it was turned down
    (no integer, or one that is not positive) and cost one prompt and one
    message.  The only exception that leaves the loop is [EOFError], when
    every line was turned down. *)
Theorem X13_total_prompt_returns_first_positive
    (limit : Z) (lines printed : list string) :
  match total_loop limit lines printed with
  | (Ok total, io) =>
      0 < total
      /\ exists rejected line,
           lines = rejected ++ line :: stdin io
           /\ int_of_str limit (list_ascii_of_string line) = Ok total
           /\ (forall r k,
                  In r rejected ->
                  int_of_str limit (list_ascii_of_string r) = Ok k -> k <= 0)
           /\ List.length (stdout io)
              = (List.length printed + 2 * List.length rejected + 1)%nat
  | (Raise e, io) =>
      e = EOFError /\ stdin io = []
      /\ (forall r k,
             In r lines ->
             int_of_str limit (list_ascii_of_string r) = Ok k -> k <= 0)
      /\ List.length (stdout io)
         = (List.length printed + 2 * List.length lines + 1)%nat
  end.
Proof. exact (total_loop_spec limit lines printed). Qed.

(** ** The splits prompt *)

Lemma splits_loop_spec (float_of_str : string -> option float)
    (format_3f : float -> string) (n : nat) :
  forall lines printed,
    (List.length lines <= n)%nat ->
    match splits_loop float_of_str format_3f lines printed with
    | (Ok (train_frac, val_frac, test_frac), io) =>
        splits_accepted train_frac val_frac test_frac = true
        /\ exists before line1 line2 line3,
             lines = before ++ line1 :: line2 :: line3 :: stdin io
             /\ float_of_str line1 = Some train_frac
             /\ float_of_str line2 = Some val_frac
             /\ float_of_str line3 = Some test_frac
    | (Raise e, io) => e = EOFError /\ stdin io = []
    end.
Proof.
  induction n as [ | n IH]; intros lines printed Hlen.
  - destruct lines; [ | cbn [List.length] in Hlen; lia].
    cbn [splits_loop stdin]. split; reflexivity.
  - assert (Again : forall pre rest printed',
               lines = pre ++ rest -> pre <> [] ->
               match splits_loop float_of_str format_3f rest printed' with
               | (Ok (train_frac, val_frac, test_frac), io) =>
                   splits_accepted train_frac val_frac test_frac = true
                   /\ exists before line1 line2 line3,
                        lines = before ++ line1 :: line2 :: line3 :: stdin io
                        /\ float_of_str line1 = Some train_frac
                        /\ float_of_str line2 = Some val_frac
                        /\ float_of_str line3 = Some test_frac
               | (Raise e, io) => e = EOFError /\ stdin io = []
               end).
    { intros pre rest printed' Hl Hpre.
      assert (Hrest : (List.length rest <= n)%nat).
      { rewrite Hl, length_app in Hlen.
        destruct pre; [congruence | cbn [List.length] in Hlen; lia]. }
      specialize (IH rest printed' Hrest).
      destruct (splits_loop float_of_str format_3f rest printed')
        as [[[[a b] c] | e] io]; [ | exact IH].
      destruct IH as (Hacc & before & l1 & l2 & l3 & Hb & H1 & H2 & H3).
      split; [exact Hacc | ].
      exists (pre ++ before), l1, l2, l3.
      rewrite Hl, Hb, <- app_assoc. auto. }
    destruct lines as [ | line1 rest1]; [cbn [splits_loop stdin]; auto | ].
    cbn [splits_loop].
    destruct (float_of_str line1) as [a | ] eqn:E1;
      [ | apply (Again [line1]); [reflexivity | discriminate]].
    destruct (out_of_range a) eqn:O1;
      [apply (Again [line1]); [reflexivity | discriminate] | ].
    destruct rest1 as [ | line2 rest2]; [cbn [stdin]; auto | ].
    destruct (float_of_str line2) as [b | ] eqn:E2;
      [ | apply (Again [line1; line2]); [reflexivity | discriminate]].
    destruct (out_of_range b) eqn:O2;
      [apply (Again [line1; line2]); [reflexivity | discriminate] | ].
    destruct rest2 as [ | line3 rest3]; [cbn [stdin]; auto | ].
    destruct (float_of_str line3) as [c | ] eqn:E3;
      [ | apply (Again [line1; line2; line3]); [reflexivity | discriminate]].
    destruct (out_of_range c) eqn:O3;
      [apply (Again [line1; line2; line3]); [reflexivity | discriminate] | ].
    destruct (ltb (lit 1 1000) (abs (sub (add (add a b) c) (lit 1 1)))) eqn:S;
      [apply (Again [line1; line2; line3]); [reflexivity | discriminate] | ].
    cbn [stdin]. split.
    + unfold splits_accepted. unfold out_of_range in O1, O2, O3.
      rewrite O1, O2, O3. cbv zeta. rewrite S. reflexivity.
    + exists [], line1, line2, line3. auto.
Qed.

(** X14.  The splits prompt returns only a triple that passes the three
    range tests and the sum test, and the triple is what [float] reads
    from the last three lines it consumed, in the order train, validation,
    test; a line that is turned down (at any of the three questions) sends
    the user back to the train question.  The only exception that leaves
    the loop is [EOFError], at the end of the input. *)
Theorem X14_splits_prompt_returns_accepted_triple
    (float_of_str : string -> option float) (format_3f : float -> string)
    (lines printed : list string) :
  match splits_loop float_of_str format_3f lines printed with
  | (Ok (train_frac, val_frac, test_frac), io) =>
      splits_accepted train_frac val_frac test_frac = true
      /\ exists before line1 line2 line3,
           lines = before ++ line1 :: line2 :: line3 :: stdin io
           /\ float_of_str line1 = Some train_frac
           /\ float_of_str line2 = Some val_frac
           /\ float_of_str line3 = Some test_frac
  | (Raise e, io) => e = EOFError /\ stdin io = []
  end.
Proof.
  exact (splits_loop_spec float_of_str format_3f (List.length lines)
           lines printed (le_n _)).
Qed.

(** ** The classes prompt *)

Lemma string_of_list_ascii_app (a b : list ascii) :
  string_of_list_ascii (a ++ b)
  = String.append (string_of_list_ascii a) (string_of_list_ascii b).
Proof. induction a as [ | c a IH]; cbn; [ | rewrite IH]; reflexivity. Qed.

Lemma concat_str_split (sep : ascii) (pieces : list (list ascii)) :
  String.concat (String sep EmptyString) (map string_of_list_ascii pieces)
  = string_of_list_ascii (join sep pieces).
Proof.
  induction pieces as [ | piece rest IH]; [reflexivity | ].
  destruct rest as [ | piece' rest'].
  - reflexivity.
  - rewrite join_cons by discriminate.
    rewrite string_of_list_ascii_app.
    change (map string_of_list_ascii (piece :: piece' :: rest'))
      with (string_of_list_ascii piece
            :: map string_of_list_ascii (piece' :: rest')).
    change (String.concat (String sep EmptyString)
              (string_of_list_ascii piece
               :: map string_of_list_ascii (piece' :: rest')))
      with (String.append (string_of_list_ascii piece)
              (String sep
                 (String.concat (String sep EmptyString)
                    (map string_of_list_ascii (piece' :: rest'))))).
    rewrite IH. reflexivity.
Qed.

Lemma str_split_join (sep : ascii) (s : string) :
  String.concat (String sep EmptyString) (str_split sep s) = s.
Proof.
  unfold str_split. rewrite concat_str_split, join_split_on.
  apply string_of_list_ascii_of_string.
Qed.

Lemma str_split_nonempty (sep : ascii) (s : string) : str_split sep s <> [].
Proof.
  unfold str_split. pose proof (split_on_nonempty sep (list_ascii_of_string s)).
  destruct (split_on sep (list_ascii_of_string s)); [congruence | discriminate].
Qed.

Lemma classes_loop_spec (available_classes : nat -> FileRead)
    (lines : list string) :
  forall (opened : nat) (printed : list string),
    match classes_loop available_classes lines opened printed with
    | (Ok class_list, io) =>
        exists helps line,
          lines = helps ++ line :: stdin io
          /\ (forall h, In h helps -> h = "help"%string)
          /\ line <> "help"%string
          /\ class_list = str_split "," line
          /\ (forall i, (i < List.length helps)%nat ->
                available_classes (opened + i)%nat <> FileRefused)
          /\ stdout io
             = printed
               ++ List.concat
                    (map (fun i => [classes_prompt_text;
                                    "Available classes: "%string;
                                    help_line (available_classes i)])
                         (seq opened (List.length helps)))
               ++ [classes_prompt_text]
    | (Raise e, io) =>
        (e = EOFError /\ stdin io = []
         /\ (forall h, In h lines -> h = "help"%string))
        \/ (e = OSError
            /\ exists helps,
                 lines = helps ++ "help"%string :: stdin io
                 /\ (forall h, In h helps -> h = "help"%string)
                 /\ available_classes (opened + List.length helps)%nat
                    = FileRefused)
    end.
Proof.
  induction lines as [ | line rest IH]; intros opened printed.
  - cbn [classes_loop stdin]. left. repeat split. intros h [].
  - cbn [classes_loop].
    destruct (String.eqb_spec line "help") as [-> | Hne].
    + assert (Step : forall third : string,
                 available_classes opened <> FileRefused ->
                 help_line (available_classes opened) = third ->
                 match classes_loop available_classes rest (S opened)
                         (((printed ++ [classes_prompt_text])
                           ++ ["Available classes: "%string]) ++ [third]) with
                 | (Ok class_list, io) =>
                     exists helps line,
                       "help"%string :: rest = helps ++ line :: stdin io
                       /\ (forall h, In h helps -> h = "help"%string)
                       /\ line <> "help"%string
                       /\ class_list = str_split "," line
                       /\ (forall i, (i < List.length helps)%nat ->
                             available_classes (opened + i)%nat <> FileRefused)
                       /\ stdout io
                          = printed
                            ++ List.concat
                                 (map (fun i => [classes_prompt_text;
                                                 "Available classes: "%string;
                                                 help_line (available_classes i)])
                                      (seq opened (List.length helps)))
                            ++ [classes_prompt_text]
                 | (Raise e, io) =>
                     (e = EOFError /\ stdin io = []
                      /\ (forall h, In h ("help"%string :: rest) ->
                                    h = "help"%string))
                     \/ (e = OSError
                         /\ exists helps,
                              "help"%string :: rest
                              = helps ++ "help"%string :: stdin io
                              /\ (forall h, In h helps -> h = "help"%string)
                              /\ available_classes
                                   (opened + List.length helps)%nat
                                 = FileRefused)
                 end).
      { intros third Hok Hthird.
        specialize (IH (S opened)
                      (((printed ++ [classes_prompt_text])
                        ++ ["Available classes: "%string]) ++ [third])).
        destruct (classes_loop available_classes rest (S opened)
                    (((printed ++ [classes_prompt_text])
                      ++ ["Available classes: "%string]) ++ [third]))
          as [[class_list | e] io].
        - destruct IH as (helps & line & Hl & Hh & Hne & Hc & Hr & Hout).
          exists ("help"%string :: helps), line.
          split; [rewrite Hl; reflexivity | ].
          split; [intros h [<- | Hin]; [reflexivity | exact (Hh h Hin)] | ].
          split; [exact Hne | ]. split; [exact Hc | ].
          split.
          + intros [ | i] Hi.
            * rewrite Nat.add_0_r. exact Hok.
            * rewrite Nat.add_succ_r. apply (Hr i).
              cbn [List.length] in Hi. lia.
          + rewrite Hout. cbn [List.length seq map List.concat].
            rewrite Hthird, <- !app_assoc. reflexivity.
        - destruct IH as [(He & Hin & Hh) | (He & helps & Hl & Hh & Hr)].
          + left. split; [exact He | ]. split; [exact Hin | ].
            intros h [<- | Hin']; [reflexivity | exact (Hh h Hin')].
          + right. split; [exact He | ].
            exists ("help"%string :: helps).
            split; [rewrite Hl; reflexivity | ].
            split; [intros h [<- | Hin]; [reflexivity | exact (Hh h Hin)] | ].
            cbn [List.length]. rewrite Nat.add_succ_r. exact Hr. }
      destruct (available_classes opened) as [content | | | ] eqn:F.
      * apply Step; [discriminate | reflexivity].
      * apply Step; [discriminate | reflexivity].
      * apply Step; [discriminate | reflexivity].
      * right. split; [reflexivity | ]. exists [].
        cbn [stdin app List.length]. rewrite Nat.add_0_r.
        split; [reflexivity | ]. split; [intros h [] | exact F].
    + cbn [stdin stdout]. exists [], line.
      split; [reflexivity | ]. split; [intros h [] | ].
      split; [exact Hne | ]. split; [reflexivity | ].
      split; [intros i Hi; cbn [List.length] in Hi; lia | reflexivity].
Qed.

(** X15.  The classes prompt stores the comma pieces of the first line
    that is not exactly [help]: at least one class, and nothing is
    stripped or dropped, so that joining the classes with commas gives
    the line back.  Each [help] line before it printed the prompt, the
    heading and one more line (the file, [File not found], or the
    message of the loop when the file cannot be decoded) and stored
    nothing.  Two exceptions can leave the loop: [EOFError] when every
    line was [help], and the [OSError] of a [help] answer whose file
    cannot be opened for another reason than its absence. *)
Theorem X15_classes_prompt_stores_comma_pieces
    (available_classes : nat -> FileRead) (lines : list string)
    (opened : nat) (printed : list string) :
  match classes_loop available_classes lines opened printed with
  | (Ok class_list, io) =>
      exists helps line,
        lines = helps ++ line :: stdin io
        /\ (forall h, In h helps -> h = "help"%string)
        /\ line <> "help"%string
        /\ class_list = str_split "," line
        /\ class_list <> []
        /\ String.concat "," class_list = line
        /\ (forall i, (i < List.length helps)%nat ->
              available_classes (opened + i)%nat <> FileRefused)
        /\ stdout io
           = printed
             ++ List.concat
                  (map (fun i => [classes_prompt_text;
                                  "Available classes: "%string;
                                  help_line (available_classes i)])
                       (seq opened (List.length helps)))
             ++ [classes_prompt_text]
  | (Raise e, io) =>
      (e = EOFError /\ stdin io = []
       /\ (forall h, In h lines -> h = "help"%string))
      \/ (e = OSError
          /\ exists helps,
               lines = helps ++ "help"%string :: stdin io
               /\ (forall h, In h helps -> h = "help"%string)
               /\ available_classes (opened + List.length helps)%nat
                  = FileRefused)
  end.
Proof.
  pose proof (classes_loop_spec available_classes lines opened printed) as H.
  destruct (classes_loop available_classes lines opened printed)
    as [[class_list | e] io]; [ | exact H].
  destruct H as (helps & line & Hl & Hh & Hne & Hc & Hr & Hout).
  exists helps, line.
  split; [exact Hl | ]. split; [exact Hh | ]. split; [exact Hne | ].
  split; [exact Hc | ].
  split; [rewrite Hc; apply str_split_nonempty | ].
  split; [rewrite Hc; apply (str_split_join ","%char) | ].
  split; [exact Hr | exact Hout].
Qed.

(** ** The whole of [user_input] *)

Lemma ints_of_pieces_nonempty (limit : Z) (pieces : list (list ascii))
    (ratio : list Z) :
  pieces <> [] -> ints_of_pieces limit pieces = Ok ratio -> ratio <> [].
Proof.
  intros Hne H. apply ints_of_pieces_Ok in H.
  destruct pieces; [congruence | ]. destruct ratio; [discriminate H | discriminate].
Qed.

Lemma ratio_loop_spec (limit : Z) (lines : list string) :
  forall printed,
    match ratio_loop limit lines printed with
    | (Ok ratio, io) =>
        ratio <> [] /\ exists before line, lines = before ++ line :: stdin io
    | (Raise e, io) => e = EOFError /\ stdin io = []
    end.
Proof.
  induction lines as [ | line rest IH]; intros printed.
  - cbn [ratio_loop stdin]. auto.
  - rewrite ratio_loop_step.
    destruct (ints_of_pieces limit (split_on ":" (list_ascii_of_string line)))
      as [ratio | e] eqn:E.
    + cbn [stdin]. split.
      * exact (ints_of_pieces_nonempty _ _ _ (split_on_nonempty _ _) E).
      * exists [], line. reflexivity.
    + specialize (IH (printed
                      ++ [ratio_prompt_text; "Please enter valid numbers"%string])).
      destruct (ratio_loop limit rest
                  (printed
                   ++ [ratio_prompt_text; "Please enter valid numbers"%string]))
        as [[ratio | e'] io]; [ | exact IH].
      destruct IH as (Hne & before & line0 & Hl).
      split; [exact Hne | ].
      exists (line :: before), line0. rewrite Hl. reflexivity.
Qed.

Lemma user_input_spec
    (limit : Z) (float_of_str : string -> option float)
    (format_3f : float -> string) (available_classes : nat -> FileRead)
    (io : Console) :
  match user_input limit float_of_str format_3f available_classes io with
  | (Ok self, io') =>
      0 < total_number_of_images self
      /\ splits_accepted (train_split self) (val_split self) (test_split self)
         = true
      /\ pos_neg_ratio self <> []
      /\ classes self <> []
      /\ (exists line, label_type self = [line])
      /\ exists consumed,
           stdin io = consumed ++ stdin io'
           /\ (7 <= List.length consumed)%nat
  | (Raise e, io') =>
      (e = EOFError /\ stdin io' = [])
      \/ (e = OSError /\ exists n, available_classes n = FileRefused)
  end.
Proof.
  unfold user_input.
  pose proof (total_loop_spec limit (stdin io) (stdout io)) as H1.
  destruct (total_loop limit (stdin io) (stdout io)) as [[total | e1] io1];
    [ | destruct H1 as (-> & H1 & _); auto].
  destruct H1 as (Hpos & rej & line1 & L1 & _).
  pose proof (splits_loop_spec float_of_str format_3f _ (stdin io1) (stdout io1)
                (le_n _)) as H2.
  destruct (splits_loop float_of_str format_3f (stdin io1) (stdout io1))
    as [[[[a b] c] | e2] io2]; [ | left; exact H2].
  destruct H2 as (Hacc & before2 & l1 & l2 & l3 & L2 & _).
  pose proof (ratio_loop_spec limit (stdin io2) (stdout io2)) as H3.
  destruct (ratio_loop limit (stdin io2) (stdout io2)) as [[ratio | e3] io3];
    [ | left; exact H3].
  destruct H3 as (Hratio & before3 & line3 & L3).
  pose proof (classes_loop_spec available_classes (stdin io3) 0 (stdout io3))
    as H4.
  destruct (classes_loop available_classes (stdin io3) 0 (stdout io3))
    as [[class_list | e4] io4].
  2: { destruct H4 as [(-> & H4 & _) | (-> & helps & _ & _ & Hr)];
         [left; auto | right].
       split; [reflexivity | ]. eexists. exact Hr. }
  destruct H4 as (helps & line4 & L4 & _ & _ & Hc & _).
  unfold label_loop.
  destruct (stdin io4) as [ | line5 rest5] eqn:L5; [cbn [stdin]; auto | ].
  cbn [total_number_of_images train_split val_split test_split classes
       label_type pos_neg_ratio stdin].
  split; [exact Hpos | ]. split; [exact Hacc | ]. split; [exact Hratio | ].
  split; [rewrite Hc; apply str_split_nonempty | ].
  split; [exists line5; reflexivity | ].
  exists (rej ++ [line1] ++ before2 ++ [l1; l2; l3] ++ before3 ++ [line3]
          ++ helps ++ [line4; line5]).
  split.
  - rewrite L1, L2, L3, L4. rewrite <- !app_assoc. reflexivity.
  - rewrite !length_app. cbn [List.length]. lia.
Qed.

(** X16.  [user_input] as a whole: when it returns, the total is
    positive, the three fractions pass the checks of the splits prompt,
    the ratio and the class list are not empty, the label type is a list
    of exactly one line, and at least seven lines were read, all from the
    front of the input.  It never lets a [ValueError] out: the only
    exceptions are [EOFError], when the input ends before the last
    answer, and the [OSError] of a [help] answer whose file cannot be
    opened for another reason than its absence. *)
Theorem X16_user_input_result_is_checked
    (limit : Z) (float_of_str : string -> option float)
    (format_3f : float -> string) (available_classes : nat -> FileRead)
    (io : Console) :
  match user_input limit float_of_str format_3f available_classes io with
  | (Ok self, io') =>
      0 < total_number_of_images self
      /\ splits_accepted (train_split self) (val_split self) (test_split self)
         = true
      /\ pos_neg_ratio self <> []
      /\ classes self <> []
      /\ (exists line, label_type self = [line])
      /\ exists consumed,
           stdin io = consumed ++ stdin io'
           /\ (7 <= List.length consumed)%nat
  | (Raise e, io') =>
      (e = EOFError /\ stdin io' = [])
      \/ (e = OSError /\ exists n, available_classes n = FileRefused)
  end.
Proof.
  exact (user_input_spec limit float_of_str format_3f available_classes io).
Qed.
(** * Clearing the existing data *)

Lemma clear_loop_spec (fiftyone_path : string) (contents : list Entry) :
  forall w,
    effects (clear_loop fiftyone_path contents w)
    = effects w ++ map (delete_call fiftyone_path) (filter deleted contents)
    /\ stdin (console (clear_loop fiftyone_path contents w))
       = stdin (console w)
    /\ List.length (stdout (console (clear_loop fiftyone_path contents w)))
       = (List.length (stdout (console w))
          + List.length (filter deleted contents))%nat.
Proof.
  induction contents as [ | item rest IH]; intros w.
  - cbn [clear_loop filter map List.length]. rewrite app_nil_r. auto.
  - cbn [clear_loop filter].
    destruct (isfile item || islink item) eqn:F.
    + assert (Hd : deleted item = true)
        by (unfold deleted; rewrite F; reflexivity).
      assert (Hc : delete_call fiftyone_path item
                   = os_remove (os_path_join fiftyone_path (entry_name item)))
        by (unfold delete_call; rewrite F; reflexivity).
      rewrite Hd. cbn [map]. rewrite Hc.
      destruct (delete_error item) as [e | ];
        match goal with
        | |- context [clear_loop fiftyone_path rest ?w1] =>
            destruct (IH w1) as (He & Hi & Ho)
        end;
        rewrite He, Hi, Ho;
        cbn [print_line perform effects console stdin stdout List.length];
        rewrite <- app_assoc, length_app; cbn [app List.length];
        (split; [reflexivity | split; [reflexivity | lia]]).
    + destruct (isdir item) eqn:D.
      * assert (Hd : deleted item = true)
          by (unfold deleted; rewrite F, D; reflexivity).
        assert (Hc : delete_call fiftyone_path item
                     = shutil_rmtree
                         (os_path_join fiftyone_path (entry_name item)))
          by (unfold delete_call; rewrite F; reflexivity).
        rewrite Hd. cbn [map]. rewrite Hc.
        destruct (delete_error item) as [e | ];
          match goal with
          | |- context [clear_loop fiftyone_path rest ?w1] =>
              destruct (IH w1) as (He & Hi & Ho)
          end;
          rewrite He, Hi, Ho;
          cbn [print_line perform effects console stdin stdout List.length];
          rewrite <- app_assoc, length_app; cbn [app List.length];
          (split; [reflexivity | split; [reflexivity | lia]]).
      * assert (Hd : deleted item = false)
          by (unfold deleted; rewrite F, D; reflexivity).
        rewrite Hd. exact (IH w).
Qed.

Lemma clear_existing_data_spec (fiftyone_path : string) (state : PathState)
    (w : World) :
  effects (clear_existing_data fiftyone_path state w)
  = effects w ++ clear_calls fiftyone_path state
  /\ stdin (console (clear_existing_data fiftyone_path state w))
     = stdin (console w)
  /\ List.length (stdout (console (clear_existing_data fiftyone_path state w)))
     = (List.length (stdout (console w))
        + match contents_of state with
          | [] => 1
          | contents => List.length (filter deleted contents)
          end)%nat.
Proof.
  unfold clear_calls.
  destruct state as [ | [ | item rest]];
    cbn [clear_existing_data contents_of].
  - cbn [print_line effects console stdin stdout filter map].
    rewrite app_nil_r, length_app. cbn [List.length]. auto.
  - cbn [print_line effects console stdin stdout filter map].
    rewrite app_nil_r, length_app. cbn [List.length]. auto.
  - exact (clear_loop_spec fiftyone_path (item :: rest) w).
Qed.

(** X17.  [clear_existing_data] is best effort: it makes one deletion
    call for every listed entry that is a file, a link or a folder
    ([os.remove] for the first two, [shutil.rmtree] for the third), in
    the order of the listing and whatever the earlier deletions did, so
    a deletion that fails neither stops the loop nor leaves the function;
    an entry of another kind is passed over without a call or a line.
    It prints one line per call, and exactly one line when the path is
    missing or the folder is empty; it reads nothing from the console. *)
Theorem X17_clear_existing_data_is_best_effort
    (fiftyone_path : string) (state : PathState) (w : World) :
  effects (clear_existing_data fiftyone_path state w)
  = effects w
    ++ map (delete_call fiftyone_path) (filter deleted (contents_of state))
  /\ stdin (console (clear_existing_data fiftyone_path state w))
     = stdin (console w)
  /\ List.length (stdout (console (clear_existing_data fiftyone_path state w)))
     = (List.length (stdout (console w))
        + match contents_of state with
          | [] => 1
          | contents => List.length (filter deleted contents)
          end)%nat.
Proof. exact (clear_existing_data_spec fiftyone_path state w). Qed.

(** * The whole run *)

Lemma no_output_load_zoo (calls : list ZooRequest) :
  forallb (fun call => negb (is_output call)) (map load_zoo calls) = true.
Proof. induction calls as [ | c calls IH]; [reflexivity | exact IH]. Qed.

Lemma no_output_clear_calls (fiftyone_path : string) (state : PathState) :
  forallb (fun call => negb (is_output call)) (clear_calls fiftyone_path state)
  = true.
Proof.
  unfold clear_calls.
  induction (filter deleted (contents_of state)) as [ | item items IH];
    [reflexivity | ].
  cbn [map forallb]. rewrite IH. unfold delete_call.
  destruct (isfile item || islink item); reflexivity.
Qed.

(** ** The steps of [main] *)

Lemma input_spec (w : World) :
  match input w with
  | (Ok line, w1) =>
      stdin (console w) = line :: stdin (console w1)
      /\ effects w1 = effects w
  | (Raise e, w1) => e = EOFError /\ w1 = w /\ stdin (console w) = []
  end.
Proof.
  unfold input. destruct (stdin (console w)) as [ | line rest]; cbn; auto.
Qed.

Lemma call_spec (env : Environment) (c : Effect) (w : World) :
  match call env c w with
  | (r, w1) =>
      w1 = perform c w
      /\ match r with
         | Ok _ => call_error env c = None
         | Raise e => call_error env c = Some e
         end
  end.
Proof. unfold call. destruct (call_error env c); auto. Qed.

Lemma clear_step_spec (env : Environment) (fiftyone_path : string)
    (fiftyone : PathState) (answer : string) (w : World) :
  match (if String.eqb answer "y"
         then run_clear_existing_data env fiftyone_path fiftyone
         else io_ret tt) w with
  | (r, w1) =>
      stdin (console w1) = stdin (console w)
      /\ match r with
         | Ok _ =>
             effects w1
             = effects w
               ++ (if String.eqb answer "y"
                   then clear_calls fiftyone_path fiftyone else [])
         | Raise e => effects w1 = effects w /\ listdir_error env = Some e
         end
  end.
Proof.
  destruct (String.eqb answer "y").
  - unfold run_clear_existing_data.
    destruct (clear_existing_data_spec fiftyone_path fiftyone w) as (E & S & _).
    destruct fiftyone as [ | contents]; [auto | ].
    destruct (listdir_error env); auto.
  - cbn [io_ret]. rewrite app_nil_r. auto.
Qed.

Lemma params_step_spec (env : Environment) (limit : Z)
    (float_of_str : string -> option float) (format_3f : float -> string)
    (answer : string) (self0 : Dataset) (w : World) :
  match (if String.eqb answer "y"
         then io_ret (default_settings self0)
         else run_user_input env limit float_of_str format_3f) w with
  | (r, w1) =>
      effects w1 = effects w
      /\ match r with
         | Ok dataset_params =>
             (exists label_field, label_type dataset_params = [label_field])
             /\ ((answer = "y"%string
                  /\ dataset_params = default_settings self0 /\ w1 = w)
                 \/ (answer <> "y"%string
                     /\ user_input limit float_of_str format_3f
                          (classes_file env) (console w)
                        = (Ok dataset_params, console w1)))
         | Raise e =>
             e = EOFError
             \/ (e = OSError /\ exists n, classes_file env n = FileRefused)
         end
  end.
Proof.
  destruct (String.eqb_spec answer "y") as [-> | Hne].
  - cbn [io_ret]. split; [reflexivity | ].
    split; [exists "segmentations"%string; reflexivity | left; auto].
  - unfold run_user_input.
    pose proof (user_input_spec limit float_of_str format_3f (classes_file env)
                  (console w)) as H.
    destruct (user_input limit float_of_str format_3f (classes_file env)
                (console w)) as [[self | e] io]; cbn [effects console].
    + destruct H as (_ & _ & _ & _ & Hl & _).
      split; [reflexivity | ]. split; [exact Hl | right; auto].
    + split; [reflexivity | ].
      destruct H as [(-> & _) | H]; [left; reflexivity | right; exact H].
Qed.

Lemma license_step_spec (env : Environment) (answer : string) (c : Effect)
    (w : World) :
  match (if String.eqb answer "y" then call env c else io_ret tt) w with
  | (r, w1) =>
      stdin (console w1) = stdin (console w)
      /\ match r with
         | Ok _ =>
             effects w1
             = effects w ++ (if String.eqb answer "y" then [c] else [])
         | Raise e => effects w1 = effects w ++ [c] /\ call_error env c = Some e
         end
  end.
Proof.
  destruct (String.eqb answer "y").
  - pose proof (call_spec env c w) as H.
    destruct (call env c w) as [[[] | e] w1]; destruct H as (-> & H);
      cbn [perform console effects]; auto.
  - cbn [io_ret]. rewrite app_nil_r. auto.
Qed.

Lemma export_loop_spec (env : Environment) (folder_path label_field : string)
    (class_list : list string) (entries : list (string * list Sample)) :
  forall w : World,
    match export_loop env folder_path label_field class_list entries w with
    | (r, w1) =>
        stdin (console w1) = stdin (console w)
        /\ match r with
           | Ok _ =>
               effects w1
               = effects w
                 ++ map (fun entry : string * list Sample =>
                           export (os_path_join folder_path (fst entry))
                             label_field class_list (snd entry)) entries
           | Raise e =>
               exists before c,
                 effects w1 = effects w ++ before ++ [c]
                 /\ is_output c = true
                 /\ call_error env c = Some e
           end
    end.
Proof.
  induction entries as [ | [split samples] rest IH]; intros w.
  - cbn [export_loop io_ret map]. rewrite app_nil_r. auto.
  - cbn [export_loop]. unfold io_bind.
    pose proof (call_spec env
                  (export (os_path_join folder_path split) label_field
                     class_list samples) w) as H.
    destruct (call env _ w) as [[[] | e] w1]; destruct H as (-> & H).
    + specialize (IH (perform (export (os_path_join folder_path split)
                                 label_field class_list samples) w)).
      destruct (export_loop env folder_path label_field class_list rest _)
        as [[[] | e] w2]; destruct IH as (S & IH);
        cbn [perform console effects] in S, IH.
      * split; [exact S | ]. rewrite IH, <- app_assoc. reflexivity.
      * split; [exact S | ]. destruct IH as (before & c & E & O & C).
        exists (export (os_path_join folder_path split) label_field
                  class_list samples :: before), c.
        rewrite E, <- app_assoc. auto.
    + cbn [perform console effects]. split; [reflexivity | ].
      exists [], (export (os_path_join folder_path split) label_field
                    class_list samples).
      auto.
Qed.

Lemma export_dataset_spec (env : Environment) (self : Dataset)
    (datasets : Datasets) (folder_path label_field : string) (w : World) :
  label_type self = [label_field] ->
  match export_dataset env self datasets folder_path w with
  | (r, w1) =>
      stdin (console w1) = stdin (console w)
      /\ match r with
         | Ok _ =>
             effects w1
             = effects w
               ++ exports folder_path label_field (classes self) datasets
         | Raise e =>
             exists before c,
               effects w1 = effects w ++ before ++ [c]
               /\ is_output c = true
               /\ call_error env c = Some e
         end
  end.
Proof.
  intros Hl. unfold export_dataset, io_bind, io_lift. rewrite Hl.
  cbn [index nth_error].
  exact (export_loop_spec env folder_path label_field (classes self)
           (items datasets) w).
Qed.

(** ** [main] in any environment *)

Lemma main_io_spec (env : Environment) (limit : Z)
    (float_of_str : string -> option float) (format_3f : float -> string)
    (cwd fiftyone_path : string) (fiftyone : PathState) (w : World) :
  match main_io env limit float_of_str format_3f cwd fiftyone_path fiftyone w
  with
  | (r, w') =>
      exists new,
        effects w' = effects w ++ new
        /\ match r with
           | Ok _ =>
               exists dataset_name clear_answer default_answer rest
                      dataset_params calls datasets label_field license_answer,
                 stdin (console w)
                 = dataset_name :: clear_answer :: default_answer :: rest
                 /\ ((default_answer = "y"%string
                      /\ dataset_params
                         = default_settings
                             (Dataset_init 0 (S754_zero false) (S754_zero false)
                                (S754_zero false) "" "" [0; 0])
                      /\ rest = license_answer :: stdin (console w'))
                     \/ (default_answer <> "y"%string
                         /\ exists printed io',
                              user_input limit float_of_str format_3f
                                (classes_file env)
                                {| stdin := rest; stdout := printed |}
                              = (Ok dataset_params, io')
                              /\ stdin io'
                                 = license_answer :: stdin (console w')))
                 /\ load_dataset (zoo_samples env) dataset_params
                    = Ok (calls, datasets)
                 /\ label_type dataset_params = [label_field]
                 /\ new
                    = os_makedirs (os_path_join cwd dataset_name)
                      :: (if String.eqb clear_answer "y"
                          then clear_calls fiftyone_path fiftyone else [])
                      ++ map load_zoo calls
                      ++ (if String.eqb license_answer "y"
                          then [license_file
                                  (os_path_join cwd "license_info.txt")
                                  (license_info datasets)]
                          else [])
                      ++ exports (os_path_join cwd dataset_name) label_field
                           (classes dataset_params) datasets
           | Raise e =>
               (e = EOFError \/ planner_error e = true \/ raised_by env e)
               /\ (forallb (fun call => negb (is_output call)) new = true
                   \/ exists before c,
                        new = before ++ [c]
                        /\ is_output c = true
                        /\ call_error env c = Some e)
           end
        /\ (forall dataset_name clear_answer rest,
               stdin (console w) = dataset_name :: clear_answer :: rest ->
               call_error env (os_makedirs (os_path_join cwd dataset_name))
               = None ->
               listdir_error env = None ->
               exists more,
                 new
                 = os_makedirs (os_path_join cwd dataset_name)
                   :: (if String.eqb clear_answer "y"
                       then clear_calls fiftyone_path fiftyone else [])
                   ++ more)
  end.
Proof.
  unfold main_io, io_bind. cbn [io_print].
  (* the dataset name *)
  pose proof (input_spec (print_line "Enter dataset name:" w)) as I1.
  destruct (input (print_line "Enter dataset name:" w))
    as [[dataset_name | e] w1].
  2: { destruct I1 as (-> & -> & S1).
       cbn [print_line console stdin effects] in S1 |- *.
       exists []. rewrite app_nil_r. split; [reflexivity | ].
       split; [split; left; reflexivity | ].
       intros n c r H. rewrite S1 in H. discriminate H. }
  destruct I1 as (S1 & E1). cbn [print_line console stdin effects] in S1, E1.
  (* the folder *)
  pose proof (call_spec env (os_makedirs (os_path_join cwd dataset_name)) w1)
    as C2.
  destruct (call env (os_makedirs (os_path_join cwd dataset_name)) w1)
    as [[[] | e] w2]; destruct C2 as (-> & C2).
  2: { exists [os_makedirs (os_path_join cwd dataset_name)].
       cbn [perform effects]. rewrite E1. split; [reflexivity | ].
       split.
       - split; [ | left; reflexivity].
         right; right; left. eexists. exact C2.
       - intros n c r H Hmk _. rewrite S1 in H. injection H as <- _.
         rewrite Hmk in C2. discriminate C2. }
  cbn [io_print].
  (* the clear question *)
  pose proof (input_spec
                (print_line "Do you want to clear existing data? (y/n)"
                   (perform (os_makedirs (os_path_join cwd dataset_name)) w1)))
    as I3.
  destruct (input
              (print_line "Do you want to clear existing data? (y/n)"
                 (perform (os_makedirs (os_path_join cwd dataset_name)) w1)))
    as [[clear_answer | e] w3].
  2: { destruct I3 as (-> & -> & S3).
       cbn [print_line perform console stdin effects] in S3 |- *.
       exists [os_makedirs (os_path_join cwd dataset_name)].
       rewrite E1. split; [reflexivity | ].
       split; [split; left; reflexivity | ].
       intros n c r H. rewrite S1, S3 in H. discriminate H. }
  destruct I3 as (S3 & E3).
  cbn [print_line perform console stdin effects] in S3, E3.
  rewrite E1 in E3. rewrite S3 in S1.
  pose proof (clear_step_spec env fiftyone_path fiftyone clear_answer w3) as C4.
  destruct ((if String.eqb clear_answer "y"
             then run_clear_existing_data env fiftyone_path fiftyone
             else io_ret tt) w3) as [[[] | e] w4].
  2: { destruct C4 as (S4 & E4 & L4).
       exists [os_makedirs (os_path_join cwd dataset_name)].
       rewrite E4, E3. split; [reflexivity | ].
       split.
       - split; [ | left; reflexivity].
         right; right; right; left. exact L4.
       - intros n c r H _ Hl. rewrite Hl in L4. discriminate L4. }
  destruct C4 as (S4 & E4). rewrite E3, <- app_assoc in E4.
  rewrite <- S4 in S1. cbn [app] in E4.
  set (prefix := os_makedirs (os_path_join cwd dataset_name)
                 :: (if String.eqb clear_answer "y"
                     then clear_calls fiftyone_path fiftyone else [])) in *.
  assert (NoOut : forallb (fun call => negb (is_output call)) prefix = true).
  { subst prefix. cbn [forallb is_output negb andb].
    destruct (String.eqb clear_answer "y");
      [apply no_output_clear_calls | reflexivity]. }
  assert (Prefix : forall more n c r,
             stdin (console w) = n :: c :: r ->
             exists more',
               prefix ++ more
               = os_makedirs (os_path_join cwd n)
                 :: (if String.eqb c "y"
                     then clear_calls fiftyone_path fiftyone else [])
                 ++ more').
  { intros more n c r H. rewrite S1 in H. injection H as <- <- _.
    exists more. reflexivity. }
  cbn [io_print].
  (* the settings question *)
  pose proof (input_spec
                (print_line "Do you want to use default settings? (y/n)" w4))
    as I5.
  destruct (input (print_line "Do you want to use default settings? (y/n)" w4))
    as [[default_answer | e] w5].
  2: { destruct I5 as (-> & -> & S5).
       cbn [print_line console stdin effects] in S5 |- *.
       exists prefix. split; [exact E4 | ].
       split; [split; [left; reflexivity | left; exact NoOut] | ].
       intros n c r H _ _. rewrite <- (app_nil_r prefix).
       exact (Prefix [] n c r H). }
  destruct I5 as (S5 & E5). cbn [print_line console stdin effects] in S5, E5.
  rewrite E4 in E5. rewrite S5 in S1.
  pose proof (params_step_spec env limit float_of_str format_3f default_answer
                (Dataset_init 0 (S754_zero false) (S754_zero false)
                   (S754_zero false) "" "" [0; 0]) w5) as P6.
  destruct ((if String.eqb default_answer "y"
             then io_ret
                    (default_settings
                       (Dataset_init 0 (S754_zero false) (S754_zero false)
                          (S754_zero false) "" "" [0; 0]))
             else run_user_input env limit float_of_str format_3f) w5)
    as [[dataset_params | e] w6].
  2: { destruct P6 as (E6 & P6).
       exists prefix. rewrite E6. split; [exact E5 | ].
       split.
       - split; [ | left; exact NoOut].
         destruct P6 as [-> | P6]; [left; reflexivity | ].
         right; right. right; right; right; right. exact P6.
       - intros n c r H _ _. rewrite <- (app_nil_r prefix).
         exact (Prefix [] n c r H). }
  destruct P6 as (E6 & (label_field & Hlabel) & Tie). rewrite E5 in E6.
  cbn [io_print].
  (* the retrieval *)
  pose proof (load_dataset_io_spec env dataset_params
                (print_line "Loading dataset..." w6)) as L7.
  destruct (load_dataset_io env dataset_params
              (print_line "Loading dataset..." w6)) as [[datasets | e] w7].
  2: { destruct L7 as (S7 & L7).
       destruct (split_dataset dataset_params) as [plan | e0] eqn:Hplan.
       - destruct L7 as (calls & E7 & _ & _ & L7).
         cbn [print_line effects] in E7. rewrite E6 in E7.
         exists (prefix ++ map load_zoo calls).
         rewrite app_assoc. split; [exact E7 | ].
         split.
         + split.
           * right; right.
             destruct L7 as [H | [(call & _ & H) | H]].
             -- right; right; left. exact H.
             -- left. eexists. exact H.
             -- right; right; right; left. exact H.
           * left. rewrite forallb_app, NoOut, no_output_load_zoo. reflexivity.
         + intros n c r H _ _. exact (Prefix _ n c r H).
       - destruct L7 as (L7 & ->). injection L7 as ->.
         cbn [print_line effects]. exists prefix. split; [exact E6 | ].
         split.
         + split; [ | left; exact NoOut].
           right; left. exact (split_dataset_raises _ _ Hplan).
         + intros n c r H _ _. rewrite <- (app_nil_r prefix).
           exact (Prefix [] n c r H). }
  destruct L7 as (S7 & L7).
  destruct (split_dataset dataset_params) as [plan | e0] eqn:Hplan;
    [ | destruct L7 as (L7 & _); discriminate L7].
  destruct L7 as (calls & E7 & _ & _ & Hload & _).
  cbn [print_line console stdin effects] in S7, E7. rewrite E6 in E7.
  cbn [io_print].
  (* the license question *)
  pose proof (input_spec
                (print_line
                   "Do you want a text file with license information? (y/n)"
                   (print_line "Dataset loaded successfully!" w7))) as I8.
  destruct (input
              (print_line
                 "Do you want a text file with license information? (y/n)"
                 (print_line "Dataset loaded successfully!" w7)))
    as [[license_answer | e] w8].
  2: { destruct I8 as (-> & -> & S8).
       cbn [print_line console stdin effects] in S8 |- *.
       exists (prefix ++ map load_zoo calls).
       rewrite app_assoc. split; [exact E7 | ].
       split.
       - split; [left; reflexivity | ].
         left. rewrite forallb_app, NoOut, no_output_load_zoo. reflexivity.
       - intros n c r H _ _. exact (Prefix _ n c r H). }
  destruct I8 as (S8 & E8). cbn [print_line console stdin effects] in S8, E8.
  rewrite E7 in E8. rewrite S7 in S8.
  pose proof (license_step_spec env license_answer
                (license_file (os_path_join cwd "license_info.txt")
                   (license_info datasets)) w8) as C9.
  destruct ((if String.eqb license_answer "y"
             then call env
                    (license_file (os_path_join cwd "license_info.txt")
                       (license_info datasets))
             else io_ret tt) w8) as [[[] | e] w9].
  2: { destruct C9 as (S9 & E9 & C9).
       exists (prefix ++ map load_zoo calls
               ++ [license_file (os_path_join cwd "license_info.txt")
                     (license_info datasets)]).
       rewrite E9, E8, <- !app_assoc. split; [reflexivity | ].
       split.
       - split; [right; right; left; eexists; exact C9 | ].
         right. exists (prefix ++ map load_zoo calls),
                       (license_file (os_path_join cwd "license_info.txt")
                          (license_info datasets)).
         rewrite <- app_assoc. auto.
       - intros n c r H _ _. exact (Prefix _ n c r H). }
  destruct C9 as (S9 & E9). rewrite E8 in E9.
  cbn [io_print].
  (* the exports *)
  pose proof (export_dataset_spec env dataset_params datasets
                (os_path_join cwd dataset_name) label_field
                (print_line "Exporting dataset..." w9) Hlabel) as X10.
  destruct (export_dataset env dataset_params datasets
              (os_path_join cwd dataset_name)
              (print_line "Exporting dataset..." w9)) as [[[] | e] w10].
  2: { destruct X10 as (S10 & before & c & E10 & O10 & C10).
       cbn [print_line effects] in E10. rewrite E9 in E10.
       exists (prefix ++ map load_zoo calls
               ++ (if String.eqb license_answer "y"
                   then [license_file (os_path_join cwd "license_info.txt")
                           (license_info datasets)]
                   else [])
               ++ before ++ [c]).
       rewrite E10, <- !app_assoc. split; [reflexivity | ].
       split.
       - split; [right; right; left; eexists; exact C10 | ].
         right.
         exists (prefix ++ map load_zoo calls
                 ++ (if String.eqb license_answer "y"
                     then [license_file (os_path_join cwd "license_info.txt")
                             (license_info datasets)]
                     else [])
                 ++ before), c.
         rewrite <- !app_assoc. auto.
       - intros n c' r H _ _. exact (Prefix _ n c' r H). }
  destruct X10 as (S10 & E10).
  cbn [io_print].
  cbn [print_line console stdin effects] in S10, E10 |- *.
  rewrite E9 in E10.
  exists (prefix ++ map load_zoo calls
          ++ (if String.eqb license_answer "y"
              then [license_file (os_path_join cwd "license_info.txt")
                      (license_info datasets)]
              else [])
          ++ exports (os_path_join cwd dataset_name) label_field
               (classes dataset_params) datasets).
  rewrite E10, <- !app_assoc. split; [reflexivity | ].
  split.
  - exists dataset_name, clear_answer, default_answer, (stdin (console w5)),
           dataset_params, calls, datasets, label_field, license_answer.
    split; [exact S1 | ].
    split.
    + destruct Tie as [(Hy & Hp & Hw) | (Hn & Hu)].
      * left. split; [exact Hy | ]. split; [exact Hp | ].
        subst w6. rewrite S10, S9. exact S8.
      * right. split; [exact Hn | ].
        destruct (console w5) as [lines5 printed5] eqn:K5.
        exists printed5, (console w6). cbn [stdin].
        split; [exact Hu | ]. rewrite S10, S9. exact S8.
    + split; [exact Hload | ]. split; [exact Hlabel | reflexivity].
  - intros n c r H _ _. exact (Prefix _ n c r H).
Qed.

(** X18.  A run of [main] that ends well did, in this order and nothing
    else: create the dataset folder (named after the first line typed,
    under the working directory), clear the existing data if the second
    line is exactly [y], make the retrieval calls of [load_dataset] for
    the parameters, write the license file if the line typed at the
    license question is exactly [y], and export the three splits [train],
    [validation] and [test] into the dataset folder with the one label
    type of the parameters.  The parameters are the default settings if
    the third line is exactly [y], and otherwise what [user_input] returns
    on the lines that follow; the license answer is the line typed after
    them. *)
Theorem X18_main_success_effects_in_order
    (env : Environment) (limit : Z) (float_of_str : string -> option float)
    (format_3f : float -> string) (cwd fiftyone_path : string)
    (fiftyone : PathState) (w w' : World) :
  main_io env limit float_of_str format_3f cwd fiftyone_path fiftyone w
  = (Ok tt, w') ->
  exists dataset_name clear_answer default_answer rest
         dataset_params calls datasets label_field license_answer,
    stdin (console w)
    = dataset_name :: clear_answer :: default_answer :: rest
    /\ ((default_answer = "y"%string
         /\ dataset_params
            = default_settings
                (Dataset_init 0 (S754_zero false) (S754_zero false)
                   (S754_zero false) "" "" [0; 0])
         /\ rest = license_answer :: stdin (console w'))
        \/ (default_answer <> "y"%string
            /\ exists printed io',
                 user_input limit float_of_str format_3f (classes_file env)
                   {| stdin := rest; stdout := printed |}
                 = (Ok dataset_params, io')
                 /\ stdin io' = license_answer :: stdin (console w')))
    /\ load_dataset (zoo_samples env) dataset_params = Ok (calls, datasets)
    /\ label_type dataset_params = [label_field]
    /\ effects w'
       = effects w
         ++ os_makedirs (os_path_join cwd dataset_name)
            :: (if String.eqb clear_answer "y"
                then clear_calls fiftyone_path fiftyone else [])
         ++ map load_zoo calls
         ++ (if String.eqb license_answer "y"
             then [license_file (os_path_join cwd "license_info.txt")
                     (license_info datasets)]
             else [])
         ++ exports (os_path_join cwd dataset_name) label_field
              (classes dataset_params) datasets.
Proof.
  intros H.
  pose proof (main_io_spec env limit float_of_str format_3f cwd fiftyone_path
                fiftyone w) as S.
  rewrite H in S.
  destruct S as (new & E & (dataset_name & clear_answer & default_answer
                            & rest & dataset_params & calls & datasets
                            & label_field & license_answer
                            & Hin & Tie & Hload & Hlabel & Hnew) & _).
  exists dataset_name, clear_answer, default_answer, rest, dataset_params,
         calls, datasets, label_field, license_answer.
  split; [exact Hin | ]. split; [exact Tie | ].
  split; [exact Hload | ]. split; [exact Hlabel | ].
  rewrite E, Hnew. reflexivity.
Qed.

Lemma X18_main_success_effects_in_order_witness :
  exists dataset_name clear_answer default_answer rest
         dataset_params calls datasets label_field license_answer,
    stdin (console
             (example_world
                ["coco"; "y"; "n"; "10"; "0.7"; "0.2"; "0.1"; "4:1"; "help";
                 "cat,dog"; "detections"; "n"]%string))
    = dataset_name :: clear_answer :: default_answer :: rest
    /\ ((default_answer = "y"%string
         /\ dataset_params
            = default_settings
                (Dataset_init 0 (S754_zero false) (S754_zero false)
                   (S754_zero false) "" "" [0; 0])
         /\ rest
            = license_answer
              :: stdin (console
                          (snd (example_main (calm example_zoo None)
                                  ["coco"; "y"; "n"; "10"; "0.7"; "0.2"; "0.1";
                                   "4:1"; "help"; "cat,dog"; "detections";
                                   "n"]%string))))
        \/ (default_answer <> "y"%string
            /\ exists printed io',
                 user_input 4300 example_float_of_str
                   (fun _ => "0.000"%string)
                   (classes_file (calm example_zoo None))
                   {| stdin := rest; stdout := printed |}
                 = (Ok dataset_params, io')
                 /\ stdin io'
                    = license_answer
                      :: stdin (console
                                  (snd (example_main (calm example_zoo None)
                                          ["coco"; "y"; "n"; "10"; "0.7"; "0.2";
                                           "0.1"; "4:1"; "help"; "cat,dog";
                                           "detections"; "n"]%string)))))
    /\ load_dataset (zoo_samples (calm example_zoo None)) dataset_params
       = Ok (calls, datasets)
    /\ label_type dataset_params = [label_field]
    /\ effects (snd (example_main (calm example_zoo None)
                       ["coco"; "y"; "n"; "10"; "0.7"; "0.2"; "0.1"; "4:1";
                        "help"; "cat,dog"; "detections"; "n"]%string))
       = effects (example_world
                    ["coco"; "y"; "n"; "10"; "0.7"; "0.2"; "0.1"; "4:1";
                     "help"; "cat,dog"; "detections"; "n"]%string)
         ++ os_makedirs (os_path_join "/home/user" dataset_name)
            :: (if String.eqb clear_answer "y"
                then clear_calls "/home/user/fiftyone" example_fiftyone
                else [])
         ++ map load_zoo calls
         ++ (if String.eqb license_answer "y"
             then [license_file
                     (os_path_join "/home/user" "license_info.txt")
                     (license_info datasets)]
             else [])
         ++ exports (os_path_join "/home/user" dataset_name) label_field
              (classes dataset_params) datasets.
Proof.
  apply (X18_main_success_effects_in_order (calm example_zoo None) 4300
           example_float_of_str (fun _ => "0.000"%string)
           "/home/user" "/home/user/fiftyone" example_fiftyone
           (example_world
              ["coco"; "y"; "n"; "10"; "0.7"; "0.2"; "0.1"; "4:1"; "help";
               "cat,dog"; "detections"; "n"]%string)
           (snd (example_main (calm example_zoo None)
                   ["coco"; "y"; "n"; "10"; "0.7"; "0.2"; "0.1"; "4:1"; "help";
                    "cat,dog"; "detections"; "n"]%string))).
  vm_compute. reflexivity.
Defined.



(** X20.  [main] creates the dataset folder and clears the existing data
    before it knows the parameters: once two lines are read, the folder
    was created and, if the second line is exactly [y], every deletion
    of [clear_existing_data] was made, whatever comes next in the input
    and whether the run then fails or not. *)
Theorem X20_main_creates_and_clears_first
    (limit : Z) (float_of_str : string -> option float)
    (format_3f : float -> string) (available_classes : option string)
    (zoo : ZooRequest -> list Sample) (cwd fiftyone_path : string)
    (fiftyone : PathState)
    (dataset_name clear_answer : string) (rest printed : list string)
    (done : list Effect) :
  exists more,
    effects
      (snd (main limit float_of_str format_3f available_classes zoo cwd
              fiftyone_path fiftyone
              {| console := {| stdin := dataset_name :: clear_answer :: rest;
                               stdout := printed |};
                 effects := done |}))
    = done
      ++ os_makedirs (os_path_join cwd dataset_name)
         :: (if String.eqb clear_answer "y"
             then clear_calls fiftyone_path fiftyone else [])
      ++ more.
Proof.
  unfold main.
  pose proof (main_io_spec (calm zoo available_classes) limit float_of_str
                format_3f cwd fiftyone_path fiftyone
                {| console := {| stdin := dataset_name :: clear_answer :: rest;
                                 stdout := printed |};
                   effects := done |}) as S.
  cbn [console stdin effects] in S.
  destruct (main_io (calm zoo available_classes) limit float_of_str format_3f
              cwd fiftyone_path fiftyone _) as [r w'].
  destruct S as (new & E & _ & P).
  destruct (P dataset_name clear_answer rest eq_refl eq_refl eq_refl)
    as (more & Hnew).
  exists more. cbn [snd]. rewrite E, Hnew. reflexivity.
Qed.

Lemma default_load (zoo : ZooRequest -> list Sample) (self : Dataset) :
  load_dataset zoo (default_settings self)
  = Ok ([positives_request (default_settings self) (19, 191, 5, 55, 3, 27);
         negatives_request (default_settings self) (19, 191, 5, 55, 3, 27)],
        assign_loop 19 5
          (zoo (negatives_request (default_settings self)
                  (19, 191, 5, 55, 3, 27))) 0
          (assign_loop 191 55
             (zoo (positives_request (default_settings self)
                     (19, 191, 5, 55, 3, 27))) 0 empty_datasets)).
Proof.
  assert (P : split_dataset (default_settings self)
              = Ok (19, 191, 5, 55, 3, 27)) by (vm_compute; reflexivity).
  rewrite (load_dataset_eq zoo (default_settings self) 10 1 []
             19 191 5 55 3 27 eq_refl P).
  reflexivity.
Qed.

(** X21.  The default run.  When the third line typed is exactly [y] and
    no call of the operating system or of the library fails, [main] asks
    for no parameter and ends well as soon as four lines are there: it
    plans 191, 55 and 27 positives and 19, 5 and 3 negatives, makes
    exactly two retrieval calls, for 273 samples of the class [keyboard]
    from the corpus's train split and for 27 samples, with no class
    filter, from its validation split, both with the label type
    [segmentations], cuts each answer at its train and validation quotas
    and exports the three splits; exactly four lines are read. *)
Theorem X21_default_run_asks_for_273_and_27
    (env : Environment) (limit : Z) (float_of_str : string -> option float)
    (format_3f : float -> string) (cwd fiftyone_path : string)
    (fiftyone : PathState)
    (dataset_name clear_answer license_answer : string)
    (rest printed : list string) (done : list Effect) :
  succeeds env ->
  let positives :=
    {| zoo_split := "train"; only_matching := true; include_id := true;
       include_license := true; zoo_label_types := ["segmentations"%string];
       zoo_classes := Some ["keyboard"%string]; max_samples := 273;
       drop_existing := true; shuffle := true |} in
  let negatives :=
    {| zoo_split := "validation"; only_matching := true; include_id := true;
       include_license := true; zoo_label_types := ["segmentations"%string];
       zoo_classes := None; max_samples := 27;
       drop_existing := true; shuffle := true |} in
  let datasets :=
    assign_loop 19 5 (zoo_samples env negatives) 0
      (assign_loop 191 55 (zoo_samples env positives) 0 empty_datasets) in
  exists w',
    main_io env limit float_of_str format_3f cwd fiftyone_path fiftyone
      {| console :=
           {| stdin := dataset_name :: clear_answer :: "y"%string
                       :: license_answer :: rest;
              stdout := printed |};
         effects := done |}
    = (Ok tt, w')
    /\ stdin (console w') = rest
    /\ effects w'
       = done
         ++ os_makedirs (os_path_join cwd dataset_name)
            :: (if String.eqb clear_answer "y"
                then clear_calls fiftyone_path fiftyone else [])
         ++ [load_zoo positives; load_zoo negatives]
         ++ (if String.eqb license_answer "y"
             then [license_file (os_path_join cwd "license_info.txt")
                     (license_info datasets)]
             else [])
         ++ exports (os_path_join cwd dataset_name) "segmentations"
              ["keyboard"%string] datasets.
Proof.
  intros (Hcall & Hlist & HD & Hadd) positives negatives datasets.
  unfold main_io, io_bind. cbn [io_print].
  unfold input at 1. cbn [print_line console stdin stdout effects].
  unfold call at 1. rewrite Hcall. cbn [io_print].
  unfold input at 1. cbn [print_line perform console stdin stdout effects].
  (* the clearing *)
  match goal with
  | |- context [(if String.eqb clear_answer "y" then ?a else ?b) ?x] =>
      pose proof (clear_step_spec env fiftyone_path fiftyone clear_answer x)
        as C4;
      destruct ((if String.eqb clear_answer "y" then a else b) x)
        as [[[] | e] w4]
  end.
  2: { destruct C4 as (_ & _ & C4). rewrite Hlist in C4. discriminate C4. }
  destruct C4 as (S4 & E4). cbn [console stdin effects] in S4, E4.
  cbn [io_print].
  (* the settings question *)
  pose proof (input_spec
                (print_line "Do you want to use default settings? (y/n)" w4))
    as I5.
  destruct (input (print_line "Do you want to use default settings? (y/n)" w4))
    as [[default_answer | e] w5].
  2: { destruct I5 as (_ & _ & I5).
       cbn [print_line console stdin] in I5. rewrite S4 in I5.
       discriminate I5. }
  destruct I5 as (S5 & E5). cbn [print_line console stdin effects] in S5, E5.
  rewrite S4 in S5. injection S5 as <- S5.
  change (String.eqb "y" "y") with true. cbv beta iota. cbn [io_ret io_print].
  (* the retrieval *)
  set (params := default_settings
                   (Dataset_init 0 (S754_zero false) (S754_zero false)
                      (S754_zero false) "" "" [0; 0])).
  assert (Hplan : split_dataset params = Ok (19, 191, 5, 55, 3, 27))
    by (vm_compute; reflexivity).
  pose proof (load_dataset_io_spec env params
                (print_line "Loading dataset..." w5)) as L7.
  rewrite Hplan in L7.
  destruct (load_dataset_io env params (print_line "Loading dataset..." w5))
    as [[loaded | e] w7].
  2: { exfalso. destruct L7 as (_ & calls & _ & _ & _ & L7).
       destruct L7 as [H | [(call & _ & H) | (key & sample & H)]].
       - rewrite HD in H. discriminate H.
       - rewrite Hcall in H. discriminate H.
       - rewrite Hadd in H. discriminate H. }
  destruct L7 as (S7 & calls & E7 & _ & _ & Hload & _).
  cbn [print_line console stdin effects] in S7, E7.
  unfold params in Hload. rewrite default_load in Hload.
  injection Hload as <- <-.
  cbn [io_print].
  (* the license question *)
  pose proof (input_spec
                (print_line
                   "Do you want a text file with license information? (y/n)"
                   (print_line "Dataset loaded successfully!" w7))) as I8.
  destruct (input
              (print_line
                 "Do you want a text file with license information? (y/n)"
                 (print_line "Dataset loaded successfully!" w7)))
    as [[answer | e] w8].
  2: { destruct I8 as (_ & _ & I8).
       cbn [print_line console stdin] in I8. rewrite S7, <- S5 in I8.
       discriminate I8. }
  destruct I8 as (S8 & E8). cbn [print_line console stdin effects] in S8, E8.
  rewrite S7, <- S5 in S8. injection S8 as <- S8.
  match goal with
  | |- context [(if String.eqb license_answer "y" then call env ?c else ?b) w8]
    =>
      pose proof (license_step_spec env license_answer c w8) as C9;
      destruct ((if String.eqb license_answer "y" then call env c else b) w8)
        as [[[] | e] w9]
  end.
  2: { destruct C9 as (_ & _ & C9). rewrite Hcall in C9. discriminate C9. }
  destruct C9 as (S9 & E9).
  cbn [io_print].
  (* the exports *)
  match goal with
  | |- context [export_dataset env params ?d ?f ?x] =>
      pose proof (export_dataset_spec env params d f "segmentations" x eq_refl)
        as X10;
      destruct (export_dataset env params d f x) as [[[] | e] w10]
  end.
  2: { destruct X10 as (_ & before & c & _ & _ & X10).
       rewrite Hcall in X10. discriminate X10. }
  destruct X10 as (S10 & E10).
  cbn [print_line console stdin effects] in S10, E10.
  cbn [io_print].
  eexists. split; [reflexivity | ].
  cbn [print_line console stdin effects].
  split.
  - rewrite S10, S9. symmetry. exact S8.
  - rewrite E10, E9, E8, E7, E5, E4.
    cbn [map classes params default_settings].
    rewrite <- !app_assoc. reflexivity.
Qed.

Lemma X21_default_run_asks_for_273_and_27_witness :
  let positives :=
    {| zoo_split := "train"; only_matching := true; include_id := true;
       include_license := true; zoo_label_types := ["segmentations"%string];
       zoo_classes := Some ["keyboard"%string]; max_samples := 273;
       drop_existing := true; shuffle := true |} in
  let negatives :=
    {| zoo_split := "validation"; only_matching := true; include_id := true;
       include_license := true; zoo_label_types := ["segmentations"%string];
       zoo_classes := None; max_samples := 27;
       drop_existing := true; shuffle := true |} in
  let datasets :=
    assign_loop 19 5 (zoo_samples (calm example_zoo None) negatives) 0
      (assign_loop 191 55 (zoo_samples (calm example_zoo None) positives) 0
         empty_datasets) in
  exists w',
    main_io (calm example_zoo None) 4300 example_float_of_str
      (fun _ => "0.000"%string) "/home/user" "/home/user/fiftyone"
      example_fiftyone
      {| console :=
           {| stdin := ["coco"; "y"; "y"; "n"; "more"]%string;
              stdout := [] |};
         effects := [] |}
    = (Ok tt, w')
    /\ stdin (console w') = ["more"%string]
    /\ effects w'
       = []
         ++ os_makedirs (os_path_join "/home/user" "coco")
            :: (if String.eqb "y" "y"
                then clear_calls "/home/user/fiftyone" example_fiftyone
                else [])
         ++ [load_zoo positives; load_zoo negatives]
         ++ (if String.eqb "n" "y"
             then [license_file (os_path_join "/home/user" "license_info.txt")
                     (license_info datasets)]
             else [])
         ++ exports (os_path_join "/home/user" "coco") "segmentations"
              ["keyboard"%string] datasets.
Proof.
  apply (X21_default_run_asks_for_273_and_27 (calm example_zoo None) 4300
           example_float_of_str (fun _ => "0.000"%string)
           "/home/user" "/home/user/fiftyone" example_fiftyone
           "coco" "y" "n" ["more"%string] [] []).
  unfold succeeds. simpl. repeat split; reflexivity.
Defined.
(** * Totals too large for a float *)

Lemma Zdigits2_ge_pow (m : Z) : 0 < m -> 2 ^ (Zdigits2 m - 1) <= m.
Proof.
  intros Hm.
  destruct (Z.le_gt_cases (2 ^ (Zdigits2 m - 1)) m) as [ | Hlt]; [assumption | ].
  exfalso.
  assert (Hd : 1 <= Zdigits2 m).
  { destruct m as [ | p | p]; try lia. cbn [Zdigits2].
    destruct p; cbn [digits2_pos]; lia. }
  apply Zdigits2_le_iff in Hlt; lia.
Qed.

(** [shr_fexp] keeps a positive mantissa positive and never lowers the
    exponent, as long as the number is not below the format's range. *)
Lemma shr_fexp_pos (m e : Z) (l : location) :
  0 < m ->
  -1074 < Zdigits2 m + e ->
  let '(mrs, e') := shr_fexp prec emax m e l in
  0 < shr_m mrs /\ e <= e' /\ Zdigits2 m + e - 53 <= e'.
Proof.
  intros Hm Hlo. unfold shr_fexp, shr.
  set (k := fexp prec emax (Zdigits2 m + e)).
  assert (Hk : k = Z.max (Zdigits2 m + e - 53) (-1074)) by reflexivity.
  clearbody k.
  destruct (k - e) as [ | n | n] eqn:En.
  - rewrite shr_record_of_loc_m. split; [assumption | lia].
  - destruct (iter_shr_1_m n (shr_record_of_loc m l)) as [E P].
    { rewrite shr_record_of_loc_m. lia. }
    rewrite shr_record_of_loc_m in E. rewrite E.
    split; [ | lia].
    apply Z.div_str_pos. split; [apply Z.pow_pos_nonneg; lia | ].
    apply Z.le_trans with (2 ^ (Zdigits2 m - 1));
      [apply Z.pow_le_mono_r; lia | apply Zdigits2_ge_pow; assumption].
  - rewrite shr_record_of_loc_m. split; [assumption | lia].
Qed.

Lemma round_nearest_even_ge (m : Z) (l : location) :
  m <= round_nearest_even m l.
Proof.
  unfold round_nearest_even.
  destruct l as [ | []]; try lia. destruct (Z.even m); lia.
Qed.

(** Rounding a number of [2^1024] or more to the format gives an
    infinity. *)
Lemma binary_round_aux_overflow (s : bool) (m e : Z) (l : location) :
  0 < m -> 0 <= e -> 1025 <= Zdigits2 m + e ->
  binary_round_aux prec emax s m e l = S754_infinity s.
Proof.
  intros Hm He Hd. unfold binary_round_aux.
  pose proof (shr_fexp_pos m e l Hm ltac:(lia)) as B1.
  destruct (shr_fexp prec emax m e l) as [mrs1 e1].
  destruct B1 as (P1 & E1).
  pose proof (round_nearest_even_ge (shr_m mrs1) (loc_of_shr_record mrs1)) as P2.
  set (m2 := round_nearest_even (shr_m mrs1) (loc_of_shr_record mrs1)) in *.
  assert (Hm2 : 0 < m2) by lia.
  pose proof (Zdigits2_nonneg m2) as D2.
  pose proof (shr_fexp_pos m2 e1 loc_Exact Hm2 ltac:(lia)) as B3.
  destruct (shr_fexp prec emax m2 e1 loc_Exact) as [mrs3 e3].
  destruct B3 as (P3 & E3).
  destruct (shr_m mrs3) as [ | p | p]; [lia | | lia].
  change (emax - prec) with 971.
  destruct (Z.leb_spec e3 971); [lia | reflexivity].
Qed.

Lemma of_int_overflow (n : Z) :
  2 ^ 1024 <= Z.abs n -> of_int n = Raise OverflowError.
Proof.
  intros Hn. unfold of_int.
  assert (Hd : 1025 <= Zdigits2 (Z.abs n)).
  { destruct (Z.le_gt_cases 1025 (Zdigits2 (Z.abs n))) as [ | Hlt];
      [assumption | exfalso].
    assert (H : Zdigits2 (Z.abs n) <= 1024) by lia.
    apply Zdigits2_le_iff in H; lia. }
  assert (I : forall (s : bool) (p : positive),
             1025 <= Zdigits2 (Z.pos p) ->
             binary_round prec emax s p 0 = S754_infinity s).
  { intros s p Hp. unfold binary_round, shl_align.
    cbn [Zdigits2] in Hp.
    assert (Hk : fexp prec emax (Z.pos (digits2_pos p) + 0)
                 = Z.max (Z.pos (digits2_pos p) + 0 - 53) (-1074))
      by reflexivity.
    destruct (fexp prec emax (Z.pos (digits2_pos p) + 0) - 0)
      as [ | d | d] eqn:Ed; [ | | lia];
      apply binary_round_aux_overflow; cbn [Zdigits2]; lia. }
  unfold binary_normalize.
  destruct n as [ | p | p]; [cbn in Hn; lia | | ];
    rewrite (I _ p Hd); reflexivity.
Qed.

(** X22.  A total of [2^1024] or more in magnitude (the total prompt
    turns down no positive integer) cannot be converted to a float: for
    any split fractions, [split_dataset] raises [OverflowError] at its
    first product, and [load_dataset] fails with the same error before
    any retrieval. *)
Theorem X22_huge_total_raises_OverflowError
    (zoo : ZooRequest -> list Sample) (self : Dataset)
    (p n : Z) (rest : list Z) :
  pos_neg_ratio self = p :: n :: rest ->
  2 ^ 1024 <= Z.abs (total_number_of_images self) ->
  split_dataset self = Raise OverflowError
  /\ load_dataset zoo self = Raise OverflowError.
Proof.
  intros Hratio Hbig.
  assert (S : split_dataset self = Raise OverflowError).
  { rewrite (split_dataset_plan self p n rest Hratio).
    unfold plan, split_counts, split_images, int_mul.
    rewrite (of_int_overflow _ Hbig). reflexivity. }
  split; [exact S | exact (load_dataset_raises zoo self _ S)].
Qed.

Lemma X22_huge_total_raises_OverflowError_witness :
  split_dataset (request (2 ^ 1024) (lit 7 10) (lit 2 10) (lit 1 10) [10; 1])
  = Raise OverflowError
  /\ load_dataset example_zoo
       (request (2 ^ 1024) (lit 7 10) (lit 2 10) (lit 1 10) [10; 1])
     = Raise OverflowError.
Proof.
  apply (X22_huge_total_raises_OverflowError example_zoo
           (request (2 ^ 1024) (lit 7 10) (lit 2 10) (lit 1 10) [10; 1])
           10 1 []).
  - reflexivity.
  - apply Z.leb_le. vm_compute. reflexivity.
Defined.

